(** * PaperlessFAX web server: request-boundary security layer

    A shallow embedding of [web/server/index.mjs]: the session-key
    derivation chain, the sealed session token codec, the cookie / bearer-key
    credential resolver, the routing-time authorization gates and the
    server-sent-events change bus, followed by the properties the
    specification states about them.

    Conventions of the embedding.
    - A JavaScript string is a [string]: a sequence of 8-bit code units
      (the Latin-1 range of UTF-16).  [trim], [toLowerCase] and the
      comparison operators are the ECMAScript ones restricted to that range.
    - A JavaScript number that the server computes with (timestamps, the event
      sequence, SQL integers) is an integer of [Z]; they all stay far below
      2^53, where double arithmetic is exact.  Non-finite numbers, which
      [JSON.parse] and [Number] can produce, are kept as separate values.
    - A [Buffer] is a list of bytes.
    - A function that can throw returns [exn A]; [try_catch] is the
      [try { } catch { }] statement.  The conversions [String(v)] and
      [Number(v)] are among them: they throw [TypeError] on an object that
      has a property named [toString] of its own, as a parsed JSON body can.
    - Built-ins of Node that the file calls but does not define (SHA-256,
      AES-256-GCM, JSON, UTF-8, [decodeURIComponent], the digits of a number
      beyond the safe integers) are the fields of a [Runtime]; what a theorem
      needs of them is a hypothesis of that theorem. *)

From Stdlib Require Import ZArith NArith String Ascii List Bool Lia.
From Stdlib Require Import Sorting.Sorted Sorting.Permutation.
From Stdlib Require Strings.Byte.
From stdpp Require Import base option list gmap strings pretty.

Local Open Scope string_scope.
Local Open Scope Z_scope.

(** ** Exceptions *)

Inductive JsError : Type :=
| URIError
| SyntaxError
| CryptoError
| TypeError
| OtherError (message : string).

Inductive exn (A : Type) : Type :=
| Ret (a : A)
| Throw (e : JsError).
Arguments Ret {A} a.
Arguments Throw {A} e.

#[global] Instance exn_ret : MRet exn := fun A a => Ret a.
#[global] Instance exn_bind : MBind exn := fun A B f m =>
  match m with
  | Ret a => f a
  | Throw e => Throw e
  end.

Definition try_catch {A : Type} (body : exn A) (handler : JsError -> exn A) : exn A :=
  match body with
  | Ret a => Ret a
  | Throw e => handler e
  end.

Definition returns {A : Type} (m : exn A) : Prop := exists a, m = Ret a.

(** A function that can throw, over the elements of an array in order, as
    the loop of [Array.prototype.join] applies the conversion to a string:
    the first exception ends it. *)
Definition mapE {A B : Type} (f : A -> exn B) : list A -> exn (list B) :=
  fix go (l : list A) : exn (list B) :=
    match l with
    | [] => Ret []
    | x :: rest => y ← f x; ys ← go rest; Ret (y :: ys)
    end.

(** ** JavaScript strings *)

Module Js.

Definition code (c : ascii) : N := N_of_ascii c.

(** WhiteSpace and LineTerminator code points below 256. *)
Definition isLineTerminator (c : ascii) : bool :=
  (code c =? 10)%N || (code c =? 13)%N.

Definition isWhiteSpace (c : ascii) : bool :=
  (code c =? 9)%N || (code c =? 10)%N || (code c =? 11)%N || (code c =? 12)%N
  || (code c =? 13)%N || (code c =? 32)%N || (code c =? 160)%N.

Definition isEmpty (s : string) : bool :=
  match s with
  | EmptyString => true
  | String _ _ => false
  end.

Fixpoint trimStart (s : string) : string :=
  match s with
  | EmptyString => EmptyString
  | String c s' => if isWhiteSpace c then trimStart s' else s
  end.

Fixpoint trimEnd (s : string) : string :=
  match s with
  | EmptyString => EmptyString
  | String c s' =>
      let t := trimEnd s' in
      if isWhiteSpace c && isEmpty t then EmptyString else String c t
  end.

(** [String.prototype.trim] *)
Definition trim (s : string) : string := trimEnd (trimStart s).

(** [String.prototype.split] with a one-character separator. *)
Fixpoint split (sep : ascii) (s : string) : list string :=
  match s with
  | EmptyString => [EmptyString]
  | String c s' =>
      if Ascii.eqb c sep then EmptyString :: split sep s'
      else match split sep s' with
           | h :: t => String c h :: t
           | [] => [String c EmptyString]
           end
  end.

(** [Array.prototype.join] *)
Fixpoint join (sep : string) (parts : list string) : string :=
  match parts with
  | [] => EmptyString
  | [p] => p
  | p :: rest => p ++ sep ++ join sep rest
  end.

Fixpoint map (f : ascii -> ascii) (s : string) : string :=
  match s with
  | EmptyString => EmptyString
  | String c s' => String (f c) (map f s')
  end.

Fixpoint repeat (c : ascii) (n : nat) : string :=
  match n with
  | O => EmptyString
  | S n' => String c (repeat c n')
  end.

Definition lowerChar (c : ascii) : ascii :=
  let n := code c in
  if ((65 <=? n) && (n <=? 90))%N then ascii_of_N (n + 32)
  else if ((192 <=? n) && (n <=? 222) && negb (n =? 215))%N then ascii_of_N (n + 32)
  else c.

(** [String.prototype.toLowerCase] *)
Definition toLowerCase (s : string) : string := map lowerChar s.

(** Replace every occurrence of one character, as [replace(/c/g, d)] does. *)
Definition replaceAll (c d : ascii) (s : string) : string :=
  map (fun x => if Ascii.eqb x c then d else x) s.

(** [replace(/c+$/g, '')]: drop the trailing run of [c]. *)
Fixpoint stripTrailing (c : ascii) (s : string) : string :=
  match s with
  | EmptyString => EmptyString
  | String x s' =>
      let t := stripTrailing c s' in
      if Ascii.eqb x c && isEmpty t then EmptyString else String x t
  end.

Fixpoint startsWith (p s : string) : bool :=
  match p, s with
  | EmptyString, _ => true
  | String _ _, EmptyString => false
  | String a p', String b s' => Ascii.eqb a b && startsWith p' s'
  end.

Fixpoint drop (n : nat) (s : string) : string :=
  match n, s with
  | O, _ => s
  | S _, EmptyString => EmptyString
  | S n', String _ s' => drop n' s'
  end.

(** [replace(pattern, replacement)] with a string pattern: the first
    occurrence only. *)
Fixpoint replaceFirst (pat rep : string) (s : string) : string :=
  if startsWith pat s then rep ++ drop (String.length pat) s
  else match s with
       | EmptyString => EmptyString
       | String c s' => String c (replaceFirst pat rep s')
       end.

(** The relational operators on strings: code-unit lexicographic order. *)
Fixpoint ltb (a b : string) : bool :=
  match a, b with
  | _, EmptyString => false
  | EmptyString, String _ _ => true
  | String x a', String y b' =>
      if (code x <? code y)%N then true
      else if (code x =? code y)%N then ltb a' b'
      else false
  end.

Definition leb (a b : string) : bool := negb (ltb b a).

(** The same order as a three-way comparison. *)
Fixpoint compare (a b : string) : comparison :=
  match a, b with
  | EmptyString, EmptyString => Eq
  | EmptyString, String _ _ => Lt
  | String _ _, EmptyString => Gt
  | String x a', String y b' =>
      match N.compare (code x) (code y) with
      | Eq => compare a' b'
      | c => c
      end
  end.

(** Every character of [s] satisfies [P]. *)
Fixpoint allChars (P : ascii -> bool) (s : string) : bool :=
  match s with
  | EmptyString => true
  | String c s' => P c && allChars P s'
  end.

End Js.

(** ** JavaScript values *)

Inductive jsnum : Type :=
| Fin (z : Z)
| NaN
| PosInf
| NegInf.

#[warnings="-register-all"] Inductive jsval : Type :=
| JUndefined
| JNull
| JBool (b : bool)
| JNumber (n : jsnum)
| JString (s : string)
| JArray (items : list jsval)
| JObject (fields : list (string * jsval)).

Module Val.

(** [ToBoolean] *)
Definition truthy (v : jsval) : bool :=
  match v with
  | JUndefined | JNull => false
  | JBool b => b
  | JNumber (Fin z) => negb (z =? 0)
  | JNumber NaN => false
  | JNumber _ => true
  | JString s => negb (Js.isEmpty s)
  | JArray _ | JObject _ => true
  end.

(** [typeof v === 'object'] *)
Definition typeofObject (v : jsval) : bool :=
  match v with
  | JNull | JArray _ | JObject _ => true
  | _ => false
  end.

Fixpoint assoc (k : string) (fields : list (string * jsval)) : option jsval :=
  match fields with
  | [] => None
  | (k', v) :: rest => if String.eqb k' k then Some v else assoc k rest
  end.

(** [v?.k] for the property names the server reads ([ver], [sub], [exp],
    [username], ...): own data properties of an object; an array, a
    primitive, [null] and [undefined] have none of them. *)
Definition get (v : jsval) (k : string) : jsval :=
  match v with
  | JObject fields => default JUndefined (assoc k fields)
  | _ => JUndefined
  end.

(** [v ?? d] *)
Definition nullish (v d : jsval) : jsval :=
  match v with
  | JUndefined | JNull => d
  | _ => v
  end.

Definition isFinite (n : jsnum) : bool :=
  match n with
  | Fin _ => true
  | _ => false
  end.

(** [n <= m] for a number [n] and an integer [m]; comparisons with [NaN]
    are false. *)
Definition leZ (n : jsnum) (m : Z) : bool :=
  match n with
  | Fin z => z <=? m
  | NegInf => true
  | NaN | PosInf => false
  end.

(** [v !== n] for an integer literal [n]. *)
Definition strictNeZ (v : jsval) (n : Z) : bool :=
  match v with
  | JNumber (Fin z) => negb (z =? n)
  | _ => true
  end.

(** Object spread [{ ...base, k: v }]: an existing key keeps its place and
    takes the new value, a new key is appended. *)
Fixpoint setField (k : string) (v : jsval) (fields : list (string * jsval))
  : list (string * jsval) :=
  match fields with
  | [] => [(k, v)]
  | (k', v') :: rest =>
      if String.eqb k' k then (k, v) :: rest else (k', v') :: setField k v rest
  end.

Definition spread (base extra : list (string * jsval)) : list (string * jsval) :=
  fold_left (fun acc kv => setField (fst kv) (snd kv) acc) extra base.

End Val.

(** ** Buffers, hexadecimal and base64 *)

Definition Buffer : Type := list Byte.byte.

Module Hex.

Definition digit (n : N) : ascii :=
  if (n <? 10)%N then ascii_of_N (48 + n) else ascii_of_N (87 + n).

(** [buffer.toString('hex')] *)
Fixpoint encode (b : Buffer) : string :=
  match b with
  | [] => EmptyString
  | x :: rest =>
      let n := Byte.to_N x in
      String (digit (n / 16)) (String (digit (n mod 16)) (encode rest))
  end.

End Hex.

Module Base64.

Definition byteOfN (n : N) : Byte.byte := default Byte.x00 (Byte.of_N n).

(** The character of a 6-bit group in the standard alphabet. *)
Definition char (v : N) : ascii :=
  if (v <? 26)%N then ascii_of_N (65 + v)
  else if (v <? 52)%N then ascii_of_N (71 + v)
  else if (v <? 62)%N then ascii_of_N (v - 4)
  else if (v =? 62)%N then "+"%char
  else "/"%char.

(** The 6-bit group of a character; Node's decoder reads the URL-safe
    characters [-] and [_] as well. *)
Definition unbase64 (c : ascii) : option N :=
  let n := Js.code c in
  if ((65 <=? n) && (n <=? 90))%N then Some (n - 65)%N
  else if ((97 <=? n) && (n <=? 122))%N then Some (n - 71)%N
  else if ((48 <=? n) && (n <=? 57))%N then Some (n + 4)%N
  else if ((n =? 43) || (n =? 45))%N then Some 62%N
  else if ((n =? 47) || (n =? 95))%N then Some 63%N
  else None.

Fixpoint sextets (b : Buffer) : list N :=
  match b with
  | [] => []
  | [x] =>
      let n := Byte.to_N x in
      [n / 4; (n mod 4) * 16]%N
  | [x; y] =>
      let n := (Byte.to_N x * 256 + Byte.to_N y)%N in
      [n / 1024; (n / 16) mod 64; (n mod 16) * 4]%N
  | x :: y :: z :: rest =>
      let n := (Byte.to_N x * 65536 + Byte.to_N y * 256 + Byte.to_N z)%N in
      (n / 262144 :: (n / 4096) mod 64 :: (n / 64) mod 64 :: n mod 64
         :: sextets rest)%N
  end.

Fixpoint chars (l : list N) : string :=
  match l with
  | [] => EmptyString
  | v :: rest => String (char v) (chars rest)
  end.

Definition padding (len : nat) : string :=
  match (len mod 3)%nat with
  | 1%nat => "=="
  | 2%nat => "="
  | _ => EmptyString
  end.

(** [buffer.toString('base64')] *)
Definition encode (b : Buffer) : string :=
  chars (sextets b) ++ padding (length b).

(** The groups the decoder reads: characters outside the alphabet are
    skipped and the first [=] ends the input. *)
Fixpoint groups (s : string) : list N :=
  match s with
  | EmptyString => []
  | String c s' =>
      if Ascii.eqb c "="%char then []
      else match unbase64 c with
           | Some v => v :: groups s'
           | None => groups s'
           end
  end.

Fixpoint bytes (l : list N) : Buffer :=
  match l with
  | a :: b :: c :: d :: rest =>
      let n := (a * 262144 + b * 4096 + c * 64 + d)%N in
      byteOfN (n / 65536) :: byteOfN ((n / 256) mod 256) :: byteOfN (n mod 256)
        :: bytes rest
  | [a; b; c] =>
      let n := (a * 4096 + b * 64 + c)%N in
      [byteOfN (n / 1024); byteOfN ((n / 4) mod 256)]
  | [a; b] =>
      [byteOfN ((a * 64 + b) / 16)]
  | _ => []
  end.

(** [Buffer.from(text, 'base64')]: never throws. *)
Definition decode (s : string) : Buffer := bytes (groups s).

(** The alphabet of [toBase64Url]. *)
Definition urlChar (c : ascii) : bool :=
  let n := Js.code c in
  (((65 <=? n) && (n <=? 90)) || ((97 <=? n) && (n <=? 122))
   || ((48 <=? n) && (n <=? 57)) || (n =? 45) || (n =? 95))%N.

Definition toUrl (c : ascii) : ascii :=
  (fun x => if Ascii.eqb x "/"%char then "_"%char else x)
    ((fun x => if Ascii.eqb x "+"%char then "-"%char else x) c).

Definition fromUrl (c : ascii) : ascii :=
  (fun x => if Ascii.eqb x "_"%char then "/"%char else x)
    ((fun x => if Ascii.eqb x "-"%char then "+"%char else x) c).

(** The text of [toBase64Url]: the URL-safe character of each group. *)
Fixpoint urlChars (l : list N) : string :=
  match l with
  | [] => EmptyString
  | v :: rest => String (toUrl (char v)) (urlChars rest)
  end.

(** Groups of six bits. *)
Definition small (l : list N) : Prop := Forall (fun v => (v < 64)%N) l.

End Base64.

(** [toBase64Url] *)
Definition toBase64Url (buffer : Buffer) : string :=
  Js.stripTrailing "="%char
    (Js.replaceAll "/"%char "_"%char
       (Js.replaceAll "+"%char "-"%char (Base64.encode buffer))).

(** [fromBase64Url] *)
Definition fromBase64Url (value : string) : Buffer :=
  let text := Js.trim value in
  if Js.isEmpty text then []
  else
    let normalized := Js.replaceAll "_"%char "/"%char (Js.replaceAll "-"%char "+"%char text) in
    let padLength := ((4 - (String.length normalized mod 4)) mod 4)%nat in
    let padded := normalized ++ Js.repeat "="%char padLength in
    Base64.decode padded.

(** ** The Node runtime *)

Record Runtime : Type := {
  (** [crypto.createHash('sha256').update(data).digest()] *)
  sha256 : Buffer -> Buffer;
  (** [Buffer.from(text, 'utf-8')] and [buffer.toString('utf-8')] *)
  utf8_encode : string -> Buffer;
  utf8_decode : Buffer -> string;
  (** [createCipheriv('aes-256-gcm', key, iv)], [update], [final] and
      [getAuthTag]: key, nonce and plaintext to ciphertext and tag. *)
  aes256gcm_seal : Buffer -> Buffer -> Buffer -> Buffer * Buffer;
  (** [createDecipheriv('aes-256-gcm', key, iv)], [setAuthTag], [update] and
      [final]: key, nonce, ciphertext and tag to the plaintext, or a throw. *)
  aes256gcm_open : Buffer -> Buffer -> Buffer -> Buffer -> exn Buffer;
  JSON_stringify : jsval -> string;
  JSON_parse : string -> exn jsval;
  decodeURIComponent : string -> exn string;
  (** [Number(text)] for a string. *)
  StringToNumber : string -> jsnum;
  (** [String(n)] for an integer [n] that is not a safe integer: the
      shortest digits that read back as [n], in exponent form from 1e21 on. *)
  NumberToString : Z -> string
}.

(** ** Conversions *)

Section Conversions.

Variable rt : Runtime.

(** [Number.isSafeInteger] on an integer: up to 2^53 - 1 in magnitude. *)
Definition isSafeInteger (z : Z) : bool := Z.abs z <=? 9007199254740991.

(** [String(n)] for a number: a safe integer prints all its digits. *)
Definition numToString (n : jsnum) : string :=
  match n with
  | Fin z => if isSafeInteger z then pretty z else NumberToString rt z
  | NaN => "NaN"
  | PosInf => "Infinity"
  | NegInf => "-Infinity"
  end.

(** [String(v)].  An object is converted by its [toString], then its
    [valueOf].  A property of a parsed JSON value is never a function, so an
    object that has a [toString] of its own has no method that yields a
    primitive, [Object.prototype.valueOf] returning the object itself, and
    the conversion throws [TypeError]; any other object inherits
    [Object.prototype.toString].  An array joins the conversions of its
    elements, [null] and [undefined] counting as the empty string. *)
Fixpoint ToString (v : jsval) : exn string :=
  match v with
  | JUndefined => Ret "undefined"
  | JNull => Ret "null"
  | JBool true => Ret "true"
  | JBool false => Ret "false"
  | JNumber n => Ret (numToString n)
  | JString s => Ret s
  | JArray items =>
      parts ← mapE (fun x => match x with
                             | JUndefined | JNull => Ret EmptyString
                             | _ => ToString x
                             end) items;
      Ret (Js.join "," parts)
  | JObject fields =>
      match Val.assoc "toString" fields with
      | Some _ => Throw TypeError
      | None => Ret "[object Object]"
      end
  end.

(** The values on which [String(v)] throws: an object with a [toString] of
    its own, and an array that holds such a value.  The properties of an
    object are not looked into. *)
Fixpoint throwsOnString (v : jsval) : bool :=
  match v with
  | JArray items => existsb throwsOnString items
  | JObject fields =>
      match Val.assoc "toString" fields with
      | Some _ => true
      | None => false
      end
  | _ => false
  end.

(** [Number(v)]: an array or an object is converted to a primitive as in
    [String(v)], [valueOf] yielding none. *)
Definition ToNumber (v : jsval) : exn jsnum :=
  match v with
  | JUndefined => Ret NaN
  | JNull => Ret (Fin 0)
  | JBool b => Ret (Fin (if b then 1 else 0))
  | JNumber n => Ret n
  | JString s => Ret (StringToNumber rt s)
  | JArray _ | JObject _ => text ← ToString v; Ret (StringToNumber rt text)
  end.

(** [String(v ?? '').trim()] *)
Definition trimmedText (v : jsval) : exn string :=
  text ← ToString (Val.nullish v (JString "")); Ret (Js.trim text).

End Conversions.

(** Induction on a value and on the elements of its arrays. *)
Fixpoint jsval_elements_ind (P : jsval -> Prop)
    (Hundefined : P JUndefined) (Hnull : P JNull) (Hbool : forall b, P (JBool b))
    (Hnumber : forall n, P (JNumber n)) (Hstring : forall s, P (JString s))
    (Harray : forall items, Forall P items -> P (JArray items))
    (Hobject : forall fields, P (JObject fields))
    (v : jsval) : P v :=
  match v with
  | JUndefined => Hundefined
  | JNull => Hnull
  | JBool b => Hbool b
  | JNumber n => Hnumber n
  | JString s => Hstring s
  | JArray items =>
      Harray items
        ((fix each (l : list jsval) : Forall P l :=
            match l with
            | [] => @List.Forall_nil _ P
            | x :: rest =>
                @List.Forall_cons _ P x rest
                  (jsval_elements_ind P Hundefined Hnull Hbool Hnumber Hstring Harray
                     Hobject x)
                  (each rest)
            end) items)
  | JObject fields => Hobject fields
  end.

(** ** Constants *)

Definition SESSION_COOKIE_NAME : string := "yokins_session".
Definition REMEMBER_ME_MAX_AGE_MS : Z := 30 * 24 * 60 * 60 * 1000.
Definition SESSION_MAX_AGE_MS : Z := 8 * 60 * 60 * 1000.
Definition SESSION_TOKEN_VERSION : Z := 1.

(** ** The database *)

Module Users.
Record row : Type := {
  UserName : string;
  PasswordSalt : string;
  PasswordHash : option string;
  Enabled : Z;
  IsAdmin : Z
}.
End Users.

Module ApiKeys.
Record row : Type := {
  ApiKeyID : string;
  KeyName : string;
  KeyHash : string;
  CreatedAt : string;
  ExpiresAt : option string;
  Enabled : Z
}.
End ApiKeys.

Record Database : Type := {
  tblUsers : list Users.row;
  tblApiKeys : list ApiKeys.row
}.

(** [SELECT ... FROM Users WHERE UserName = ?] then [.get(userName)] *)
Definition selectUser (db : Database) (userName : string) : option Users.row :=
  List.find (fun r => String.eqb (Users.UserName r) userName) (tblUsers db).

(** [SELECT ... FROM ApiKeys WHERE KeyHash = ? LIMIT 1] then [.get(keyHash)] *)
Definition selectApiKey (db : Database) (keyHash : string) : option ApiKeys.row :=
  List.find (fun r => String.eqb (ApiKeys.KeyHash r) keyHash) (tblApiKeys db).

(** ** Requests, principals and responses *)

Record Request : Type := {
  method : string;
  path : string;
  headers : gmap string string;
  remoteAddress : option string;
  body : jsval
}.

Inductive Role : Type := admin | user.

Record Principal : Type := {
  username : string;
  role : Role
}.

Record CookieOptions : Type := {
  cookiePath : string;
  httpOnly : bool;
  sameSite : string;
  secure : bool;
  maxAge : option Z
}.

Inductive CookieAction : Type :=
| NoCookie
| SetCookie (name value : string) (options : CookieOptions)
| ClearCookie (name : string) (options : CookieOptions).

Record Response : Type := {
  status : Z;
  json : jsval;
  cookie : CookieAction
}.

Definition reply (code : Z) (payload : jsval) : Response :=
  {| status := code; json := payload; cookie := NoCookie |}.

Definition errorBody (message : string) : jsval :=
  JObject [("error", JString message)].

(** The error-handling middleware, for an exception that is not an SQLite
    constraint violation. *)
Definition errorHandler (e : JsError) : Response :=
  reply 500 (errorBody "internal server error").

(** What the client gets from a handler that may throw, and what it gets
    and the state left by one that throws before it changes the state. *)
Definition respond (m : exn Response) : Response :=
  match m with
  | Ret r => r
  | Throw e => errorHandler e
  end.

Definition settle {S : Type} (st : S) (m : exn (Response * S)) : Response * S :=
  match m with
  | Ret x => x
  | Throw e => (errorHandler e, st)
  end.

(** ** Wall clock *)

(** The UTC fields of [new Date()]. *)
Record DateTime : Type := {
  year : N;
  month : N;
  day : N;
  hours : N;
  minutes : N;
  seconds : N;
  milliseconds : N
}.

Module Iso.

Definition digit (n : N) : ascii := ascii_of_N (48 + n mod 10).

Definition pad2 (n : N) : string :=
  String (digit (n / 10)) (String (digit n) EmptyString).

Definition pad3 (n : N) : string :=
  String (digit (n / 100)) (pad2 n).

Definition pad4 (n : N) : string :=
  String (digit (n / 1000)) (pad3 n).

(** The date and time to the second: [YYYY-MM-DDTHH:mm:ss]. *)
Definition toSeconds (d : DateTime) : string :=
  pad4 (year d) ++ "-" ++ pad2 (month d) ++ "-" ++ pad2 (day d) ++ "T"
    ++ pad2 (hours d) ++ ":" ++ pad2 (minutes d) ++ ":" ++ pad2 (seconds d).

(** [Date.prototype.toISOString], for the years 0000 to 9999. *)
Definition toISOString (d : DateTime) : string :=
  toSeconds d ++ "." ++ pad3 (milliseconds d) ++ "Z".

(** The fields fit their columns. *)
Definition wellFormed (d : DateTime) : Prop :=
  (year d < 10000 /\ month d < 100 /\ day d < 100 /\ hours d < 100
   /\ minutes d < 100 /\ seconds d < 100 /\ milliseconds d < 1000)%N.

(** The instant to the second, as a number that grows with time. *)
Definition secondsKey (d : DateTime) : N :=
  (((((year d * 100 + month d) * 100 + day d) * 100 + hours d) * 100
    + minutes d) * 100 + seconds d)%N.

(** The instant to the millisecond, likewise. *)
Definition instantKey (d : DateTime) : N :=
  (secondsKey d * 1000 + milliseconds d)%N.

End Iso.

(** [asIsoNow] *)
Definition asIsoNow (now : DateTime) : string :=
  Js.replaceFirst ".000Z" "" (Iso.toISOString now).

(** ** Key derivation *)

(** What [os] and [process] report.  [cpus] is [os.cpus()?.length]; an
    interface maps to its address entries, each with the [mac] it reports
    ([None] where [item?.mac] is missing); [networkInterfaces] may throw. *)
Record Host : Type := {
  env : gmap string string;
  hostname : string;
  platform : string;
  release : string;
  arch : string;
  cpus : option Z;
  networkInterfaces : exn (list (string * option (list (option string))))
}.

Module Sort.

Fixpoint insert (x : string) (l : list string) : list string :=
  match l with
  | [] => [x]
  | y :: rest => if Js.leb x y then x :: l else y :: insert x rest
  end.

(** [Array.prototype.sort()] on strings: ascending code-unit order. *)
Fixpoint sort (l : list string) : list string :=
  match l with
  | [] => []
  | x :: rest => insert x (sort rest)
  end.

(** The order it sorts by. *)
Definition le (a b : string) : Prop := Js.leb a b = true.

End Sort.

Definition nonEmpty (s : string) : bool := negb (Js.isEmpty s).

Definition flatMapItems (interfaces : list (string * option (list (option string))))
  : list (option string) :=
  List.concat (List.map (fun entry => default [] (snd entry)) interfaces).

(** The chain [.flatMap(...).map(...).filter(...)] and then [.sort()]. *)
Definition nonZeroMacs (interfaces : list (string * option (list (option string))))
  : list string :=
  List.filter (fun mac => nonEmpty mac && negb (String.eqb mac "00:00:00:00:00:00"))
    (List.map (fun item => Js.toLowerCase (Js.trim (default "" item)))
       (flatMapItems interfaces)).

Definition macAddressesOf (interfaces : list (string * option (list (option string))))
  : list string :=
  Sort.sort (nonZeroMacs interfaces).

(** [resolveServerFingerprint] *)
Definition resolveServerFingerprint (h : Host) : string :=
  let hostName := hostname h in
  let cpuCount := default 0 (cpus h) in
  let macAddresses :=
    match try_catch (interfaces ← networkInterfaces h; mret (macAddressesOf interfaces))
            (fun _ => mret []) with
    | Ret l => l
    | Throw _ => []
    end in
  let fingerprintParts :=
    List.filter nonEmpty
      (List.map Js.trim
         ([hostName; platform h; release h; arch h; pretty cpuCount] ++ macAddresses)) in
  if (length fingerprintParts =? 0)%nat then EmptyString
  else Js.join "|" fingerprintParts.

(** [a ?? b] on two environment variables. *)
Definition envOr (e : gmap string string) (a b : string) : option string :=
  match e !! a with
  | Some v => Some v
  | None => e !! b
  end.

Section KeyDerivation.

Variable rt : Runtime.

(** [getSessionSecretKey]: the key and the warnings it logs.
    [runtimeRandomSecret] is what [crypto.randomBytes(32)] returns. *)
Definition getSessionSecretKey (h : Host) (runtimeRandomSecret : Buffer)
  : Buffer * list string :=
  let configuredSecret := Js.trim (default "" (envOr (env h) "API_SESSION_SECRET" "APP_SECRET")) in
  if nonEmpty configuredSecret then
    (sha256 rt (utf8_encode rt configuredSecret), [])
  else
    let fingerprint := resolveServerFingerprint h in
    if nonEmpty fingerprint then
      (sha256 rt (utf8_encode rt ("server-fingerprint:" ++ fingerprint)),
       ["[api] API_SESSION_SECRET is not set. Using server-fingerprint-derived secret for session cookies."])
    else
      (sha256 rt runtimeRandomSecret,
       ["[api] API_SESSION_SECRET is not set. Using runtime-random secret for session cookies."]).

(** [hashPassword] and [hashApiKey] *)
Definition hashPassword (password salt : string) : string :=
  Hex.encode (sha256 rt (utf8_encode rt (salt ++ ":" ++ password))).

Definition hashApiKey (apiKey : string) : string :=
  Hex.encode (sha256 rt (utf8_encode rt ("apikey:" ++ Js.trim apiKey))).

End KeyDerivation.

(** ** Cookies *)

Definition toBool (value : jsval) : bool := Val.truthy value.

Definition sqlInt (n : Z) : jsval := JNumber (Fin n).

(** [parseEnvBool] *)
Definition parseEnvBool (value : option string) : bool :=
  let text := Js.toLowerCase (Js.trim (default "" value)) in
  String.eqb text "1" || String.eqb text "true" || String.eqb text "yes"
  || String.eqb text "on".

Section Cookies.

Variable rt : Runtime.

(** The body of the [for] loop of [parseCookies], over the remaining pairs. *)
Fixpoint parseCookiePairs (pairs : list string) (result : gmap string string)
  : exn (gmap string string) :=
  match pairs with
  | [] => mret result
  | entry :: more =>
      match Js.split "="%char entry with
      | [] => parseCookiePairs more result
      | rawKey :: rest =>
          let key := Js.trim rawKey in
          if Js.isEmpty key then parseCookiePairs more result
          else
            let rawValue := Js.trim (Js.join "=" rest) in
            value ← decodeURIComponent rt rawValue;
            parseCookiePairs more (<[key := value]> result)
      end
  end.

(** [parseCookies].  The result object is read at [SESSION_COOKIE_NAME]
    only, which is not a name it inherits, so a finite map stands for it. *)
Definition parseCookies (headerValue : option string) : exn (gmap string string) :=
  let cookieText := Js.trim (default "" headerValue) in
  if Js.isEmpty cookieText then mret ∅
  else parseCookiePairs (Js.split ";"%char cookieText) ∅.

(** [getSessionTokenFromRequest] *)
Definition getSessionTokenFromRequest (req : Request) : exn string :=
  cookies ← parseCookies (headers req !! "cookie");
  mret (Js.trim (default "" (cookies !! SESSION_COOKIE_NAME))).

End Cookies.

(** [setSessionCookie] and [clearSessionCookie]; [https] is
    [parseEnvBool(process.env.API_HTTPS)]. *)
Definition setSessionCookie (https : bool) (sessionToken : string) (rememberMe : bool)
  : CookieAction :=
  SetCookie SESSION_COOKIE_NAME sessionToken
    {| cookiePath := "/"; httpOnly := true; sameSite := "lax"; secure := https;
       maxAge := if rememberMe then Some REMEMBER_ME_MAX_AGE_MS else None |}.

Definition clearSessionCookie (https : bool) : CookieAction :=
  ClearCookie SESSION_COOKIE_NAME
    {| cookiePath := "/"; httpOnly := true; sameSite := "lax"; secure := https;
       maxAge := None |}.

(** ** The session codec and the credential resolver *)

Section Credentials.

Variable rt : Runtime.
(** [const sessionSecretKey = getSessionSecretKey()] *)
Variable sessionSecretKey : Buffer.

(** [encryptSessionPayload]; [iv] is what [crypto.randomBytes(12)] returns. *)
Definition encryptSessionPayload (iv : Buffer) (payload : jsval) : string :=
  let plaintext := utf8_encode rt (JSON_stringify rt payload) in
  let sealed := aes256gcm_seal rt sessionSecretKey iv plaintext in
  let encrypted := fst sealed in
  let authTag := snd sealed in
  toBase64Url iv ++ "." ++ toBase64Url encrypted ++ "." ++ toBase64Url authTag.

(** [decryptSessionPayload]; the value [null] is [JNull]. *)
Definition decryptSessionPayload (token : string) : exn jsval :=
  let text := Js.trim token in
  if Js.isEmpty text then mret JNull
  else
    match Js.split "."%char text with
    | [part0; part1; part2] =>
        try_catch
          (let iv := fromBase64Url part0 in
           let encrypted := fromBase64Url part1 in
           let authTag := fromBase64Url part2 in
           if negb (length iv =? 12)%nat || negb (length authTag =? 16)%nat then mret JNull
           else
             decrypted ← aes256gcm_open rt sessionSecretKey iv encrypted authTag;
             payload ← JSON_parse rt (utf8_decode rt decrypted);
             mret (if Val.truthy payload && Val.typeofObject payload then payload else JNull))
          (fun _ => mret JNull)
    | _ => mret JNull
    end.

(** The object literal of [createSessionToken]. *)
Definition sessionPayload (now : Z) (userName : string) (rememberMe : bool) : jsval :=
  let ttl := if rememberMe then REMEMBER_ME_MAX_AGE_MS else SESSION_MAX_AGE_MS in
  JObject [("ver", JNumber (Fin SESSION_TOKEN_VERSION));
           ("sub", JString userName);
           ("iat", JNumber (Fin now));
           ("exp", JNumber (Fin (now + ttl)))].

(** [createSessionToken]; [now] is [Date.now()]. *)
Definition createSessionToken (now : Z) (iv : Buffer) (userName : string) (rememberMe : bool)
  : string :=
  encryptSessionPayload iv (sessionPayload now userName rememberMe).

(** [buildSessionUser] *)
Definition buildSessionUser (row : option Users.row) : option Principal :=
  match row with
  | None => None
  | Some r =>
      Some {| username := Users.UserName r;
              role := if toBool (sqlInt (Users.IsAdmin r)) then admin else user |}
  end.

(** [resolveSessionUser]; [now] is [Date.now()]. *)
Definition resolveSessionUser (db : Database) (now : Z) (req : Request)
  : exn (option Principal) :=
  sessionToken ← getSessionTokenFromRequest rt req;
  if Js.isEmpty sessionToken then mret None
  else
    payload ← decryptSessionPayload sessionToken;
    userName ← trimmedText rt (Val.get payload "sub");
    expiresAt ← ToNumber rt (Val.get payload "exp");
    if Val.strictNeZ (Val.get payload "ver") SESSION_TOKEN_VERSION
       || Js.isEmpty userName
       || negb (Val.isFinite expiresAt)
       || Val.leZ expiresAt now
    then mret None
    else
      let row := selectUser db userName in
      match row with
      | None => mret None
      | Some r =>
          if negb (toBool (sqlInt (Users.Enabled r))) then mret None
          else mret (buildSessionUser row)
      end.

(** The leading run of white space of a string, and what follows it. *)
Fixpoint spanWhite (s : string) : string * string :=
  match s with
  | EmptyString => (EmptyString, EmptyString)
  | String c s' =>
      if Js.isWhiteSpace c then
        let r := spanWhite s' in (String c (fst r), snd r)
      else (EmptyString, s)
  end.

Fixpoint hasLineTerminator (s : string) : bool :=
  match s with
  | EmptyString => false
  | String c s' => Js.isLineTerminator c || hasLineTerminator s'
  end.

Fixpoint lastChar (s : string) : option ascii :=
  match s with
  | EmptyString => None
  | String c EmptyString => Some c
  | String _ s' => lastChar s'
  end.

(** [text.match(/^Bearer\s+(.+)$/i)?.[1]]: the scheme in any case, a
    greedy run of white space, then the rest of the input, which must be
    non-empty and free of line terminators. *)
Definition matchBearer (text : string) : option string :=
  if Js.startsWith "bearer" (Js.toLowerCase text) then
    let r := spanWhite (Js.drop 6 text) in
    let white := fst r in
    let rest := snd r in
    if Js.isEmpty white then None
    else if nonEmpty rest then
      (if hasLineTerminator rest then None else Some rest)
    else
      (* the greedy run gives back its last character to the group *)
      match lastChar white with
      | Some c =>
          if (2 <=? String.length white)%nat && negb (Js.isLineTerminator c)
          then Some (String c EmptyString) else None
      | None => None
      end
  else None.

(** The key a request presents: the capture of the [Authorization] header,
    as the first statements of [resolveApiKeyUser] compute it. *)
Definition bearerKey (req : Request) : string :=
  Js.trim (default "" (matchBearer (Js.trim (default "" (headers req !! "authorization"))))).

(** [resolveApiKeyUser]; [clock] is [new Date()]. *)
Definition resolveApiKeyUser (db : Database) (clock : DateTime) (req : Request)
  : option Principal :=
  let authorizationHeader := Js.trim (default "" (headers req !! "authorization")) in
  let matched := matchBearer authorizationHeader in
  let apiKey := Js.trim (default "" matched) in
  if Js.isEmpty apiKey then None
  else
    let keyHash := hashApiKey rt apiKey in
    match selectApiKey db keyHash with
    | None => None
    | Some row =>
        if negb (toBool (sqlInt (ApiKeys.Enabled row))) then None
        else
          let expiresAt := Js.trim (default "" (ApiKeys.ExpiresAt row)) in
          if nonEmpty expiresAt && Js.leb expiresAt (asIsoNow clock) then None
          else Some {| username := "apikey:" ++ ApiKeys.KeyName row; role := user |}
    end.

(** The first middleware:
    [req.authUser = resolveSessionUser(req) ?? resolveApiKeyUser(req)]. *)
Definition authUserMiddleware (db : Database) (now : Z) (clock : DateTime) (req : Request)
  : exn (option Principal) :=
  sessionUser ← resolveSessionUser db now req;
  match sessionUser with
  | Some p => mret (Some p)
  | None => mret (resolveApiKeyUser db clock req)
  end.

End Credentials.

(** ** The change-event bus *)

(** A subscriber is the response object of one open event stream. *)
Definition Client : Type := nat.

(** The transport under a response object: whether [write] still succeeds,
    and what has been written to it. *)
Record Connection : Type := {
  writable : bool;
  received : list string
}.

(** [documentEventClients] (a [Set], in insertion order),
    [documentEventSequence], and the connections of the process. *)
Record State : Type := {
  documentEventClients : list Client;
  documentEventSequence : Z;
  sockets : gmap Client Connection
}.

Definition LF : string := String "010"%char EmptyString.

Definition inSet (c : Client) (l : list Client) : bool :=
  existsb (Nat.eqb c) l.

(** [Set.prototype.add] and [Set.prototype.delete] *)
Definition setAdd (c : Client) (l : list Client) : list Client :=
  if inSet c l then l else l ++ [c].

Definition setDelete (c : Client) (l : list Client) : list Client :=
  List.filter (fun x => negb (Nat.eqb c x)) l.

Definition withClients (st : State) (l : list Client) : State :=
  {| documentEventClients := l;
     documentEventSequence := documentEventSequence st;
     sockets := sockets st |}.

(** [client.write(data)]: appends to a writable connection, throws otherwise. *)
Definition write (c : Client) (data : string) (st : State) : exn State :=
  match sockets st !! c with
  | Some conn =>
      if writable conn then
        Ret {| documentEventClients := documentEventClients st;
               documentEventSequence := documentEventSequence st;
               sockets := <[c := {| writable := true; received := received conn ++ [data] |}]>
                            (sockets st) |}
      else Throw (OtherError "write failed")
  | None => Throw (OtherError "write failed")
  end.

Section Bus.

Variable rt : Runtime.

(** The text of one event. *)
Definition sseFrame (id : Z) (eventName : string) (payload : jsval) : string :=
  "id: " ++ pretty id ++ LF ++ "event: " ++ eventName ++ LF
    ++ "data: " ++ JSON_stringify rt payload ++ LF ++ LF.

(** [toSseData]: pre-increments the sequence. *)
Definition toSseData (eventName : string) (payload : jsval) (st : State) : string * State :=
  let id := documentEventSequence st + 1 in
  (sseFrame id eventName payload,
   {| documentEventClients := documentEventClients st;
      documentEventSequence := id;
      sockets := sockets st |}).

(** One turn of a [for (const client of documentEventClients)] loop whose
    body is [try { client.write(data) } catch { delete(client) }]. *)
Definition writeOrDrop (data : string) (st : State) (client : Client) : State :=
  match write client data st with
  | Ret st' => st'
  | Throw _ => withClients st (setDelete client (documentEventClients st))
  end.

(** The payload object of a broadcast. *)
Definition changedPayload (clock : DateTime) (payload : list (string * jsval)) : jsval :=
  JObject (Val.spread [("event", JString "documents_changed");
                       ("occurredAt", JString (asIsoNow clock))] payload).

(** [broadcastDocumentsChanged].  Deleting the element being visited does
    not disturb the iteration of a [Set], so the loop visits the members the
    set had when it started. *)
Definition broadcastDocumentsChanged (clock : DateTime) (payload : list (string * jsval))
    (st : State) : State :=
  if (length (documentEventClients st) =? 0)%nat then st
  else
    let framed := toSseData "documents_changed" (changedPayload clock payload) st in
    fold_left (writeOrDrop (fst framed)) (documentEventClients st) (snd framed).

(** The keep-alive timer's callback. *)
Definition keepAliveTick (st : State) : State :=
  if (length (documentEventClients st) =? 0)%nat then st
  else fold_left (writeOrDrop (": keepalive" ++ LF ++ LF)) (documentEventClients st) st.

(** The handler of [GET /api/documents/events] for the response object [res]:
    the state it leaves, and the exception if a write threw. *)
Definition subscribe (clock : DateTime) (res : Client) (st : State) : State * option JsError :=
  let st1 := withClients st (setAdd res (documentEventClients st)) in
  match write res ("retry: 3000" ++ LF ++ LF) st1 with
  | Throw e => (st1, Some e)
  | Ret st2 =>
      let framed :=
        toSseData "documents_changed"
          (JObject [("event", JString "documents_changed");
                    ("initial", JBool true);
                    ("occurredAt", JString (asIsoNow clock))]) st2 in
      match write res (fst framed) (snd framed) with
      | Throw e => (snd framed, Some e)
      | Ret st3 => (st3, None)
      end
  end.

(** The [close] listener of the request. *)
Definition onClose (res : Client) (st : State) : State :=
  withClients st (setDelete res (documentEventClients st)).

(** [isLoopbackAddress] and [isLoopbackRequest] *)
Definition isLoopbackAddress (rawAddress : option string) : bool :=
  let address := Js.toLowerCase (Js.trim (default "" rawAddress)) in
  if Js.isEmpty address then false
  else String.eqb address "::1" || String.eqb address "127.0.0.1"
       || String.eqb address "::ffff:127.0.0.1" || String.eqb address "localhost".

Definition isLoopbackRequest (req : Request) : bool :=
  let forwardedFor :=
    Js.trim (hd EmptyString (Js.split ","%char (default "" (headers req !! "x-forwarded-for")))) in
  if isLoopbackAddress (Some forwardedFor) then true
  else isLoopbackAddress (remoteAddress req).

(** The guard of [POST /api/internal/documents-inserted]: the rejection, if
    any.  [monitorEventToken] is the trimmed [MONITOR_EVENT_NOTIFY_TOKEN]. *)
Definition triggerGuard (monitorEventToken : string) (req : Request) : option Response :=
  if nonEmpty monitorEventToken then
    let token := Js.trim (default "" (headers req !! "x-monitor-event-token")) in
    if Js.isEmpty token || negb (String.eqb token monitorEventToken)
    then Some (reply 401 (errorBody "invalid monitor token"))
    else None
  else if negb (isLoopbackRequest req)
    then Some (reply 403 (errorBody "loopback access required"))
    else None.

(** [String(req.body?.key ?? '').trim()] *)
Definition bodyText (req : Request) (key : string) : exn string :=
  trimmedText rt (Val.get (body req) key).

(** The handler of [POST /api/internal/documents-inserted]. *)
Definition documentsInserted (monitorEventToken : string) (clock : DateTime)
    (req : Request) (st : State) : exn (Response * State) :=
  match triggerGuard monitorEventToken req with
  | Some rejection => Ret (rejection, st)
  | None =>
      documentId ← bodyText req "documentId";
      reasonText ← bodyText req "reason";
      let reason := if nonEmpty reasonText then reasonText else "monitor" in
      let st' :=
        broadcastDocumentsChanged clock
          [("source", JString "monitor");
           ("reason", JString reason);
           ("documentId", if nonEmpty documentId then JString documentId else JNull)] st in
      Ret (reply 200 (JObject [("success", JBool true);
                               ("clients",
                                JNumber (Fin (Z.of_nat (length (documentEventClients st')))))]),
           st')
  end.

End Bus.

(** [MONITOR_EVENT_NOTIFY_TOKEN], trimmed. *)
Definition monitorEventTokenOf (e : gmap string string) : string :=
  Js.trim (default "" (e !! "MONITOR_EVENT_NOTIFY_TOKEN")).

(** ** Authorization gates and routing *)

Inductive Verdict : Type :=
| Next
| Respond (r : Response).

Definition publicApiPaths : list string :=
  ["/auth/login"; "/auth/me"; "/auth/logout"; "/internal/documents-inserted";
   "/documents/events"].

(** [requireAuth] and [requireAdmin] *)
Definition requireAuth (authUser : option Principal) : Verdict :=
  match authUser with
  | None => Respond (reply 401 (errorBody "authentication required"))
  | Some _ => Next
  end.

Definition requireAdmin (authUser : option Principal) : Verdict :=
  match authUser with
  | None => Respond (reply 401 (errorBody "authentication required"))
  | Some p =>
      match role p with
      | admin => Next
      | user => Respond (reply 403 (errorBody "admin role required"))
      end
  end.

(** The middleware mounted on [/api]; [reqPath] is the path below the mount. *)
Definition apiGate (authUser : option Principal) (reqPath : string) : Verdict :=
  if existsb (String.eqb reqPath) publicApiPaths then Next
  else requireAuth authUser.

(** Express routing: paths are matched segment by segment, ignoring case. *)
Definition sameSegment (a b : string) : bool :=
  String.eqb (Js.toLowerCase a) (Js.toLowerCase b).

Fixpoint belowMount (mount segs : list string) : option (list string) :=
  match mount, segs with
  | [], _ => Some segs
  | _ :: _, [] => None
  | m :: mount', x :: segs' => if sameSegment m x then belowMount mount' segs' else None
  end.

(** [req.path] as a middleware mounted on [mount] sees it, when it applies. *)
Definition mountedPath (mount : list string) (url : string) : option string :=
  match Js.split "/"%char url with
  | EmptyString :: segs =>
      match belowMount mount segs with
      | Some rest => Some ("/" ++ Js.join "/" rest)
      | None => None
      end
  | _ => None
  end.

Inductive Seg : Type :=
| Lit (s : string)
| Param.

Fixpoint matchSegs (pattern : list Seg) (segs : list string) : bool :=
  match pattern, segs with
  | [], [] => true
  | [], [EmptyString] => true
  | Lit s :: pattern', x :: segs' => sameSegment s x && matchSegs pattern' segs'
  | Param :: pattern', x :: segs' => nonEmpty x && matchSegs pattern' segs'
  | _, _ => false
  end.

Definition matchRoute (pattern : list Seg) (url : string) : bool :=
  match Js.split "/"%char url with
  | EmptyString :: segs => matchSegs pattern segs
  | _ => false
  end.

(** The route handlers.  The bodies of the document, class, user, key and
    queue routes are storage logic outside this core; they are named only. *)
Inductive Handler : Type :=
| EventsStream
| DocumentsInserted
| AuthLogin
| AuthMe
| AuthLogout
| DocClassPatch
| DocumentSourcePage
| Storage (name : string).

Inductive Layer : Type :=
| Use (name : string) (mount : list string)
      (middleware : option Principal -> string -> Verdict)
| Route (verb : string) (pattern : list Seg) (h : Handler).

(** The checks a handler makes before its body. *)
Definition inlineGuard (h : Handler) (authUser : option Principal) : Verdict :=
  match h with
  | DocClassPatch => requireAdmin authUser
  | DocumentSourcePage => requireAuth authUser
  | _ => Next
  end.

(** The [app.use] and [app.<verb>] calls after the credential middleware,
    in registration order. *)
Definition app : list Layer :=
  [ Use "api" ["api"] apiGate;
    Use "admin" ["api"; "admin"] (fun authUser _ => requireAdmin authUser);
    Route "GET" [Lit "api"; Lit "documents"; Lit "events"] EventsStream;
    Route "POST" [Lit "api"; Lit "internal"; Lit "documents-inserted"] DocumentsInserted;
    Route "GET" [Lit "api"; Lit "document-classes"] (Storage "listDocumentClasses");
    Route "POST" [Lit "api"; Lit "document-classes"] (Storage "createDocumentClass");
    Route "PUT" [Lit "api"; Lit "document-classes"; Param] (Storage "updateDocumentClass");
    Route "DELETE" [Lit "api"; Lit "document-classes"; Param] (Storage "deleteDocumentClass");
    Route "GET" [Lit "api"; Lit "documents"] (Storage "listDocuments");
    Route "GET" [Lit "api"; Lit "documents"; Param] (Storage "getDocument");
    Route "PATCH" [Lit "api"; Lit "documents"; Param; Lit "active"] (Storage "setDocumentActive");
    Route "PATCH" [Lit "api"; Lit "documents"; Param; Lit "doc-class"] DocClassPatch;
    Route "GET" [Lit "api"; Lit "documents"; Param; Lit "source"] (Storage "getDocumentSource");
    Route "GET" [Lit "documents"; Param; Lit "Source"] DocumentSourcePage;
    Route "DELETE" [Lit "api"; Lit "documents"; Param] (Storage "deleteDocument");
    Route "POST" [Lit "api"; Lit "auth"; Lit "login"] AuthLogin;
    Route "GET" [Lit "api"; Lit "auth"; Lit "me"] AuthMe;
    Route "POST" [Lit "api"; Lit "auth"; Lit "logout"] AuthLogout;
    Route "GET" [Lit "api"; Lit "admin"; Lit "users"] (Storage "listUsers");
    Route "POST" [Lit "api"; Lit "admin"; Lit "users"] (Storage "createUser");
    Route "PUT" [Lit "api"; Lit "admin"; Lit "users"; Param] (Storage "updateUser");
    Route "DELETE" [Lit "api"; Lit "admin"; Lit "users"; Param] (Storage "deleteUser");
    Route "GET" [Lit "api"; Lit "admin"; Lit "apikeys"] (Storage "listApiKeys");
    Route "POST" [Lit "api"; Lit "admin"; Lit "apikeys"] (Storage "createApiKey");
    Route "PUT" [Lit "api"; Lit "admin"; Lit "apikeys"; Param] (Storage "updateApiKey");
    Route "DELETE" [Lit "api"; Lit "admin"; Lit "apikeys"; Param] (Storage "deleteApiKey");
    Route "GET" [Lit "api"; Lit "admin"; Lit "queue"] (Storage "listQueue");
    Route "DELETE" [Lit "api"; Lit "admin"; Lit "queue"] (Storage "clearQueue");
    Route "DELETE" [Lit "api"; Lit "admin"; Lit "queue"; Param] (Storage "deleteQueueEntry") ].

(** What became of a request: a gate or guard answered it, a handler body
    ran, or no route matched. *)
Inductive Outcome : Type :=
| Rejected (r : Response)
| Body (h : Handler)
| Unmatched.

(** What ran on the way: the gates by name, and the handler entered. *)
Inductive Step : Type :=
| Gate (name : string)
| Entered (h : Handler).

(** Whether a route registered for [verb] handles a request: a [HEAD]
    request is handled by the [GET] routes, [app] registering none of its
    own for [HEAD]. *)
Definition handlesMethod (verb : string) (req : Request) : bool :=
  String.eqb verb (if String.eqb (method req) "HEAD" then "GET" else method req).

Fixpoint runLayers (layers : list Layer) (authUser : option Principal) (req : Request)
  : list Step * Outcome :=
  match layers with
  | [] => ([], Unmatched)
  | Use name mount middleware :: rest =>
      match mountedPath mount (path req) with
      | Some reqPath =>
          match middleware authUser reqPath with
          | Respond r => ([Gate name], Rejected r)
          | Next =>
              let later := runLayers rest authUser req in
              (Gate name :: fst later, snd later)
          end
      | None => runLayers rest authUser req
      end
  | Route verb pattern h :: rest =>
      if handlesMethod verb req && matchRoute pattern (path req) then
        match inlineGuard h authUser with
        | Respond r => ([Entered h], Rejected r)
        | Next => ([Entered h], Body h)
        end
      else runLayers rest authUser req
  end.

Section Pipeline.

Variable rt : Runtime.
Variable sessionSecretKey : Buffer.

(** One request through the credential middleware and the layers of [app]. *)
Definition serve (db : Database) (now : Z) (clock : DateTime) (req : Request)
  : list Step * Outcome :=
  match authUserMiddleware rt sessionSecretKey db now clock req with
  | Throw e => ([], Rejected (errorHandler e))
  | Ret authUser => runLayers app authUser req
  end.

Definition roleName (r : Role) : string :=
  match r with
  | admin => "admin"
  | user => "user"
  end.

(** The body of [POST /api/auth/login]; [https] is
    [parseEnvBool(process.env.API_HTTPS)]. *)
Definition authLogin (https : bool) (db : Database) (now : Z) (iv : Buffer) (req : Request)
  : exn Response :=
  username ← bodyText rt req "username";
  password ← bodyText rt req "password";
  let rememberMe := toBool (Val.get (body req) "rememberMe") in
  Ret
    (if Js.isEmpty username || Js.isEmpty password then
       reply 400 (errorBody "username and password are required")
     else
       match selectUser db username with
       | None => reply 401 (errorBody "invalid credentials")
       | Some row =>
           if negb (toBool (sqlInt (Users.Enabled row))) then
             reply 401 (errorBody "invalid credentials")
           else
             let expectedHash := hashPassword rt password (Users.PasswordSalt row) in
             match Users.PasswordHash row with
             | Some stored =>
                 if String.eqb expectedHash stored then
                   let sessionToken :=
                     createSessionToken rt sessionSecretKey now iv (Users.UserName row)
                       rememberMe in
                   {| status := 200;
                      json := JObject [("username", JString (Users.UserName row));
                                       ("role", JString (roleName
                                          (if toBool (sqlInt (Users.IsAdmin row))
                                           then admin else user)))];
                      cookie := setSessionCookie https sessionToken rememberMe |}
                 else reply 401 (errorBody "invalid credentials")
             | None => reply 401 (errorBody "invalid credentials")
             end
       end).

(** The bodies of [GET /api/auth/me] and [POST /api/auth/logout]. *)
Definition authMe (authUser : option Principal) : Response :=
  match authUser with
  | None => reply 200 JNull
  | Some p =>
      reply 200 (JObject [("username", JString (username p));
                          ("role", JString (roleName (role p)))])
  end.

Definition authLogout (https : bool) : Response :=
  {| status := 200;
     json := JObject [("success", JBool true)];
     cookie := clearSessionCookie https |}.

End Pipeline.

(** ** What the theorems ask of the runtime *)

(** AES-256-GCM under [key]: a 12-byte nonce gives a 16-byte tag, and opening
    what was sealed gives the plaintext back. *)
Definition aeadCorrect (rt : Runtime) (key : Buffer) : Prop :=
  forall iv plaintext,
    length iv = 12%nat ->
    length (snd (aes256gcm_seal rt key iv plaintext)) = 16%nat
    /\ aes256gcm_open rt key iv (fst (aes256gcm_seal rt key iv plaintext))
         (snd (aes256gcm_seal rt key iv plaintext)) = Ret plaintext.

(** A value is JSON-representable when serialising it, through UTF-8, and
    parsing the text gives an equal value. *)
Definition jsonRepresentable (rt : Runtime) (v : jsval) : Prop :=
  JSON_parse rt (utf8_decode rt (utf8_encode rt (JSON_stringify rt v))) = Ret v.

(** What [decryptSessionPayload] lets through:
    [payload && typeof payload === 'object']. *)
Definition isObjectValue (v : jsval) : bool :=
  Val.truthy v && Val.typeofObject v.

(** An object as the specification words it: a JSON object, which an array
    is not. *)
Definition specObject (v : jsval) : bool :=
  match v with
  | JObject _ => true
  | _ => false
  end.

(** ** A small executable runtime

    Stand-ins for the Node built-ins, simple enough to compute with, on which
    the server model is run on concrete requests: a hash that returns its
    input, an authenticated cipher with a constant tag, JSON on integers,
    quote-free strings, arrays and objects, and percent-decoding of ASCII. *)

Module Toy.

Definition DQ : ascii := "034"%char.

Definition quote (s : string) : string :=
  String DQ (s ++ String DQ EmptyString).

Fixpoint stringify (v : jsval) : string :=
  match v with
  | JUndefined | JNull => "null"
  | JBool true => "true"
  | JBool false => "false"
  | JNumber (Fin z) => pretty z
  | JNumber _ => "null"
  | JString s => quote s
  | JArray items => "[" ++ Js.join "," (List.map stringify items) ++ "]"
  | JObject fields =>
      "{" ++ Js.join "," (List.map (fun kv => quote (fst kv) ++ ":" ++ stringify (snd kv)) fields)
        ++ "}"
  end.

Fixpoint readString (s : string) : option (string * string) :=
  match s with
  | EmptyString => None
  | String c rest =>
      if Ascii.eqb c DQ then Some (EmptyString, rest)
      else match readString rest with
           | Some (text, rest') => Some (String c text, rest')
           | None => None
           end
  end.

Definition isDigit (c : ascii) : bool :=
  ((48 <=? Js.code c) && (Js.code c <=? 57))%N.

Fixpoint readDigits (acc : Z) (s : string) : Z * string :=
  match s with
  | String c rest =>
      if isDigit c then readDigits (acc * 10 + Z.of_N (Js.code c - 48)) rest
      else (acc, s)
  | EmptyString => (acc, s)
  end.

Fixpoint parseValue (fuel : nat) (s : string) {struct fuel} : option (jsval * string) :=
  match fuel with
  | O => None
  | S fuel' =>
      match s with
      | EmptyString => None
      | String c rest =>
          if Ascii.eqb c DQ then
            match readString rest with
            | Some (text, rest') => Some (JString text, rest')
            | None => None
            end
          else if Ascii.eqb c "["%char then
            match rest with
            | String "]"%char rest' => Some (JArray [], rest')
            | _ => match parseItems fuel' rest with
                   | Some (items, rest') => Some (JArray items, rest')
                   | None => None
                   end
            end
          else if Ascii.eqb c "{"%char then
            match rest with
            | String "}"%char rest' => Some (JObject [], rest')
            | _ => match parseFields fuel' rest with
                   | Some (fields, rest') => Some (JObject fields, rest')
                   | None => None
                   end
            end
          else if Js.startsWith "true" s then Some (JBool true, Js.drop 4 s)
          else if Js.startsWith "false" s then Some (JBool false, Js.drop 5 s)
          else if Js.startsWith "null" s then Some (JNull, Js.drop 4 s)
          else if Ascii.eqb c "-"%char then
            match rest with
            | String d _ =>
                if isDigit d then
                  let r := readDigits 0 rest in Some (JNumber (Fin (- fst r)), snd r)
                else None
            | EmptyString => None
            end
          else if isDigit c then
            let r := readDigits 0 s in Some (JNumber (Fin (fst r)), snd r)
          else None
      end
  end
with parseItems (fuel : nat) (s : string) {struct fuel} : option (list jsval * string) :=
  match fuel with
  | O => None
  | S fuel' =>
      match parseValue fuel' s with
      | Some (v, String ","%char rest) =>
          match parseItems fuel' rest with
          | Some (items, rest') => Some (v :: items, rest')
          | None => None
          end
      | Some (v, String "]"%char rest) => Some ([v], rest)
      | _ => None
      end
  end
with parseFields (fuel : nat) (s : string) {struct fuel}
  : option (list (string * jsval) * string) :=
  match fuel with
  | O => None
  | S fuel' =>
      match s with
      | String c rest =>
          if Ascii.eqb c DQ then
            match readString rest with
            | Some (key, String ":"%char afterKey) =>
                match parseValue fuel' afterKey with
                | Some (v, String ","%char more) =>
                    match parseFields fuel' more with
                    | Some (fields, remaining) => Some ((key, v) :: fields, remaining)
                    | None => None
                    end
                | Some (v, String "}"%char remaining) => Some ([(key, v)], remaining)
                | _ => None
                end
            | _ => None
            end
          else None
      | EmptyString => None
      end
  end.

Definition parse (s : string) : exn jsval :=
  match parseValue (S (String.length s)) s with
  | Some (v, EmptyString) => Ret v
  | _ => Throw SyntaxError
  end.

Definition hexValue (c : ascii) : option N :=
  let n := Js.code c in
  if isDigit c then Some (n - 48)%N
  else if ((97 <=? n) && (n <=? 102))%N then Some (n - 87)%N
  else if ((65 <=? n) && (n <=? 70))%N then Some (n - 55)%N
  else None.

Fixpoint percentDecode (s : string) : exn string :=
  match s with
  | EmptyString => Ret EmptyString
  | String c rest =>
      if Ascii.eqb c "%"%char then
        match rest with
        | String h (String l rest') =>
            match hexValue h, hexValue l with
            | Some a, Some b =>
                if (a * 16 + b <? 128)%N then
                  match percentDecode rest' with
                  | Ret text => Ret (String (ascii_of_N (a * 16 + b)) text)
                  | Throw e => Throw e
                  end
                else Throw URIError
            | _, _ => Throw URIError
            end
        | _ => Throw URIError
        end
      else
        match percentDecode rest with
        | Ret text => Ret (String c text)
        | Throw e => Throw e
        end
  end.

Definition toNumber (s : string) : jsnum :=
  match Js.trim s with
  | EmptyString => Fin 0
  | String c rest =>
      if isDigit c then
        match readDigits 0 (String c rest) with
        | (n, EmptyString) => Fin n
        | _ => NaN
        end
      else NaN
  end.

Definition zeroTag : Buffer := List.repeat Byte.x00 16.

Definition sameBuffer (a b : Buffer) : bool :=
  String.eqb (String.string_of_list_byte a) (String.string_of_list_byte b).

Definition rt : Runtime :=
  {| sha256 := fun data => data;
     utf8_encode := String.list_byte_of_string;
     utf8_decode := String.string_of_list_byte;
     aes256gcm_seal := fun key iv plaintext => (plaintext, zeroTag);
     aes256gcm_open := fun key iv ciphertext tag =>
       if sameBuffer tag zeroTag then Ret ciphertext else Throw CryptoError;
     JSON_stringify := stringify;
     JSON_parse := parse;
     decodeURIComponent := percentDecode;
     StringToNumber := toNumber;
     NumberToString := fun z => pretty z |}.

Definition key : Buffer := List.repeat Byte.x2a 32.
Definition iv : Buffer := List.repeat Byte.x07 12.

Definition db : Database :=
  {| tblUsers :=
       [ {| Users.UserName := "admin"; Users.PasswordSalt := "s1";
            Users.PasswordHash := Some "h1"; Users.Enabled := 1; Users.IsAdmin := 1 |};
         {| Users.UserName := "tanaka"; Users.PasswordSalt := "s2";
            Users.PasswordHash := Some "h2"; Users.Enabled := 1; Users.IsAdmin := 0 |};
         {| Users.UserName := "suzuki"; Users.PasswordSalt := "s3";
            Users.PasswordHash := Some "h3"; Users.Enabled := 0; Users.IsAdmin := 0 |} ];
     tblApiKeys := [] |}.

Definition request (verb url : string) (hdrs : list (string * string)) : Request :=
  {| method := verb; path := url; headers := list_to_map hdrs;
     remoteAddress := Some "203.0.113.9"; body := JUndefined |}.

End Toy.

(** A database with one API key, for the key [scanner-key]. *)
Definition toyScannerKey : ApiKeys.row :=
  {| ApiKeys.ApiKeyID := "k-1"; ApiKeys.KeyName := "scanner";
     ApiKeys.KeyHash := hashApiKey Toy.rt "scanner-key";
     ApiKeys.CreatedAt := "2026-01-01T00:00:00";
     ApiKeys.ExpiresAt := Some "2026-12-31T23:59:59"; ApiKeys.Enabled := 1 |}.

Definition toyDbKeys : Database :=
  {| tblUsers := tblUsers Toy.db; tblApiKeys := [toyScannerKey] |}.

(** The last second of 2026, the instant half a second later, and the key
    [scanner-key] with that second as its expiry, written as ISO 8601 in
    UTC: [2026-12-31T23:59:59Z]. *)
Definition toyExpiry : DateTime :=
  {| year := 2026; month := 12; day := 31; hours := 23; minutes := 59; seconds := 59;
     milliseconds := 0 |}.

Definition toyJustAfter : DateTime :=
  {| year := 2026; month := 12; day := 31; hours := 23; minutes := 59; seconds := 59;
     milliseconds := 500 |}.

Definition toyZuluKey : ApiKeys.row :=
  {| ApiKeys.ApiKeyID := "k-1"; ApiKeys.KeyName := "scanner";
     ApiKeys.KeyHash := hashApiKey Toy.rt "scanner-key";
     ApiKeys.CreatedAt := "2026-01-01T00:00:00";
     ApiKeys.ExpiresAt := Some (Iso.toSeconds toyExpiry ++ "Z"); ApiKeys.Enabled := 1 |}.

Definition toyDbZulu : Database :=
  {| tblUsers := tblUsers Toy.db; tblApiKeys := [toyZuluKey] |}.

(** The token that [Toy.rt] seals for [admin] at time 1000. *)
Definition toyToken : string :=
  Eval vm_compute in createSessionToken Toy.rt Toy.key 1000 Toy.iv "admin" false.

(** ** Observing the bus *)

(** Whether a write to the subscriber's connection succeeds, what has been
    written to it, and whether it is in the registry. *)
Definition canWrite (st : State) (c : Client) : bool :=
  match sockets st !! c with
  | Some conn => writable conn
  | None => false
  end.

Definition receivedBy (st : State) (c : Client) : list string :=
  match sockets st !! c with
  | Some conn => received conn
  | None => []
  end.

Definition registered (st : State) (c : Client) : bool :=
  inSet c (documentEventClients st).

(** What happens to the bus over the life of the process: a publish, a
    new event stream for a fresh response object, the [close] of a stream, a
    transport that starts failing, a tick of the keep-alive timer. *)
Inductive BusOp : Type :=
| Publish (clock : DateTime) (payload : list (string * jsval))
| Subscribe (clock : DateTime) (res : Client)
| Close (res : Client)
| Fail (res : Client)
| KeepAlive.

Definition openSocket (res : Client) (st : State) : State :=
  match sockets st !! res with
  | Some _ => st
  | None =>
      {| documentEventClients := documentEventClients st;
         documentEventSequence := documentEventSequence st;
         sockets := <[res := {| writable := true; received := [] |}]> (sockets st) |}
  end.

Definition failSocket (res : Client) (st : State) : State :=
  match sockets st !! res with
  | Some conn =>
      {| documentEventClients := documentEventClients st;
         documentEventSequence := documentEventSequence st;
         sockets := <[res := {| writable := false; received := received conn |}]> (sockets st) |}
  | None => st
  end.

Definition concerns (c : Client) (op : BusOp) : bool :=
  match op with
  | Subscribe _ res | Close res | Fail res => Nat.eqb res c
  | Publish _ _ | KeepAlive => false
  end.

Definition isPublish (op : BusOp) : bool :=
  match op with
  | Publish _ _ => true
  | _ => false
  end.

Definition keepAliveText : string := ": keepalive" ++ LF ++ LF.

Definition isEventText (s : string) : bool := negb (String.eqb s keepAliveText).

Section BusTrace.

Variable rt : Runtime.

Definition busStep (st : State) (op : BusOp) : State :=
  match op with
  | Publish clock payload => broadcastDocumentsChanged rt clock payload st
  | Subscribe clock res => fst (subscribe rt clock res (openSocket res st))
  | Close res => onClose res st
  | Fail res => failSocket res st
  | KeepAlive => keepAliveTick st
  end.

Definition runBus (ops : list BusOp) (st : State) : State :=
  fold_left busStep ops st.

(** The event of each publish of a trace: its id and its text. *)
Fixpoint published (ops : list BusOp) (st : State) : list (Z * string) :=
  match ops with
  | [] => []
  | Publish clock payload :: rest =>
      (documentEventSequence st + 1,
       sseFrame rt (documentEventSequence st + 1) "documents_changed"
         (changedPayload clock payload))
        :: published rest (busStep st (Publish clock payload))
  | op :: rest => published rest (busStep st op)
  end.

(** What one step of the bus gives a subscriber that it does not concern
    and that is registered with a working connection. *)
Definition stepText (st : State) (op : BusOp) : list string :=
  match op with
  | Publish clock payload =>
      [sseFrame rt (documentEventSequence st + 1) "documents_changed"
         (changedPayload clock payload)]
  | KeepAlive => [keepAliveText]
  | _ => []
  end.

End BusTrace.

(** ** The trigger's two conditions *)

(** The request carries the shared-secret header and it matches the
    configured token. *)
Definition presentsToken (monitorEventToken : string) (req : Request) : bool :=
  nonEmpty monitorEventToken
  && String.eqb (Js.trim (default "" (headers req !! "x-monitor-event-token")))
       monitorEventToken.

(** The address [isLoopbackRequest] reads first: the first entry of the
    [X-Forwarded-For] header, trimmed. *)
Definition forwardedFor (req : Request) : string :=
  Js.trim (hd EmptyString (Js.split ","%char (default "" (headers req !! "x-forwarded-for")))).

(** The texts [isLoopbackAddress] takes for the local machine. *)
Definition loopbackNames : list string :=
  ["::1"; "127.0.0.1"; "::ffff:127.0.0.1"; "localhost"].

(** The trigger lets the request through to the broadcast. *)
Definition accepted (monitorEventToken : string) (req : Request) : bool :=
  match triggerGuard monitorEventToken req with
  | None => true
  | Some _ => false
  end.

(** An empty bus and a bus with one subscriber. *)
Definition toyIdle : State :=
  {| documentEventClients := []; documentEventSequence := 0; sockets := ∅ |}.

Definition toyClock : DateTime :=
  {| year := 2026; month := 11; day := 1; hours := 9; minutes := 5; seconds := 3;
     milliseconds := 0 |}.

Definition toyBus : State :=
  fst (subscribe Toy.rt toyClock 7%nat (openSocket 7%nat toyIdle)).

Definition toyLoopback : Request :=
  {| method := "POST"; path := "/api/internal/documents-inserted"; headers := ∅;
     remoteAddress := Some "127.0.0.1"; body := JUndefined |}.

(** A request from another machine that names the loopback address in its
    [X-Forwarded-For] header. *)
Definition toyForwarded : Request :=
  {| method := "POST"; path := "/api/internal/documents-inserted";
     headers := {[ "x-forwarded-for" := "127.0.0.1" ]};
     remoteAddress := Some "203.0.113.9"; body := JUndefined |}.

(** The connection after one more successful write. *)
Definition delivered (data : string) (conn : Connection) : Connection :=
  {| writable := true; received := received conn ++ [data] |}.

(** ** The fingerprint as the specification words it *)

(** The MAC addresses of the host as [resolveServerFingerprint] ends up with
    them ([[]] when [os.networkInterfaces] throws). *)
Definition hostMacAddresses (h : Host) : list string :=
  match networkInterfaces h with
  | Ret interfaces => macAddressesOf interfaces
  | Throw _ => []
  end.

(** Drop the repetitions of a list of strings. *)
Fixpoint dedupe (l : list string) : list string :=
  match l with
  | [] => []
  | x :: rest => if existsb (String.eqb x) rest then dedupe rest else x :: dedupe rest
  end.

(** Hostname, platform, OS release, architecture, CPU count and the sorted,
    de-duplicated, non-zero MAC addresses, joined. *)
Definition specFingerprint (h : Host) : string :=
  Js.join "|"
    (List.filter nonEmpty
       (List.map Js.trim
          ([hostname h; platform h; release h; arch h; pretty (default 0 (cpus h))]
             ++ dedupe (hostMacAddresses h)))).

(** A host with one network card, reported once per address family. *)
Definition toyHost : Host :=
  {| env := ∅; hostname := "fax01"; platform := "linux"; release := "6.8.0";
     arch := "x64"; cpus := Some 4;
     networkInterfaces :=
       Ret [("lo", Some [Some "00:00:00:00:00:00"; Some "00:00:00:00:00:00"]);
            ("eth0", Some [Some "AA:BB:CC:00:11:22"; Some "aa:bb:cc:00:11:22"])] |}.

Definition toyHostOther : Host :=
  {| env := {[ "API_SESSION_SECRET" := "correct horse" ]}; hostname := "fax03";
     platform := "linux"; release := "6.8.0"; arch := "arm64"; cpus := Some 2;
     networkInterfaces := Ret [] |}.

Definition toyHostConfigured : Host :=
  {| env := {[ "APP_SECRET" := " correct horse " ]}; hostname := "fax02";
     platform := "win32"; release := "10.0"; arch := "x64"; cpus := None;
     networkInterfaces := Throw (OtherError "uv_interface_addresses") |}.

(** * More of the server *)

(** ** The environment file *)

(** [text.split(/\r?\n/)]: a line ends at a line feed, or at a carriage
    return that a line feed follows. *)
Fixpoint splitLines (s : string) : list string :=
  match s with
  | EmptyString => [EmptyString]
  | String c s' =>
      let more :=
        match splitLines s' with
        | h :: t => String c h :: t
        | [] => [String c EmptyString]
        end in
      if Ascii.eqb c "010"%char then EmptyString :: splitLines s'
      else if Ascii.eqb c "013"%char then
        match s' with
        | String "010"%char s'' => EmptyString :: splitLines s''
        | _ => more
        end
      else more
  end.

(** The text before and after the first occurrence of [c]:
    [text.slice(0, index)] and [text.slice(index + 1)] for
    [index = text.indexOf(c)], when [text.includes(c)]. *)
Fixpoint cutAt (c : ascii) (s : string) : option (string * string) :=
  match s with
  | EmptyString => None
  | String x s' =>
      if Ascii.eqb x c then Some (EmptyString, s')
      else match cutAt c s' with
           | Some (before, after) => Some (String x before, after)
           | None => None
           end
  end.

Definition isQuoteChar (c : ascii) : bool :=
  Ascii.eqb c "'"%char || Ascii.eqb c "034"%char.

Fixpoint dropLastQuote (s : string) : string :=
  match s with
  | EmptyString => EmptyString
  | String c EmptyString => if isQuoteChar c then EmptyString else s
  | String c s' => String c (dropLastQuote s')
  end.

(** [replace(/^['"]|['"]$/g, '')]: a quote character is dropped at the
    start, and one at the end of what follows. *)
Definition stripQuotes (s : string) : string :=
  match s with
  | EmptyString => EmptyString
  | String c s' => if isQuoteChar c then dropLastQuote s' else dropLastQuote s
  end.

(** The key and the value that one line of the file assigns, if any. *)
Definition envLine (line : string) : option (string * string) :=
  let text := Js.trim line in
  if Js.isEmpty text || Js.startsWith "#" text then None
  else
    match cutAt "="%char text with
    | None => None
    | Some (before, after) =>
        let key := Js.trim before in
        let value := stripQuotes (Js.trim after) in
        if Js.isEmpty key then None else Some (key, value)
    end.

(** One turn of the loop of [loadEnvFile] on [process.env]. *)
Definition loadEnvLine (env : gmap string string) (line : string) : gmap string string :=
  match envLine line with
  | Some (key, value) =>
      match env !! key with
      | None => <[key := value]> env
      | Some _ => env
      end
  | None => env
  end.

(** [loadEnvFile]; [envFile] is the content of [.env], [None] when the file
    does not exist. *)
Definition loadEnvFile (envFile : option string) (env : gmap string string)
  : gmap string string :=
  match envFile with
  | None => env
  | Some content => fold_left loadEnvLine (splitLines content) env
  end.

(** The assignments of a file, in order. *)
Definition envBindings (content : string) : list (string * string) :=
  omap envLine (splitLines content).

(** The value of the first pair of a list whose key is [k]. *)
Fixpoint firstValue (k : string) (l : list (string * string)) : option string :=
  match l with
  | [] => None
  | (k', v) :: rest => if String.eqb k' k then Some v else firstValue k rest
  end.

(** ** TLS material *)

(** What [resolveHttpsOptions] uses of [fs] and [path]: [fs.existsSync],
    [fs.readFileSync], [path.isAbsolute], and [path.resolve(projectRoot, p)]. *)
Record NodeFs : Type := {
  existsSync : string -> bool;
  readFileSync : string -> exn Buffer;
  isAbsolute : string -> bool;
  resolveFromProjectRoot : string -> string
}.

Module Https.
Record Options : Type := {
  pfx : option Buffer;
  cert : option Buffer;
  key : option Buffer;
  ca : option Buffer;
  passphrase : option string;
  pfxPath : string;
  certPath : string;
  keyPath : string;
  caPath : string
}.
End Https.

(** [resolvePathFromProjectRoot] *)
Definition resolvePathFromProjectRoot (fs : NodeFs) (rawPath : string) : string :=
  if Js.isEmpty rawPath then EmptyString
  else if isAbsolute fs rawPath then rawPath
  else resolveFromProjectRoot fs rawPath.

(** [String(process.env[name] ?? '').trim()] *)
Definition envText (e : gmap string string) (name : string) : string :=
  Js.trim (default "" (e !! name)).

(** [hasAnyTlsConfig] *)
Definition hasAnyTlsConfig (e : gmap string string) : bool :=
  parseEnvBool (e !! "API_HTTPS")
  || nonEmpty (envText e "API_HTTPS_PFX_PATH")
  || nonEmpty (envText e "API_HTTPS_CERT_PATH")
  || nonEmpty (envText e "API_HTTPS_KEY_PATH")
  || nonEmpty (envText e "API_HTTPS_CA_PATH")
  || nonEmpty (envText e "API_HTTPS_PASSPHRASE").

(** [caPath ? fs.readFileSync(caPath) : undefined] *)
Definition readOptional (fs : NodeFs) (p : string) : exn (option Buffer) :=
  if nonEmpty p then (content ← readFileSync fs p; mret (Some content)) else mret None.

(** [resolveHttpsOptions]; [null] is [None]. *)
Definition resolveHttpsOptions (fs : NodeFs) (e : gmap string string)
  : exn (option Https.Options) :=
  let pfxPathRaw := envText e "API_HTTPS_PFX_PATH" in
  let certPathRaw := envText e "API_HTTPS_CERT_PATH" in
  let keyPathRaw := envText e "API_HTTPS_KEY_PATH" in
  let caPathRaw := envText e "API_HTTPS_CA_PATH" in
  let passphraseRaw := envText e "API_HTTPS_PASSPHRASE" in
  if negb (hasAnyTlsConfig e) then mret None
  else
    let caPath := resolvePathFromProjectRoot fs caPathRaw in
    if nonEmpty caPath && negb (existsSync fs caPath) then
      Throw (OtherError ("HTTPS CA file not found: " ++ caPath))
    else if nonEmpty pfxPathRaw then
      let pfxPath := resolvePathFromProjectRoot fs pfxPathRaw in
      if negb (existsSync fs pfxPath) then
        Throw (OtherError ("HTTPS PFX file not found: " ++ pfxPath))
      else
        pfx ← readFileSync fs pfxPath;
        ca ← readOptional fs caPath;
        mret (Some {| Https.pfx := Some pfx; Https.cert := None; Https.key := None;
                      Https.ca := ca;
                      Https.passphrase :=
                        if nonEmpty passphraseRaw then Some passphraseRaw else None;
                      Https.pfxPath := pfxPath; Https.certPath := EmptyString;
                      Https.keyPath := EmptyString; Https.caPath := caPath |})
    else if Js.isEmpty certPathRaw || Js.isEmpty keyPathRaw then
      Throw (OtherError
               "HTTPS requires API_HTTPS_PFX_PATH, or both API_HTTPS_CERT_PATH and API_HTTPS_KEY_PATH")
    else
      let certPath := resolvePathFromProjectRoot fs certPathRaw in
      let keyPath := resolvePathFromProjectRoot fs keyPathRaw in
      if negb (existsSync fs certPath) then
        Throw (OtherError ("HTTPS cert file not found: " ++ certPath))
      else if negb (existsSync fs keyPath) then
        Throw (OtherError ("HTTPS key file not found: " ++ keyPath))
      else
        cert ← readFileSync fs certPath;
        key ← readFileSync fs keyPath;
        ca ← readOptional fs caPath;
        mret (Some {| Https.pfx := None; Https.cert := Some cert; Https.key := Some key;
                      Https.ca := ca;
                      Https.passphrase :=
                        if nonEmpty passphraseRaw then Some passphraseRaw else None;
                      Https.pfxPath := EmptyString; Https.certPath := certPath;
                      Https.keyPath := keyPath; Https.caPath := caPath |}).

(** How the process listens, as the last statements of the module decide:
    [https.createServer] when [resolveHttpsOptions()] gives options,
    [app.listen] over plain HTTP when it gives [null]; a throw ends the
    start-up. *)
Inductive Listener : Type :=
| ListenHttps (options : Https.Options)
| ListenHttp.

Definition startServer (fs : NodeFs) (e : gmap string string) : exn Listener :=
  httpsOptions ← resolveHttpsOptions fs e;
  match httpsOptions with
  | Some options => mret (ListenHttps options)
  | None => mret ListenHttp
  end.

(** The [secure] attribute the cookie helpers give the session cookie. *)
Definition cookieSecure (e : gmap string string) : bool :=
  parseEnvBool (e !! "API_HTTPS").

(** ** Account and key administration *)

(** [text.replaceAll(c, '')] and [text.slice(0, n)] *)
Fixpoint removeAll (c : ascii) (s : string) : string :=
  match s with
  | EmptyString => EmptyString
  | String x s' => if Ascii.eqb x c then removeAll c s' else String x (removeAll c s')
  end.

Fixpoint take (n : nat) (s : string) : string :=
  match n, s with
  | O, _ => EmptyString
  | S _, EmptyString => EmptyString
  | S n', String x s' => String x (take n' s')
  end.

(** [crypto.randomUUID().replaceAll('-', '').slice(0, n)]; [uuid] is what
    [crypto.randomUUID()] returns. *)
Definition uuidPrefix (n : nat) (uuid : string) : string :=
  take n (removeAll "-"%char uuid).

(** What a handler can raise: an error of [better-sqlite3], which carries a
    [code], or another exception. *)
Inductive Thrown : Type :=
| SqliteError (code message : string)
| Uncaught (e : JsError).

Inductive Attempt (A : Type) : Type :=
| Done (a : A)
| Raise (t : Thrown).
Arguments Done {A} a.
Arguments Raise {A} t.

#[global] Instance Attempt_ret : MRet Attempt := fun A a => Done a.
#[global] Instance Attempt_bind : MBind Attempt := fun A B f m =>
  match m with
  | Done a => f a
  | Raise t => Raise t
  end.

(** A step of a handler that can throw an exception of JavaScript. *)
Definition attempt {A : Type} (m : exn A) : Attempt A :=
  match m with
  | Ret a => Done a
  | Throw e => Raise (Uncaught e)
  end.

(** The error-handling middleware at the end of [app]. *)
Definition finalErrorHandler (t : Thrown) : Response :=
  match t with
  | SqliteError code message =>
      if String.eqb code "SQLITE_CONSTRAINT_UNIQUE"
         || String.eqb code "SQLITE_CONSTRAINT_PRIMARYKEY"
      then reply 400 (errorBody "duplicate key or unique constraint violation")
      else if Js.startsWith "SQLITE_CONSTRAINT" code
      then reply 400 (errorBody ("invalid request: " ++ message))
      else reply 500 (errorBody "internal server error")
  | Uncaught e => errorHandler e
  end.

(** What the client gets and what the database holds after a handler: a
    statement that raises leaves the database as it was. *)
Definition answer (db : Database) (a : Attempt (Response * Database)) : Response * Database :=
  match a with
  | Done x => x
  | Raise t => (finalErrorHandler t, db)
  end.

Definition userNamed (name : string) (r : Users.row) : bool :=
  String.eqb (Users.UserName r) name.

Definition keyWithId (id : string) (r : ApiKeys.row) : bool :=
  String.eqb (ApiKeys.ApiKeyID r) id.

Definition keyNamed (name : string) (r : ApiKeys.row) : bool :=
  String.eqb (ApiKeys.KeyName r) name.

Definition withUsers (db : Database) (rows : list Users.row) : Database :=
  {| tblUsers := rows; tblApiKeys := tblApiKeys db |}.

Definition withApiKeys (db : Database) (rows : list ApiKeys.row) : Database :=
  {| tblUsers := tblUsers db; tblApiKeys := rows |}.

(** [INSERT INTO Users]; [UserName] is the primary key of the table. *)
Definition insertUser (r : Users.row) (db : Database) : Attempt Database :=
  if existsb (userNamed (Users.UserName r)) (tblUsers db) then
    Raise (SqliteError "SQLITE_CONSTRAINT_PRIMARYKEY" "UNIQUE constraint failed: Users.UserName")
  else Done (withUsers db (tblUsers db ++ [r])).

(** [UPDATE Users SET ... WHERE UserName = current], where the new row has
    the name [userName]. *)
Definition updateUsers (current userName : string) (set : Users.row -> Users.row)
    (db : Database) : Attempt Database :=
  if existsb (userNamed current) (tblUsers db)
     && negb (String.eqb userName current)
     && existsb (userNamed userName) (tblUsers db)
  then
    Raise (SqliteError "SQLITE_CONSTRAINT_PRIMARYKEY" "UNIQUE constraint failed: Users.UserName")
  else
    Done (withUsers db
            (List.map (fun r => if userNamed current r then set r else r) (tblUsers db))).

(** [DELETE FROM Users WHERE UserName = ?]: the number of rows deleted and
    the table left. *)
Definition deleteUsers (userName : string) (db : Database) : nat * Database :=
  (length (List.filter (userNamed userName) (tblUsers db)),
   withUsers db (List.filter (fun r => negb (userNamed userName r)) (tblUsers db))).

(** [INSERT INTO ApiKeys]; [ApiKeyID] is the primary key and [KeyName] is
    [UNIQUE]. *)
Definition insertApiKey (r : ApiKeys.row) (db : Database) : Attempt Database :=
  if existsb (keyWithId (ApiKeys.ApiKeyID r)) (tblApiKeys db) then
    Raise (SqliteError "SQLITE_CONSTRAINT_PRIMARYKEY" "UNIQUE constraint failed: ApiKeys.ApiKeyID")
  else if existsb (keyNamed (ApiKeys.KeyName r)) (tblApiKeys db) then
    Raise (SqliteError "SQLITE_CONSTRAINT_UNIQUE" "UNIQUE constraint failed: ApiKeys.KeyName")
  else Done (withApiKeys db (tblApiKeys db ++ [r])).

(** [UPDATE ApiKeys SET KeyName = ?, ExpiresAt = ?, Enabled = ? WHERE
    ApiKeyID = ?]: the number of rows changed and the table left. *)
Definition updateApiKeys (id keyName : string) (expiresAt : option string) (enabled : Z)
    (db : Database) : Attempt (nat * Database) :=
  if existsb (keyWithId id) (tblApiKeys db)
     && existsb (fun r => keyNamed keyName r && negb (keyWithId id r)) (tblApiKeys db)
  then Raise (SqliteError "SQLITE_CONSTRAINT_UNIQUE" "UNIQUE constraint failed: ApiKeys.KeyName")
  else
    Done (length (List.filter (keyWithId id) (tblApiKeys db)),
          withApiKeys db
            (List.map (fun r =>
                         if keyWithId id r then
                           {| ApiKeys.ApiKeyID := ApiKeys.ApiKeyID r;
                              ApiKeys.KeyName := keyName;
                              ApiKeys.KeyHash := ApiKeys.KeyHash r;
                              ApiKeys.CreatedAt := ApiKeys.CreatedAt r;
                              ApiKeys.ExpiresAt := expiresAt;
                              ApiKeys.Enabled := enabled |}
                         else r) (tblApiKeys db))).

(** [DELETE FROM ApiKeys WHERE ApiKeyID = ?] *)
Definition deleteApiKeys (id : string) (db : Database) : nat * Database :=
  (length (List.filter (keyWithId id) (tblApiKeys db)),
   withApiKeys db (List.filter (fun r => negb (keyWithId id r)) (tblApiKeys db))).

(** [flag ? 1 : 0] *)
Definition bit (flag : bool) : Z := if flag then 1 else 0.

(** [text || null] *)
Definition orNull (text : string) : option string :=
  if Js.isEmpty text then None else Some text.

(** [raw == null ? null : String(raw).trim() || null] *)
Definition textOrNull (rt : Runtime) (raw : jsval) : exn (option string) :=
  match raw with
  | JUndefined | JNull => Ret None
  | _ => text ← ToString rt raw; Ret (orNull (Js.trim text))
  end.

Definition nullable (v : option string) : jsval :=
  match v with
  | Some s => JString s
  | None => JNull
  end.

Section Admin.

Variable rt : Runtime.

(** The body of [POST /api/admin/users]. *)
Definition createUser (uuid : string) (req : Request) (db : Database)
  : Attempt (Response * Database) :=
  userName ← attempt (bodyText rt req "userName");
  password ← attempt (bodyText rt req "password");
  let enabled := toBool (Val.get (body req) "enabled") in
  let isAdmin := toBool (Val.get (body req) "isAdmin") in
  if Js.isEmpty userName then Done (reply 400 (errorBody "userName is required"), db)
  else if (String.length password <? 4)%nat then
    Done (reply 400 (errorBody "password must be at least 4 characters"), db)
  else
    let salt := uuidPrefix 16 uuid in
    let passwordHash := hashPassword rt password salt in
    match insertUser {| Users.UserName := userName; Users.PasswordSalt := salt;
                        Users.PasswordHash := Some passwordHash;
                        Users.Enabled := bit enabled; Users.IsAdmin := bit isAdmin |} db with
    | Raise t => Raise t
    | Done db' =>
        Done (reply 201 (JObject [("userName", JString userName); ("enabled", JBool enabled);
                                  ("isAdmin", JBool isAdmin)]), db')
    end.

(** The body of [PUT /api/admin/users/:userName]; [param] is
    [req.params.userName]. *)
Definition updateUser (uuid param : string) (req : Request) (db : Database)
  : Attempt (Response * Database) :=
  currentUserName ← attempt (decodeURIComponent rt param);
  userName ← attempt (bodyText rt req "userName");
  password ← attempt (bodyText rt req "password");
  if Js.isEmpty userName then Done (reply 400 (errorBody "userName is required"), db)
  else
    match Val.get (body req) "enabled" with
    | JBool enabled =>
        match Val.get (body req) "isAdmin" with
        | JBool isAdmin =>
            match selectUser db currentUserName with
            | None => Done (reply 404 (errorBody "user not found"), db)
            | Some _ =>
                let ok :=
                  reply 200 (JObject [("userName", JString userName);
                                      ("enabled", JBool enabled);
                                      ("isAdmin", JBool isAdmin)]) in
                if nonEmpty password then
                  if (String.length password <? 4)%nat then
                    Done (reply 400 (errorBody "password must be at least 4 characters"), db)
                  else
                    let salt := uuidPrefix 16 uuid in
                    let passwordHash := hashPassword rt password salt in
                    match updateUsers currentUserName userName
                            (fun _ => {| Users.UserName := userName;
                                         Users.PasswordSalt := salt;
                                         Users.PasswordHash := Some passwordHash;
                                         Users.Enabled := bit enabled;
                                         Users.IsAdmin := bit isAdmin |}) db with
                    | Raise t => Raise t
                    | Done db' => Done (ok, db')
                    end
                else
                  match updateUsers currentUserName userName
                          (fun r => {| Users.UserName := userName;
                                       Users.PasswordSalt := Users.PasswordSalt r;
                                       Users.PasswordHash := Users.PasswordHash r;
                                       Users.Enabled := bit enabled;
                                       Users.IsAdmin := bit isAdmin |}) db with
                  | Raise t => Raise t
                  | Done db' => Done (ok, db')
                  end
            end
        | _ => Done (reply 400 (errorBody "isAdmin must be boolean"), db)
        end
    | _ => Done (reply 400 (errorBody "enabled must be boolean"), db)
    end.

(** The body of [DELETE /api/admin/users/:userName]. *)
Definition deleteUser (param : string) (db : Database) : Attempt (Response * Database) :=
  match decodeURIComponent rt param with
  | Throw e => Raise (Uncaught e)
  | Ret userName =>
      let result := deleteUsers userName db in
      if (fst result =? 0)%nat then Done (reply 404 (errorBody "user not found"), snd result)
      else Done (reply 200 (JObject [("userName", JString userName); ("deleted", JBool true)]),
                 snd result)
  end.

(** The body of [POST /api/admin/apikeys]; [clock] is [new Date()]. *)
Definition createApiKey (uuid : string) (clock : DateTime) (req : Request) (db : Database)
  : Attempt (Response * Database) :=
  keyName ← attempt (bodyText rt req "keyName");
  apiKey ← attempt (bodyText rt req "key");
  let expiresAtRaw := Val.get (body req) "expiresAt" in
  let enabled := toBool (Val.get (body req) "enabled") in
  idText ← attempt (bodyText rt req "id");
  let id := if nonEmpty idText then idText else "k-" ++ uuidPrefix 8 uuid in
  if Js.isEmpty keyName then Done (reply 400 (errorBody "keyName is required"), db)
  else if Js.isEmpty apiKey then Done (reply 400 (errorBody "key is required"), db)
  else
    expiresAt ← attempt (textOrNull rt expiresAtRaw);
    let createdAt := asIsoNow clock in
    let keyHash := hashApiKey rt apiKey in
    match insertApiKey {| ApiKeys.ApiKeyID := id; ApiKeys.KeyName := keyName;
                          ApiKeys.KeyHash := keyHash; ApiKeys.CreatedAt := createdAt;
                          ApiKeys.ExpiresAt := expiresAt; ApiKeys.Enabled := bit enabled |} db with
    | Raise t => Raise t
    | Done db' =>
        Done (reply 201 (JObject [("id", JString id); ("keyName", JString keyName);
                                  ("createdAt", JString createdAt);
                                  ("expiresAt", nullable expiresAt);
                                  ("enabled", JBool enabled)]), db')
    end.

(** The body of [PUT /api/admin/apikeys/:id]; [id] is [req.params.id]. *)
Definition updateApiKey (id : string) (req : Request) (db : Database)
  : Attempt (Response * Database) :=
  keyName ← attempt (bodyText rt req "keyName");
  let expiresAtRaw := Val.get (body req) "expiresAt" in
  if Js.isEmpty keyName then Done (reply 400 (errorBody "keyName is required"), db)
  else
    match Val.get (body req) "enabled" with
    | JBool enabled =>
        expiresAt ← attempt (textOrNull rt expiresAtRaw);
        match updateApiKeys id keyName expiresAt (bit enabled) db with
        | Raise t => Raise t
        | Done (changes, db') =>
            if (changes =? 0)%nat then Done (reply 404 (errorBody "apikey not found"), db')
            else
              match List.find (keyWithId id) (tblApiKeys db') with
              | Some row =>
                  Done (reply 200 (JObject [("id", JString id); ("keyName", JString keyName);
                                            ("createdAt", JString (ApiKeys.CreatedAt row));
                                            ("expiresAt", nullable expiresAt);
                                            ("enabled", JBool enabled)]), db')
              | None =>
                  Raise (Uncaught (OtherError
                           "Cannot read properties of undefined (reading 'CreatedAt')"))
              end
        end
    | _ => Done (reply 400 (errorBody "enabled must be boolean"), db)
    end.

(** The body of [DELETE /api/admin/apikeys/:id]. *)
Definition deleteApiKey (id : string) (db : Database) : Attempt (Response * Database) :=
  let result := deleteApiKeys id db in
  if (fst result =? 0)%nat then Done (reply 404 (errorBody "apikey not found"), snd result)
  else Done (reply 200 (JObject [("id", JString id); ("deleted", JBool true)]), snd result).

End Admin.

(** A file system that holds one PFX bundle, and an environment that names
    it without setting [API_HTTPS]. *)
Definition toyFs : NodeFs :=
  {| existsSync := fun p => String.eqb p "/etc/fax/server.pfx";
     readFileSync := fun p =>
       if String.eqb p "/etc/fax/server.pfx" then Ret [Byte.x30; Byte.x82]
       else Throw (OtherError "ENOENT");
     isAbsolute := Js.startsWith "/";
     resolveFromProjectRoot := fun p => "/srv/fax/" ++ p |}.

Definition toyTlsEnv : gmap string string :=
  {[ "API_HTTPS_PFX_PATH" := "/etc/fax/server.pfx" ]}.

(** [decodeURIComponent] leaves a text without [%] as it is. *)
Definition decodePlain (rt : Runtime) : Prop :=
  forall s,
    Js.allChars (fun c => negb (Ascii.eqb c "%"%char)) s = true ->
    decodeURIComponent rt s = Ret s.

(** The characters a cookie value keeps through [parseCookies]. *)
Definition cookieSafe (c : ascii) : bool :=
  negb (Js.isWhiteSpace c) && negb (Ascii.eqb c ";"%char) && negb (Ascii.eqb c "="%char)
  && negb (Ascii.eqb c "%"%char).

(** The lifetime of a session. *)
Definition sessionTtl (rememberMe : bool) : Z :=
  if rememberMe then REMEMBER_ME_MAX_AGE_MS else SESSION_MAX_AGE_MS.

(** A database whose accounts have hashes that [Toy.rt] computes, and a
    login request for one of them. *)
Definition toyDbLogin : Database :=
  {| tblUsers :=
       [ {| Users.UserName := "admin"; Users.PasswordSalt := "s1";
            Users.PasswordHash := Some (hashPassword Toy.rt "pass1234" "s1");
            Users.Enabled := 1; Users.IsAdmin := 1 |};
         {| Users.UserName := "tanaka"; Users.PasswordSalt := "s2";
            Users.PasswordHash := Some (hashPassword Toy.rt "pass1234" "s2");
            Users.Enabled := 1; Users.IsAdmin := 0 |};
         {| Users.UserName := "suzuki"; Users.PasswordSalt := "s3";
            Users.PasswordHash := Some (hashPassword Toy.rt "pass1234" "s3");
            Users.Enabled := 0; Users.IsAdmin := 0 |} ];
     tblApiKeys := [] |}.

Definition toyLoginRequest : Request :=
  {| method := "POST"; path := "/api/auth/login"; headers := ∅;
     remoteAddress := Some "203.0.113.9";
     body := JObject [("username", JString " tanaka "); ("password", JString "pass1234")] |}.

(** A request that creates the account [sato]. *)
Definition toyNewUser : Request :=
  {| method := "POST"; path := "/api/admin/users"; headers := ∅;
     remoteAddress := Some "203.0.113.9";
     body := JObject [("userName", JString " sato "); ("password", JString "pw12");
                      ("enabled", JBool true)] |}.

(** A request that renames an account, gives it a new password and makes it
    an administrator. *)
Definition toyRename : Request :=
  {| method := "PUT"; path := "/api/admin/users/tanaka"; headers := ∅;
     remoteAddress := Some "203.0.113.9";
     body := JObject [("userName", JString "tanaka2"); ("password", JString "newpass1");
                      ("enabled", JBool true);
                      ("isAdmin", JBool true)] |}.

(** The login with the new name and password. *)
Definition toyRenamedLogin : Request :=
  {| method := "POST"; path := "/api/auth/login"; headers := ∅;
     remoteAddress := Some "203.0.113.9";
     body := JObject [("username", JString "tanaka2"); ("password", JString "newpass1")] |}.

(** Requests that create an API key and that disable the key [k-1]. *)
Definition toyNewKey : Request :=
  {| method := "POST"; path := "/api/admin/apikeys"; headers := ∅;
     remoteAddress := Some "203.0.113.9";
     body := JObject [("keyName", JString "fax"); ("key", JString " fax-key ");
                      ("expiresAt", JString "2027-01-01T00:00:00");
                      ("enabled", JBool true)] |}.

Definition toyDisableKey : Request :=
  {| method := "PUT"; path := "/api/admin/apikeys/k-1"; headers := ∅;
     remoteAddress := Some "203.0.113.9";
     body := JObject [("keyName", JString "scanner"); ("enabled", JBool false)] |}.

(** A value that [String] cannot convert: an object with a [toString]
    property of its own, as [JSON.parse] makes it of [{"toString":1}]; and
    requests that carry it as a key name, as a document id and as a
    document class. *)
Definition toyUnprintable : jsval := JObject [("toString", JNumber (Fin 1))].

Definition toyBadKeyName : Request :=
  {| method := "PUT"; path := "/api/admin/apikeys/k-1"; headers := ∅;
     remoteAddress := Some "203.0.113.9";
     body := JObject [("keyName", toyUnprintable); ("enabled", JBool true)] |}.

Definition toyBadTrigger : Request :=
  {| method := "POST"; path := "/api/internal/documents-inserted"; headers := ∅;
     remoteAddress := Some "127.0.0.1";
     body := JObject [("documentId", toyUnprintable)] |}.

Definition toyBadDocClass : Request :=
  {| method := "PATCH"; path := "/api/documents/d1/doc-class"; headers := ∅;
     remoteAddress := Some "203.0.113.9";
     body := JObject [("docClass", toyUnprintable)] |}.

(** The answer to [toyNewKey] on [toyDbKeys], and the database it leaves. *)
Definition toyKeyCreated : Response :=
  Eval vm_compute in
    fst (answer toyDbKeys
           (createApiKey Toy.rt "123e4567-e89b-12d3-a456-426614174000" toyClock toyNewKey
              toyDbKeys)).

Definition toyDbNewKey : Database :=
  Eval vm_compute in
    snd (answer toyDbKeys
           (createApiKey Toy.rt "123e4567-e89b-12d3-a456-426614174000" toyClock toyNewKey
              toyDbKeys)).

(** ** Which layer answered *)

(** The layer [l] answers the request with [r]: a middleware that applies
    and responds, or a matching route whose guard responds. *)
Definition layerRejects (authUser : option Principal) (req : Request) (r : Response)
    (l : Layer) : Prop :=
  match l with
  | Use _ mount middleware =>
      exists reqPath,
        mountedPath mount (path req) = Some reqPath /\ middleware authUser reqPath = Respond r
  | Route verb pattern h =>
      handlesMethod verb req = true
      /\ matchRoute pattern (path req) = true
      /\ inlineGuard h authUser = Respond r
  end.

(** The handlers of the routes on the public allowlist. *)
Definition publicHandler (h : Handler) : bool :=
  match h with
  | EventsStream | DocumentsInserted | AuthLogin | AuthMe | AuthLogout => true
  | _ => false
  end.

(** ** More observations of the bus *)

(** The step takes a number from the sequence: a publish with somebody
    registered, or a new stream whose first write succeeds. *)
Definition advances (st : State) (op : BusOp) : bool :=
  match op with
  | Publish _ _ => negb (length (documentEventClients st) =? 0)%nat
  | Subscribe _ res => canWrite (openSocket res st) res
  | _ => false
  end.


(** The payload of the event a new stream starts with. *)
Definition initialPayload (clock : DateTime) : jsval :=
  JObject [("event", JString "documents_changed");
           ("initial", JBool true);
           ("occurredAt", JString (asIsoNow clock))].

(** ** The accounts of a fresh database *)


Section Seed.

Variable rt : Runtime.



End Seed.

(** ** Paging *)

(** [n || d] for a number [n] and an integer [d]. *)
Definition orDefault (n : jsnum) (d : Z) : jsnum :=
  if Val.truthy (JNumber n) then n else Fin d.

(** [Math.min(a, n)] and [Math.max(a, n)] for an integer [a]. *)
Definition mathMin (a : Z) (n : jsnum) : jsnum :=
  match n with
  | Fin z => Fin (Z.min a z)
  | NaN => NaN
  | PosInf => Fin a
  | NegInf => NegInf
  end.

Definition mathMax (a : Z) (n : jsnum) : jsnum :=
  match n with
  | Fin z => Fin (Z.max a z)
  | NaN => NaN
  | PosInf => PosInf
  | NegInf => Fin a
  end.

Section Paging.

Variable rt : Runtime.
(** [Number.parseInt(text, 10)] *)
Variable parseInt10 : string -> jsnum.

(** [page] and [pageSize] of [GET /api/documents]; the arguments are
    [req.query.page] and [req.query.pageSize]. *)
Definition pageOf (query : jsval) : exn jsnum :=
  text ← ToString rt (Val.nullish query (JString "1"));
  Ret (mathMax 1 (orDefault (parseInt10 text) 1)).

Definition pageSizeOf (query : jsval) : exn jsnum :=
  text ← ToString rt (Val.nullish query (JString "50"));
  Ret (mathMax 1 (mathMin 200 (orDefault (parseInt10 text) 50))).

End Paging.

(** ** Documents and their classes *)

Module DocumentClasses.
Record row : Type := {
  DocumentClassID : string;
  Name : string;
  Priority : Z;
  Enabled : Z;
  Prompt : string
}.
End DocumentClasses.

Module Documents.
Record row : Type := {
  ID : string;
  Active : Z;
  SourcePath : string;
  DateCreated : string;
  DateReceived : string;
  Title : string;
  Sender : option string;
  SenderOrganization : option string;
  Recipient : option string;
  RecipientOrganization : option string;
  DocumentClassID : option string;
  DocumentData : string
}.
End Documents.

(** The two tables of the document store. *)
Record Library : Type := {
  tblDocumentClasses : list DocumentClasses.row;
  tblDocuments : list Documents.row
}.

Definition classWithId (id : string) (r : DocumentClasses.row) : bool :=
  String.eqb (DocumentClasses.DocumentClassID r) id.

Definition documentWithId (id : string) (r : Documents.row) : bool :=
  String.eqb (Documents.ID r) id.

(** [WHERE DocumentClassID = ?] on [Documents]: [NULL] equals nothing. *)
Definition ofClass (id : string) (r : Documents.row) : bool :=
  match Documents.DocumentClassID r with
  | Some c => String.eqb c id
  | None => false
  end.

Definition withClass (docClass : option string) (r : Documents.row) : Documents.row :=
  {| Documents.ID := Documents.ID r; Documents.Active := Documents.Active r;
     Documents.SourcePath := Documents.SourcePath r;
     Documents.DateCreated := Documents.DateCreated r;
     Documents.DateReceived := Documents.DateReceived r;
     Documents.Title := Documents.Title r; Documents.Sender := Documents.Sender r;
     Documents.SenderOrganization := Documents.SenderOrganization r;
     Documents.Recipient := Documents.Recipient r;
     Documents.RecipientOrganization := Documents.RecipientOrganization r;
     Documents.DocumentClassID := docClass;
     Documents.DocumentData := Documents.DocumentData r |}.

Definition foreignKeyError : Thrown :=
  SqliteError "SQLITE_CONSTRAINT_FOREIGNKEY" "FOREIGN KEY constraint failed".

(** [DELETE FROM DocumentClasses WHERE DocumentClassID = ?], with
    [foreign_keys = ON]: a class that a document refers to cannot go. *)
Definition deleteClasses (id : string) (lib : Library) : Attempt (nat * Library) :=
  if existsb (classWithId id) (tblDocumentClasses lib) && existsb (ofClass id) (tblDocuments lib)
  then Raise foreignKeyError
  else
    Done (length (List.filter (classWithId id) (tblDocumentClasses lib)),
          {| tblDocumentClasses :=
               List.filter (fun r => negb (classWithId id r)) (tblDocumentClasses lib);
             tblDocuments := tblDocuments lib |}).

(** [UPDATE Documents SET DocumentClassID = ? WHERE ID = ?], with
    [foreign_keys = ON]: the new class must exist, unless it is [NULL]. *)
Definition updateDocumentClassId (docClass : option string) (id : string) (lib : Library)
  : Attempt (nat * Library) :=
  if existsb (documentWithId id) (tblDocuments lib)
     && match docClass with
        | Some c => negb (existsb (classWithId c) (tblDocumentClasses lib))
        | None => false
        end
  then Raise foreignKeyError
  else
    Done (length (List.filter (documentWithId id) (tblDocuments lib)),
          {| tblDocumentClasses := tblDocumentClasses lib;
             tblDocuments :=
               List.map (fun r => if documentWithId id r then withClass docClass r else r)
                 (tblDocuments lib) |}).

(** The body of [DELETE /api/document-classes/:id]; [id] is [req.params.id]. *)
Definition deleteDocumentClass (id : string) (lib : Library) : Attempt (Response * Library) :=
  let refCount := length (List.filter (ofClass id) (tblDocuments lib)) in
  if (0 <? refCount)%nat then
    Done (reply 400 (errorBody "document class is referenced by documents"), lib)
  else
    match deleteClasses id lib with
    | Raise t => Raise t
    | Done (changes, lib') =>
        if (changes =? 0)%nat then Done (reply 404 (errorBody "document class not found"), lib')
        else Done (reply 200 (JObject [("id", JString id); ("deleted", JBool true)]), lib')
    end.

(** The body of [PATCH /api/documents/:id/doc-class] after its two guards;
    [id] is [req.params.id]. *)
Definition patchDocClass (rt : Runtime) (id : string) (req : Request) (lib : Library)
  : Attempt (Response * Library) :=
  docClass ← attempt (textOrNull rt (Val.get (body req) "docClass"));
  let classMissing :=
    match docClass with
    | Some c => negb (existsb (classWithId c) (tblDocumentClasses lib))
    | None => false
    end in
  if classMissing then Done (reply 400 (errorBody "document class not found"), lib)
  else
    match updateDocumentClassId docClass id lib with
    | Raise t => Raise t
    | Done (changes, lib') =>
        if (changes =? 0)%nat then Done (reply 404 (errorBody "document not found"), lib')
        else Done (reply 200 (JObject [("id", JString id); ("docClass", nullable docClass)]),
                   lib')
    end.

(** Every document's class is a row of [DocumentClasses], or [NULL]. *)
Definition referencesHold (lib : Library) : Prop :=
  forall d c,
    In d (tblDocuments lib) ->
    Documents.DocumentClassID d = Some c ->
    existsb (classWithId c) (tblDocumentClasses lib) = true.

(** A store with one class and one document of that class. *)
Definition toyLibrary : Library :=
  {| tblDocumentClasses :=
       [ {| DocumentClasses.DocumentClassID := "Invoice"; DocumentClasses.Name := "Invoice";
            DocumentClasses.Priority := 10; DocumentClasses.Enabled := 1;
            DocumentClasses.Prompt := "" |} ];
     tblDocuments :=
       [ {| Documents.ID := "d1"; Documents.Active := 1; Documents.SourcePath := "/in/d1.pdf";
            Documents.DateCreated := "2026-11-01T09:05:03";
            Documents.DateReceived := "2026-11-01T09:05:03"; Documents.Title := "d1";
            Documents.Sender := None; Documents.SenderOrganization := None;
            Documents.Recipient := None; Documents.RecipientOrganization := None;
            Documents.DocumentClassID := Some "Invoice"; Documents.DocumentData := "{}" |} ] |}.

(** * Properties *)

(** ** Strings *)

Module JsFacts.

Lemma allChars_app P a b :
  Js.allChars P (a ++ b) = Js.allChars P a && Js.allChars P b.
Proof.
  induction a as [|c a IH]; simpl; [reflexivity|].
  rewrite IH. apply andb_assoc.
Qed.

Lemma allChars_weaken (P Q : ascii -> bool) s :
  (forall c, P c = true -> Q c = true) ->
  Js.allChars P s = true -> Js.allChars Q s = true.
Proof.
  intros HPQ. induction s as [|c s IH]; simpl; [reflexivity|].
  intros H. apply andb_true_iff in H as [Hc Hs].
  rewrite (HPQ _ Hc), (IH Hs). reflexivity.
Qed.

Lemma isEmpty_true s : Js.isEmpty s = true -> s = EmptyString.
Proof. destruct s; [reflexivity | discriminate]. Qed.

Lemma trimStart_nonwhite c s :
  Js.isWhiteSpace c = false -> Js.trimStart (String c s) = String c s.
Proof. intros H. simpl. rewrite H. reflexivity. Qed.

Lemma trimEnd_nowhite s :
  Js.allChars (fun c => negb (Js.isWhiteSpace c)) s = true -> Js.trimEnd s = s.
Proof.
  induction s as [|c s IH]; simpl; [reflexivity|].
  intros H. apply andb_true_iff in H as [Hc Hs].
  rewrite (IH Hs). apply negb_true_iff in Hc. rewrite Hc. reflexivity.
Qed.

(** A string without white space is its own trim. *)
Lemma trim_nowhite s :
  Js.allChars (fun c => negb (Js.isWhiteSpace c)) s = true -> Js.trim s = s.
Proof.
  intros H. unfold Js.trim.
  destruct s as [|c s]; [reflexivity|].
  simpl in H. apply andb_true_iff in H as [Hc Hs].
  apply negb_true_iff in Hc.
  rewrite (trimStart_nonwhite _ _ Hc).
  apply trimEnd_nowhite. simpl. rewrite Hc, Hs. reflexivity.
Qed.

Lemma split_nosep sep s :
  Js.allChars (fun c => negb (Ascii.eqb c sep)) s = true -> Js.split sep s = [s].
Proof.
  induction s as [|c s IH]; simpl; [reflexivity|].
  intros H. apply andb_true_iff in H as [Hc Hs].
  apply negb_true_iff in Hc. rewrite Hc, (IH Hs). reflexivity.
Qed.

Lemma split_cons sep a rest :
  Js.allChars (fun c => negb (Ascii.eqb c sep)) a = true ->
  Js.split sep (a ++ String sep rest) = a :: Js.split sep rest.
Proof.
  induction a as [|c a IH]; simpl.
  - intros _. rewrite Ascii.eqb_refl. reflexivity.
  - intros H. apply andb_true_iff in H as [Hc Hs].
    apply negb_true_iff in Hc. rewrite Hc, (IH Hs). reflexivity.
Qed.

Lemma map_app f a b : Js.map f (a ++ b) = Js.map f a ++ Js.map f b.
Proof. induction a as [|c a IH]; simpl; [reflexivity|]. rewrite IH. reflexivity. Qed.

Lemma map_map f g s : Js.map f (Js.map g s) = Js.map (fun c => f (g c)) s.
Proof. induction s as [|c s IH]; simpl; [reflexivity|]. rewrite IH. reflexivity. Qed.

Lemma stripTrailing_repeat c n : Js.stripTrailing c (Js.repeat c n) = EmptyString.
Proof.
  induction n as [|n IH]; simpl; [reflexivity|].
  rewrite IH, Ascii.eqb_refl. reflexivity.
Qed.

(** Stripping a trailing run of [c] gives back a string free of [c]. *)
Lemma stripTrailing_app c s n :
  Js.allChars (fun x => negb (Ascii.eqb x c)) s = true ->
  Js.stripTrailing c (s ++ Js.repeat c n) = s.
Proof.
  induction s as [|x s IH]; simpl.
  - intros _. apply stripTrailing_repeat.
  - intros H. apply andb_true_iff in H as [Hx Hs].
    apply negb_true_iff in Hx. rewrite Hx, (IH Hs). reflexivity.
Qed.

Lemma app_one c s : String c EmptyString ++ s = String c s.
Proof. reflexivity. Qed.

End JsFacts.

(** ** Conversions *)

Section ConversionFacts.

Variable rt : Runtime.

(** [String(v)] throws exactly on the values of [throwsOnString], and what
    it throws is [TypeError]. *)
Lemma ToString_cases (v : jsval) :
  if throwsOnString v then ToString rt v = Throw TypeError
  else returns (ToString rt v).
Proof.
  induction v as [| |b|n|s|items IH|fields] using jsval_elements_ind;
    cbn [throwsOnString ToString]; try (eexists; reflexivity).
  - destruct b; eexists; reflexivity.
  - assert (Heach : if existsb throwsOnString items
                    then mapE (fun x => match x with
                                        | JUndefined | JNull => Ret EmptyString
                                        | _ => ToString rt x
                                        end) items = Throw TypeError
                    else returns (mapE (fun x => match x with
                                                 | JUndefined | JNull => Ret EmptyString
                                                 | _ => ToString rt x
                                                 end) items)).
    { induction IH as [|x rest Hx _ IHrest]; cbn [existsb mapE]; [eexists; reflexivity|].
      destruct (throwsOnString x) eqn:Ex; cbn [orb].
      - destruct x; try discriminate Ex; rewrite Hx; reflexivity.
      - assert (Hpart : returns match x with
                                | JUndefined | JNull => Ret EmptyString
                                | _ => ToString rt x
                                end).
        { destruct x; try exact Hx; eexists; reflexivity. }
        destruct Hpart as [part ->]. cbn [mbind exn_bind].
        destruct (existsb throwsOnString rest).
        + rewrite IHrest. reflexivity.
        + destruct IHrest as [more ->]. eexists. reflexivity. }
    destruct (existsb throwsOnString items).
    + rewrite Heach. reflexivity.
    + destruct Heach as [parts ->]. eexists. reflexivity.
  - destruct (Val.assoc "toString" fields); [reflexivity | eexists; reflexivity].
Qed.

Lemma ToString_throws (v : jsval) (e : JsError) :
  ToString rt v = Throw e <-> e = TypeError /\ throwsOnString v = true.
Proof.
  pose proof (ToString_cases v) as H.
  destruct (throwsOnString v).
  - rewrite H. split; [intros [= <-]; split; reflexivity | intros [-> _]; reflexivity].
  - destruct H as [text ->]. split; [discriminate | intros [_ [=]]].
Qed.

Lemma ToString_returns (v : jsval) :
  returns (ToString rt v) <-> throwsOnString v = false.
Proof.
  pose proof (ToString_cases v) as H.
  destruct (throwsOnString v).
  - rewrite H. split; [intros [text [=]] | discriminate].
  - split; [reflexivity | intros _; exact H].
Qed.

(** A field of the body converts to text unless [String] throws on it. *)
Lemma bodyText_throws (req : Request) (key : string) (e : JsError) :
  bodyText rt req key = Throw e
  <-> e = TypeError /\ throwsOnString (Val.get (body req) key) = true.
Proof.
  unfold bodyText, trimmedText.
  assert (Hnullish : throwsOnString (Val.nullish (Val.get (body req) key) (JString ""))
                     = throwsOnString (Val.get (body req) key)).
  { destruct (Val.get (body req) key); reflexivity. }
  rewrite <- Hnullish, <- ToString_throws.
  destruct (ToString rt _); cbn [mbind exn_bind]; split; congruence.
Qed.

Lemma bodyText_returns (req : Request) (key : string) :
  returns (bodyText rt req key) <-> throwsOnString (Val.get (body req) key) = false.
Proof.
  destruct (bodyText rt req key) as [text|e] eqn:E.
  - split; [|intros _; eexists; reflexivity]. intros _.
    destruct (throwsOnString (Val.get (body req) key)) eqn:Hthrows; [|reflexivity].
    assert (Habsurd : bodyText rt req key = Throw TypeError)
      by (apply bodyText_throws; split; [reflexivity | exact Hthrows]).
    congruence.
  - apply bodyText_throws in E as [_ ->]. split; [intros [text [=]] | discriminate].
Qed.

End ConversionFacts.

(** ** Base64 *)

Module Base64Facts.

Import JsFacts.

Lemma below64 (P : N -> Prop) :
  (forall k : nat, (k < 64)%nat -> P (N.of_nat k)) ->
  forall v : N, (v < 64)%N -> P v.
Proof.
  intros H v Hv. rewrite <- (N2Nat.id v). apply H. lia.
Qed.

Ltac each64 :=
  let k := fresh "k" in
  let Hk := fresh "Hk" in
  intros k Hk;
  do 64 (destruct k as [|k]; [vm_compute; repeat split; reflexivity|]);
  exfalso; lia.

Lemma char_spec v :
  (v < 64)%N ->
  Base64.unbase64 (Base64.char v) = Some v
  /\ Base64.urlChar (Base64.toUrl (Base64.char v)) = true
  /\ Base64.fromUrl (Base64.toUrl (Base64.char v)) = Base64.char v
  /\ Ascii.eqb (Base64.char v) "="%char = false.
Proof. revert v. apply below64. each64. Qed.

Lemma urlChar_spec c :
  Base64.urlChar c = true ->
  Js.isWhiteSpace c = false /\ Ascii.eqb c "."%char = false
  /\ Ascii.eqb c "="%char = false.
Proof.
  unfold Base64.urlChar, Js.isWhiteSpace. intros H.
  assert (Hdot : Js.code "."%char = 46%N) by reflexivity.
  assert (Heq : Js.code "="%char = 61%N) by reflexivity.
  repeat split.
  - repeat (apply orb_false_iff; split); apply N.eqb_neq; intros E;
      rewrite E in H; discriminate H.
  - apply Ascii.eqb_neq. intros ->. rewrite Hdot in H. discriminate H.
  - apply Ascii.eqb_neq. intros ->. rewrite Heq in H. discriminate H.
Qed.

Lemma sextets_induction (P : Buffer -> Prop) :
  P [] ->
  (forall x, P [x]) ->
  (forall x y, P [x; y]) ->
  (forall x y z rest, P rest -> P (x :: y :: z :: rest)) ->
  forall b, P b.
Proof.
  intros H0 H1 H2 H3.
  fix IH 1. intros [|x [|y [|z rest]]].
  - exact H0.
  - apply H1.
  - apply H2.
  - apply H3. apply IH.
Qed.

Lemma byteOfN_to_N x : Base64.byteOfN (Byte.to_N x) = x.
Proof. unfold Base64.byteOfN. rewrite Byte.of_to_N. reflexivity. Qed.

Lemma sextets_small b : Base64.small (Base64.sextets b).
Proof.
  induction b as [|x|x y|x y z rest IH] using sextets_induction;
    cbn [Base64.sextets]; unfold Base64.small in *.
  - constructor.
  - pose proof (Byte.to_N_bounded x).
    repeat constructor.
    + apply N.Div0.div_lt_upper_bound. lia.
    + assert (Byte.to_N x mod 4 < 4)%N by (apply N.mod_lt; lia). lia.
  - pose proof (Byte.to_N_bounded x). pose proof (Byte.to_N_bounded y).
    repeat constructor.
    + apply N.Div0.div_lt_upper_bound. lia.
    + apply N.mod_lt; lia.
    + assert ((Byte.to_N x * 256 + Byte.to_N y) mod 16 < 16)%N by (apply N.mod_lt; lia). lia.
  - pose proof (Byte.to_N_bounded x). pose proof (Byte.to_N_bounded y).
    pose proof (Byte.to_N_bounded z).
    repeat (constructor; [|]); try exact IH.
    + apply N.Div0.div_lt_upper_bound. lia.
    + apply N.mod_lt; lia.
    + apply N.mod_lt; lia.
    + apply N.mod_lt; lia.
Qed.

Ltac euclid := zify; Z.to_euclidean_division_equations; lia.

Lemma byteOfN_eq n x : n = Byte.to_N x -> Base64.byteOfN n = x.
Proof. intros ->. apply byteOfN_to_N. Qed.

Lemma bytes_sextets b : Base64.bytes (Base64.sextets b) = b.
Proof.
  induction b as [|x|x y|x y z rest IH] using sextets_induction;
    cbn [Base64.sextets Base64.bytes].
  - reflexivity.
  - pose proof (Byte.to_N_bounded x) as Hx.
    f_equal. apply byteOfN_eq. euclid.
  - pose proof (Byte.to_N_bounded x) as Hx. pose proof (Byte.to_N_bounded y) as Hy.
    f_equal; [apply byteOfN_eq; euclid|].
    f_equal. apply byteOfN_eq. euclid.
  - pose proof (Byte.to_N_bounded x) as Hx. pose proof (Byte.to_N_bounded y) as Hy.
    pose proof (Byte.to_N_bounded z) as Hz.
    rewrite IH.
    f_equal; [apply byteOfN_eq; euclid|].
    f_equal; [apply byteOfN_eq; euclid|].
    f_equal. apply byteOfN_eq. euclid.
Qed.

Lemma sextets_nil b : Base64.sextets b = [] -> b = [].
Proof. destruct b as [|x [|y [|z rest]]]; [reflexivity | discriminate ..]. Qed.

Lemma map_toUrl_chars l : Js.map Base64.toUrl (Base64.chars l) = Base64.urlChars l.
Proof. induction l as [|v l IH]; simpl; [reflexivity|]. rewrite IH. reflexivity. Qed.

Lemma padding_repeat n : exists k, Base64.padding n = Js.repeat "="%char k.
Proof.
  unfold Base64.padding. destruct (n mod 3)%nat as [|[|[|m]]].
  - exists 0%nat. reflexivity.
  - exists 2%nat. reflexivity.
  - exists 1%nat. reflexivity.
  - exists 0%nat. reflexivity.
Qed.

Lemma map_repeat_fixed f c k : f c = c -> Js.map f (Js.repeat c k) = Js.repeat c k.
Proof. intros H. induction k as [|k IH]; simpl; [reflexivity|]. rewrite H, IH. reflexivity. Qed.

Lemma urlChars_alphabet l :
  Base64.small l -> Js.allChars Base64.urlChar (Base64.urlChars l) = true.
Proof.
  induction 1 as [|v l Hv _ IH]; simpl; [reflexivity|].
  destruct (char_spec v Hv) as (_ & H & _). rewrite H, IH. reflexivity.
Qed.

Lemma toBase64Url_urlChars b : toBase64Url b = Base64.urlChars (Base64.sextets b).
Proof.
  unfold toBase64Url, Js.replaceAll, Base64.encode.
  rewrite map_map.
  change (fun c => if Ascii.eqb (if Ascii.eqb c "+"%char then "-"%char else c) "/"%char
                   then "_"%char
                   else if Ascii.eqb c "+"%char then "-"%char else c)
    with Base64.toUrl.
  rewrite map_app, map_toUrl_chars.
  destruct (padding_repeat (length b)) as [k ->].
  rewrite map_repeat_fixed by reflexivity.
  apply stripTrailing_app.
  eapply allChars_weaken; [|apply urlChars_alphabet, sextets_small].
  intros c Hc. apply urlChar_spec in Hc as (_ & _ & ->). reflexivity.
Qed.

Lemma map_fromUrl_urlChars l :
  Base64.small l -> Js.map Base64.fromUrl (Base64.urlChars l) = Base64.chars l.
Proof.
  induction 1 as [|v l Hv _ IH]; simpl; [reflexivity|].
  destruct (char_spec v Hv) as (_ & _ & H & _). rewrite H, IH. reflexivity.
Qed.

Lemma groups_repeat k : Base64.groups (Js.repeat "="%char k) = [].
Proof. destruct k; reflexivity. Qed.

Lemma groups_chars l k :
  Base64.small l -> Base64.groups (Base64.chars l ++ Js.repeat "="%char k) = l.
Proof.
  induction 1 as [|v l Hv _ IH]; simpl.
  - apply groups_repeat.
  - destruct (char_spec v Hv) as (Hu & _ & _ & He).
    rewrite He, Hu, IH. reflexivity.
Qed.

(** Decoding the URL-safe text of a buffer gives the buffer back. *)
Lemma fromBase64Url_toBase64Url b : fromBase64Url (toBase64Url b) = b.
Proof.
  rewrite toBase64Url_urlChars.
  pose proof (sextets_small b) as Hs.
  unfold fromBase64Url.
  rewrite trim_nowhite.
  2:{ eapply allChars_weaken; [|apply urlChars_alphabet, Hs].
      intros c Hc. apply urlChar_spec in Hc as (-> & _). reflexivity. }
  destruct (Js.isEmpty (Base64.urlChars (Base64.sextets b))) eqn:He.
  - apply isEmpty_true in He.
    destruct (Base64.sextets b) eqn:Hb; [|discriminate He].
    symmetry. apply sextets_nil, Hb.
  - unfold Js.replaceAll. rewrite map_map.
    change (fun c => if Ascii.eqb (if Ascii.eqb c "-"%char then "+"%char else c) "_"%char
                     then "/"%char
                     else if Ascii.eqb c "-"%char then "+"%char else c)
      with Base64.fromUrl.
    rewrite (map_fromUrl_urlChars _ Hs).
    unfold Base64.decode. rewrite (groups_chars _ _ Hs).
    apply bytes_sextets.
Qed.

Lemma toBase64Url_alphabet b : Js.allChars Base64.urlChar (toBase64Url b) = true.
Proof. rewrite toBase64Url_urlChars. apply urlChars_alphabet, sextets_small. Qed.

Lemma toBase64Url_nodot b :
  Js.allChars (fun c => negb (Ascii.eqb c "."%char)) (toBase64Url b) = true.
Proof.
  eapply allChars_weaken; [|apply toBase64Url_alphabet].
  intros c Hc. apply urlChar_spec in Hc as (_ & -> & _). reflexivity.
Qed.

Lemma toBase64Url_nowhite b :
  Js.allChars (fun c => negb (Js.isWhiteSpace c)) (toBase64Url b) = true.
Proof.
  eapply allChars_weaken; [|apply toBase64Url_alphabet].
  intros c Hc. apply urlChar_spec in Hc as (-> & _). reflexivity.
Qed.

End Base64Facts.

(** ** The session codec *)

Section Codec.

Import JsFacts Base64Facts.

Variable rt : Runtime.
Variable sessionSecretKey : Buffer.

Lemma isEmpty_app_cons a c b : Js.isEmpty (a ++ String c b) = false.
Proof. destruct a; reflexivity. Qed.

(** The three segments of a sealed token, as [decryptSessionPayload] sees them. *)
Lemma token_segments (a b c : Buffer) :
  let token := toBase64Url a ++ "." ++ toBase64Url b ++ "." ++ toBase64Url c in
  Js.trim token = token
  /\ Js.isEmpty token = false
  /\ Js.split "."%char token = [toBase64Url a; toBase64Url b; toBase64Url c].
Proof.
  intros token. subst token.
  rewrite !app_one.
  repeat split.
  - apply trim_nowhite.
    repeat (rewrite allChars_app; cbn [Js.allChars]).
    rewrite !toBase64Url_nowhite. reflexivity.
  - apply isEmpty_app_cons.
  - rewrite split_cons by apply toBase64Url_nodot.
    rewrite split_cons by apply toBase64Url_nodot.
    rewrite split_nosep by apply toBase64Url_nodot.
    reflexivity.
Qed.

(** Opening a token made of three well-sized segments runs the cipher and the
    parser on the decoded segments. *)
Lemma decrypt_sealed (iv encrypted authTag : Buffer) :
  length iv = 12%nat ->
  length authTag = 16%nat ->
  decryptSessionPayload rt sessionSecretKey
    (toBase64Url iv ++ "." ++ toBase64Url encrypted ++ "." ++ toBase64Url authTag)
  = try_catch
      (decrypted ← aes256gcm_open rt sessionSecretKey iv encrypted authTag;
       payload ← JSON_parse rt (utf8_decode rt decrypted);
       mret (if Val.truthy payload && Val.typeofObject payload then payload else JNull))
      (fun _ => mret JNull).
Proof.
  intros Hiv Htag.
  destruct (token_segments iv encrypted authTag) as (Htrim & Hne & Hsplit).
  unfold decryptSessionPayload.
  rewrite Htrim, Hne, Hsplit.
  rewrite !fromBase64Url_toBase64Url, Hiv, Htag.
  reflexivity.
Qed.

End Codec.

(** Sealing then opening, for any value the parser gives back as an object. *)
Lemma seal_open_any
    (rt : Runtime) (sessionSecretKey iv : Buffer) (payload : jsval) :
  aeadCorrect rt sessionSecretKey ->
  length iv = 12%nat ->
  jsonRepresentable rt payload ->
  decryptSessionPayload rt sessionSecretKey
    (encryptSessionPayload rt sessionSecretKey iv payload)
  = Ret (if isObjectValue payload then payload else JNull).
Proof.
  intros Haead Hiv Hjson.
  unfold encryptSessionPayload.
  destruct (Haead iv (utf8_encode rt (JSON_stringify rt payload)) Hiv) as [Htag Hopen].
  rewrite (decrypt_sealed rt sessionSecretKey _ _ _ Hiv Htag).
  rewrite Hopen. cbn [mbind exn_bind].
  unfold jsonRepresentable in Hjson. rewrite Hjson.
  reflexivity.
Qed.

(** C5.  Sealing a session payload and opening the token under the same key
    gives the payload back: for every object that is JSON-representable, with
    the cipher correct under the key and a 12-byte nonce from
    [crypto.randomBytes], [decryptSessionPayload] of [encryptSessionPayload]
    returns a value equal to the input.  The payloads of the supported version
    are among these objects. *)
Theorem C5_seal_open_roundtrip
    (rt : Runtime) (sessionSecretKey iv : Buffer) (fields : list (string * jsval)) :
  aeadCorrect rt sessionSecretKey ->
  length iv = 12%nat ->
  jsonRepresentable rt (JObject fields) ->
  decryptSessionPayload rt sessionSecretKey
    (encryptSessionPayload rt sessionSecretKey iv (JObject fields))
  = Ret (JObject fields).
Proof.
  intros Haead Hiv Hjson.
  rewrite (seal_open_any rt sessionSecretKey iv (JObject fields) Haead Hiv Hjson).
  reflexivity.
Qed.

Lemma toy_aeadCorrect key : aeadCorrect Toy.rt key.
Proof. intros iv plaintext _. split; reflexivity. Qed.

Lemma C5_seal_open_roundtrip_witness :
  decryptSessionPayload Toy.rt Toy.key
    (encryptSessionPayload Toy.rt Toy.key Toy.iv
       (JObject [("ver", JNumber (Fin 1)); ("sub", JString "admin");
                 ("iat", JNumber (Fin 1000)); ("exp", JNumber (Fin 28801000))]))
  = Ret (JObject [("ver", JNumber (Fin 1)); ("sub", JString "admin");
                  ("iat", JNumber (Fin 1000)); ("exp", JNumber (Fin 28801000))]).
Proof.
  apply C5_seal_open_roundtrip.
  - apply toy_aeadCorrect.
  - reflexivity.
  - vm_compute. reflexivity.
Defined.

(** Every statement of [decryptSessionPayload] that can throw is inside its
    [try]: the function returns on every input. *)
Lemma decryptSessionPayload_returns (rt : Runtime) (sessionSecretKey : Buffer) (token : string) :
  returns (decryptSessionPayload rt sessionSecretKey token).
Proof.
  unfold decryptSessionPayload, returns.
  destruct (Js.isEmpty (Js.trim token)); [eauto|].
  destruct (Js.split "."%char (Js.trim token)) as [|part0 [|part1 [|part2 [|extra more]]]];
    eauto.
  destruct (negb (length (fromBase64Url part0) =? 12)%nat
            || negb (length (fromBase64Url part2) =? 16)%nat); cbn; [eauto|].
  destruct (aes256gcm_open rt sessionSecretKey _ _ _) as [plaintext|e]; cbn; [|eauto].
  destruct (JSON_parse rt (utf8_decode rt plaintext)) as [v|e]; cbn; eauto.
Qed.

(** C6 as stated fails on the code: a plaintext that parses to an array,
    which is not a JSON object, is let through.  The token that seals [[1]]
    opens to [[1]], not to [null]: the test is [typeof payload === 'object'],
    which an array passes. *)
Lemma C6_array_counterexample :
  ~ (forall (rt : Runtime) (sessionSecretKey : Buffer) (token part0 part1 part2 : string)
            (plaintext : Buffer) (v : jsval),
        Js.split "."%char (Js.trim token) = [part0; part1; part2] ->
        aes256gcm_open rt sessionSecretKey (fromBase64Url part0) (fromBase64Url part1)
          (fromBase64Url part2) = Ret plaintext ->
        JSON_parse rt (utf8_decode rt plaintext) = Ret v ->
        specObject v = false ->
        decryptSessionPayload rt sessionSecretKey token = Ret JNull).
Proof.
  intros H.
  specialize (H Toy.rt Toy.key
                (encryptSessionPayload Toy.rt Toy.key Toy.iv (JArray [JNumber (Fin 1)]))
                (toBase64Url Toy.iv)
                (toBase64Url (String.list_byte_of_string "[1]"))
                (toBase64Url Toy.zeroTag)
                (String.list_byte_of_string "[1]")
                (JArray [JNumber (Fin 1)])).
  vm_compute in H.
  specialize (H eq_refl eq_refl eq_refl eq_refl). discriminate H.
Qed.

(** C6, amended.  [decryptSessionPayload] fails closed.  Whatever the
    runtime's cipher and parser do, it returns for every input string and
    never throws; and it returns [null] when the trimmed token does not split
    into exactly three segments at the dots, when the decoded nonce is not 12
    bytes or the decoded tag is not 16 bytes, when authenticated decryption
    throws, when the plaintext does not parse, and when it parses to a value
    that is neither an object nor an array: [null], a boolean, a number or a
    string.  A plaintext that parses to an object or to an array is returned
    as parsed. *)
Theorem C6_open_fails_closed (rt : Runtime) (sessionSecretKey : Buffer) (token : string) :
  returns (decryptSessionPayload rt sessionSecretKey token)
  /\ (length (Js.split "."%char (Js.trim token)) <> 3%nat ->
      decryptSessionPayload rt sessionSecretKey token = Ret JNull)
  /\ (forall part0 part1 part2,
        Js.split "."%char (Js.trim token) = [part0; part1; part2] ->
        length (fromBase64Url part0) <> 12%nat
        \/ length (fromBase64Url part2) <> 16%nat
        \/ (exists e,
              aes256gcm_open rt sessionSecretKey (fromBase64Url part0)
                (fromBase64Url part1) (fromBase64Url part2) = Throw e)
        \/ (exists plaintext,
              aes256gcm_open rt sessionSecretKey (fromBase64Url part0)
                (fromBase64Url part1) (fromBase64Url part2) = Ret plaintext
              /\ ((exists e, JSON_parse rt (utf8_decode rt plaintext) = Throw e)
                  \/ (exists v, JSON_parse rt (utf8_decode rt plaintext) = Ret v
                                /\ isObjectValue v = false))) ->
        decryptSessionPayload rt sessionSecretKey token = Ret JNull)
  /\ (forall v,
        isObjectValue v = false <->
        match v with
        | JObject _ | JArray _ => False
        | _ => True
        end)
  /\ (forall part0 part1 part2 plaintext v,
        Js.split "."%char (Js.trim token) = [part0; part1; part2] ->
        length (fromBase64Url part0) = 12%nat ->
        length (fromBase64Url part2) = 16%nat ->
        aes256gcm_open rt sessionSecretKey (fromBase64Url part0)
          (fromBase64Url part1) (fromBase64Url part2) = Ret plaintext ->
        JSON_parse rt (utf8_decode rt plaintext) = Ret v ->
        isObjectValue v = true ->
        decryptSessionPayload rt sessionSecretKey token = Ret v).
Proof.
  split; [apply decryptSessionPayload_returns|].
  assert (Hshape : forall v,
             isObjectValue v = false <->
             match v with
             | JObject _ | JArray _ => False
             | _ => True
             end).
  { intros v. unfold isObjectValue.
    destruct v as [| |b|n|s|items|fields]; cbn [Val.truthy Val.typeofObject andb];
      rewrite ?andb_false_r; split; try (intros; exact I); try reflexivity;
      try discriminate; try contradiction. }
  assert (Hthrough : forall part0 part1 part2 plaintext v,
             Js.split "."%char (Js.trim token) = [part0; part1; part2] ->
             length (fromBase64Url part0) = 12%nat ->
             length (fromBase64Url part2) = 16%nat ->
             aes256gcm_open rt sessionSecretKey (fromBase64Url part0)
               (fromBase64Url part1) (fromBase64Url part2) = Ret plaintext ->
             JSON_parse rt (utf8_decode rt plaintext) = Ret v ->
             isObjectValue v = true ->
             decryptSessionPayload rt sessionSecretKey token = Ret v).
  { intros part0 part1 part2 plaintext v Hsplit H12 H16 Hopen Hparse Hobject.
    unfold decryptSessionPayload. rewrite Hsplit.
    destruct (Js.isEmpty (Js.trim token)) eqn:Hempty.
    { apply JsFacts.isEmpty_true in Hempty. rewrite Hempty in Hsplit. discriminate Hsplit. }
    rewrite H12, H16. cbn [Nat.eqb negb orb].
    rewrite Hopen. cbn [mbind exn_bind]. rewrite Hparse. cbn [mbind exn_bind].
    unfold isObjectValue in Hobject. rewrite Hobject. reflexivity. }
  cut ((length (Js.split "."%char (Js.trim token)) <> 3%nat ->
        decryptSessionPayload rt sessionSecretKey token = Ret JNull)
       /\ (forall part0 part1 part2,
             Js.split "."%char (Js.trim token) = [part0; part1; part2] ->
             length (fromBase64Url part0) <> 12%nat
             \/ length (fromBase64Url part2) <> 16%nat
             \/ (exists e,
                   aes256gcm_open rt sessionSecretKey (fromBase64Url part0)
                     (fromBase64Url part1) (fromBase64Url part2) = Throw e)
             \/ (exists plaintext,
                   aes256gcm_open rt sessionSecretKey (fromBase64Url part0)
                     (fromBase64Url part1) (fromBase64Url part2) = Ret plaintext
                   /\ ((exists e, JSON_parse rt (utf8_decode rt plaintext) = Throw e)
                       \/ (exists v, JSON_parse rt (utf8_decode rt plaintext) = Ret v
                                     /\ isObjectValue v = false))) ->
             decryptSessionPayload rt sessionSecretKey token = Ret JNull)).
  { intros [Hcount Hcases]. repeat split; try assumption; apply Hshape. }
  clear Hshape Hthrough.
  unfold decryptSessionPayload.
  destruct (Js.isEmpty (Js.trim token)) eqn:Hempty.
  { split; reflexivity. }
  destruct (Js.split "."%char (Js.trim token))
    as [|part0 [|part1 [|part2 [|extra more]]]] eqn:Hsplit.
  1,2,3,5: (split; [reflexivity|]; intros ? ? ? [=]).
  split.
  - intros Hlen. exfalso. apply Hlen. reflexivity.
  - intros p0 p1 p2 [= <- <- <-] Hcase.
    destruct (length (fromBase64Url part0) =? 12)%nat eqn:H12; cbn; [|reflexivity].
    destruct (length (fromBase64Url part2) =? 16)%nat eqn:H16; cbn; [|reflexivity].
    apply Nat.eqb_eq in H12, H16.
    destruct Hcase as [Hbad | [Hbad | [[e He] | (plaintext & Hopen & Hparse)]]];
      try contradiction.
    + rewrite He. reflexivity.
    + rewrite Hopen. cbn.
      destruct Hparse as [[e He] | (v & Hv & Hobj)].
      * rewrite He. reflexivity.
      * rewrite Hv. cbn. unfold isObjectValue in Hobj. rewrite Hobj. reflexivity.
Qed.

Lemma C6_open_fails_closed_witness :
  returns (decryptSessionPayload Toy.rt Toy.key "AAAA.BBBB")
  /\ decryptSessionPayload Toy.rt Toy.key "AAAA.BBBB" = Ret JNull
  /\ decryptSessionPayload Toy.rt Toy.key "AAAA.BBBB.CCCC" = Ret JNull
  /\ decryptSessionPayload Toy.rt Toy.key
       (encryptSessionPayload Toy.rt Toy.key Toy.iv (JArray [JNumber (Fin 1)]))
     = Ret (JArray [JNumber (Fin 1)]).
Proof.
  split; [|split; [|split]].
  - apply (C6_open_fails_closed Toy.rt Toy.key "AAAA.BBBB").
  - apply (C6_open_fails_closed Toy.rt Toy.key "AAAA.BBBB"). vm_compute. lia.
  - apply (proj1 (proj2 (proj2 (C6_open_fails_closed Toy.rt Toy.key "AAAA.BBBB.CCCC")))
             "AAAA" "BBBB" "CCCC"); [reflexivity|].
    left. vm_compute. lia.
  - apply (proj2 (proj2 (proj2 (proj2
             (C6_open_fails_closed Toy.rt Toy.key
                (encryptSessionPayload Toy.rt Toy.key Toy.iv (JArray [JNumber (Fin 1)]))))))
             (toBase64Url Toy.iv)
             (toBase64Url (String.list_byte_of_string "[1]"))
             (toBase64Url Toy.zeroTag)
             (String.list_byte_of_string "[1]"));
      vm_compute; reflexivity.
Defined.

(** ** Cookie sessions *)

Section SessionResolution.

Variable rt : Runtime.
Variable sessionSecretKey : Buffer.

Lemma decrypt_empty token :
  Js.isEmpty token = true -> decryptSessionPayload rt sessionSecretKey token = Ret JNull.
Proof.
  intros H. apply JsFacts.isEmpty_true in H. subst token. reflexivity.
Qed.

(** [resolveSessionUser] on a request whose session cookie opens to a
    payload of the current version, with a text subject and a finite integer
    expiry: what is left is the clock and the [Users] table. *)
Lemma resolveSessionUser_opened db now req token payload subject expiry :
  getSessionTokenFromRequest rt req = Ret token ->
  decryptSessionPayload rt sessionSecretKey token = Ret payload ->
  Val.get payload "ver" = JNumber (Fin SESSION_TOKEN_VERSION) ->
  Val.get payload "sub" = JString subject ->
  Val.get payload "exp" = JNumber (Fin expiry) ->
  resolveSessionUser rt sessionSecretKey db now req
  = Ret (if Js.isEmpty (Js.trim subject) || (expiry <=? now) then None
         else match selectUser db (Js.trim subject) with
              | None => None
              | Some r =>
                  if Users.Enabled r =? 0 then None
                  else Some {| username := Users.UserName r;
                               role := if Users.IsAdmin r =? 0 then user else admin |}
              end).
Proof.
  intros Htoken Hopen Hver Hsub Hexp.
  unfold resolveSessionUser. rewrite Htoken. cbn [mbind exn_bind].
  destruct (Js.isEmpty token) eqn:Hempty.
  { rewrite (decrypt_empty _ Hempty) in Hopen. injection Hopen as <-.
    discriminate Hver. }
  rewrite Hopen. cbn [mbind exn_bind].
  rewrite Hver, Hsub, Hexp.
  cbn [trimmedText Val.nullish ToString ToNumber mbind exn_bind].
  cbn [Val.strictNeZ Val.isFinite Val.leZ negb orb].
  rewrite Z.eqb_refl. cbn [negb orb].
  destruct (Js.isEmpty (Js.trim subject)); cbn [orb]; [reflexivity|].
  destruct (expiry <=? now); [reflexivity|].
  destruct (selectUser db (Js.trim subject)) as [r|]; [|reflexivity].
  unfold toBool, sqlInt, buildSessionUser, Val.truthy.
  destruct (Users.Enabled r =? 0); cbn [negb]; [reflexivity|].
  unfold mret, exn_ret, toBool, sqlInt, Val.truthy.
  destruct (Users.IsAdmin r =? 0); reflexivity.
Qed.

End SessionResolution.

(** [resolveApiKeyUser] in terms of the presented key and the matching row. *)
Lemma resolveApiKeyUser_unfold (rt : Runtime) (db : Database) (clock : DateTime) (req : Request) :
  resolveApiKeyUser rt db clock req
  = if Js.isEmpty (bearerKey req) then None
    else match selectApiKey db (hashApiKey rt (bearerKey req)) with
         | None => None
         | Some row =>
             if ApiKeys.Enabled row =? 0 then None
             else if nonEmpty (Js.trim (default "" (ApiKeys.ExpiresAt row)))
                     && Js.leb (Js.trim (default "" (ApiKeys.ExpiresAt row))) (asIsoNow clock)
             then None
             else Some {| username := "apikey:" ++ ApiKeys.KeyName row; role := user |}
         end.
Proof.
  unfold resolveApiKeyUser, bearerKey.
  destruct (Js.isEmpty _); [reflexivity|].
  destruct (selectApiKey db _) as [row|]; [|reflexivity].
  unfold toBool, sqlInt, Val.truthy.
  destruct (ApiKeys.Enabled row =? 0); reflexivity.
Qed.

(** C1.  A request whose session cookie opens under the process key
    (cryptographically valid) to a version-1 payload that has not expired, and
    whose subject names an account: when the account is enabled, resolution
    yields a Principal with the account's user name whose role is [admin]
    exactly when [IsAdmin] is set and [user] otherwise, and the credential
    middleware yields the same Principal; when the account is disabled, or no
    such account exists, resolution of the cookie yields no Principal, and
    neither does the middleware for a request that presents no bearer key.
    The subject names an account through its trimmed text, as the lookup
    reads it. *)
Theorem C1_session_resolution
    (rt : Runtime) (sessionSecretKey : Buffer) (db : Database) (now : Z) (clock : DateTime)
    (req : Request) (token : string) (payload : jsval) (subject : string) (expiry : Z) :
  getSessionTokenFromRequest rt req = Ret token ->
  decryptSessionPayload rt sessionSecretKey token = Ret payload ->
  Val.get payload "ver" = JNumber (Fin 1) ->
  Val.get payload "sub" = JString subject ->
  Js.isEmpty (Js.trim subject) = false ->
  Val.get payload "exp" = JNumber (Fin expiry) ->
  now < expiry ->
  (forall row,
      selectUser db (Js.trim subject) = Some row ->
      Users.Enabled row <> 0 ->
      exists p,
        resolveSessionUser rt sessionSecretKey db now req = Ret (Some p)
        /\ authUserMiddleware rt sessionSecretKey db now clock req = Ret (Some p)
        /\ username p = Users.UserName row
        /\ (role p = admin <-> Users.IsAdmin row <> 0)
        /\ (role p = user <-> Users.IsAdmin row = 0))
  /\ ((selectUser db (Js.trim subject) = None
       \/ exists row, selectUser db (Js.trim subject) = Some row /\ Users.Enabled row = 0) ->
      resolveSessionUser rt sessionSecretKey db now req = Ret None
      /\ (Js.isEmpty (bearerKey req) = true ->
          authUserMiddleware rt sessionSecretKey db now clock req = Ret None)).
Proof.
  intros Htoken Hopen Hver Hsub Hname Hexp Hfresh.
  unfold authUserMiddleware.
  rewrite (resolveSessionUser_opened rt sessionSecretKey db now req token payload
             subject expiry Htoken Hopen Hver Hsub Hexp).
  rewrite Hname. cbn [orb].
  destruct (Z.leb_spec expiry now) as [Hle|_]; [lia|].
  split.
  - intros row Hrow Henabled. rewrite Hrow.
    destruct (Z.eqb_spec (Users.Enabled row) 0) as [E|_]; [contradiction|].
    eexists. split; [reflexivity|]. split; [reflexivity|].
    cbn [username role].
    split; [reflexivity|].
    destruct (Z.eqb_spec (Users.IsAdmin row) 0) as [E|E];
      (split; split; intros H; try reflexivity; try congruence).
  - intros Hgone.
    assert (Hnone : match selectUser db (Js.trim subject) with
                    | Some r =>
                        if Users.Enabled r =? 0 then None
                        else Some {| username := Users.UserName r;
                                     role := if Users.IsAdmin r =? 0 then user else admin |}
                    | None => None
                    end = None).
    { destruct Hgone as [-> | (row & -> & ->)]; reflexivity. }
    rewrite Hnone. split; [reflexivity|].
    intros Hnokey. cbn [mbind exn_bind mret exn_ret].
    rewrite resolveApiKeyUser_unfold, Hnokey. reflexivity.
Qed.

Lemma C1_session_resolution_witness :
  exists p,
    resolveSessionUser Toy.rt Toy.key Toy.db 2000
      (Toy.request "GET" "/api/admin/users" [("cookie", "yokins_session=" ++ toyToken)])
    = Ret (Some p)
    /\ username p = "admin" /\ role p = admin.
Proof.
  destruct (C1_session_resolution Toy.rt Toy.key Toy.db 2000
              {| year := 2026; month := 11; day := 1; hours := 9; minutes := 5;
                 seconds := 3; milliseconds := 0 |}
              (Toy.request "GET" "/api/admin/users" [("cookie", "yokins_session=" ++ toyToken)])
              toyToken
              (JObject [("ver", JNumber (Fin 1)); ("sub", JString "admin");
                        ("iat", JNumber (Fin 1000)); ("exp", JNumber (Fin 28801000))])
              "admin" 28801000
              ltac:(vm_compute; reflexivity) ltac:(vm_compute; reflexivity)
              ltac:(reflexivity) ltac:(reflexivity) ltac:(reflexivity) ltac:(reflexivity)
              ltac:(lia)) as [Henabled _].
  destruct (Henabled
              {| Users.UserName := "admin"; Users.PasswordSalt := "s1";
                 Users.PasswordHash := Some "h1"; Users.Enabled := 1; Users.IsAdmin := 1 |}
              ltac:(reflexivity) ltac:(cbn; lia)) as (p & Hp & _ & Hname & Hrole & _).
  exists p. split; [exact Hp|]. split; [exact Hname|].
  apply Hrole. cbn. lia.
Defined.

(** ** Session lifetime *)

Section Lifetime.

Variable rt : Runtime.
Variable sessionSecretKey : Buffer.

(** A successful login sets the session cookie to a fresh token for the
    account's user name, persistent only when [rememberMe] was asked. *)
Lemma authLogin_cookie https db now iv req :
  status (respond (authLogin rt sessionSecretKey https db now iv req)) = 200 ->
  exists userName row,
    bodyText rt req "username" = Ret userName
    /\ selectUser db userName = Some row
    /\ cookie (respond (authLogin rt sessionSecretKey https db now iv req))
       = setSessionCookie https
           (createSessionToken rt sessionSecretKey now iv (Users.UserName row)
              (toBool (Val.get (body req) "rememberMe")))
           (toBool (Val.get (body req) "rememberMe")).
Proof.
  unfold authLogin.
  destruct (bodyText rt req "username") as [userName|]; cbn [mbind exn_bind respond];
    [|discriminate].
  destruct (bodyText rt req "password") as [password|]; cbn [mbind exn_bind respond];
    [|discriminate].
  destruct (Js.isEmpty userName || Js.isEmpty password); [discriminate|].
  destruct (selectUser db userName) as [row|] eqn:Hrow; [|discriminate].
  destruct (negb (toBool (sqlInt (Users.Enabled row)))); [discriminate|].
  destruct (Users.PasswordHash row) as [stored|]; [|discriminate].
  destruct (String.eqb _ stored); [|discriminate].
  intros _. exists userName, row. repeat split. exact Hrow.
Qed.

End Lifetime.

(** C10.  The token created at login carries an absolute expiry: issuance
    time plus 30 days (2,592,000,000 ms) when [rememberMe] is true, plus 8
    hours (28,800,000 ms) otherwise; a successful login sets exactly that token
    as the session cookie, with [maxAge] 2,592,000,000 when [rememberMe] is true
    and no [maxAge] otherwise.  Resolution of a request carrying the token
    yields no Principal once the clock has reached the expiry, also for the
    cookie without [maxAge], and yields the enabled account's Principal
    before. *)
Theorem C10_session_expiry
    (rt : Runtime) (sessionSecretKey iv : Buffer) (https : bool) (db : Database)
    (issuedAt : Z) (userName : string) (rememberMe : bool) :
  let ttl := if rememberMe then 2592000000 else 28800000 in
  let token := createSessionToken rt sessionSecretKey issuedAt iv userName rememberMe in
  aeadCorrect rt sessionSecretKey ->
  length iv = 12%nat ->
  jsonRepresentable rt (sessionPayload issuedAt userName rememberMe) ->
  decryptSessionPayload rt sessionSecretKey token
    = Ret (JObject [("ver", JNumber (Fin 1)); ("sub", JString userName);
                    ("iat", JNumber (Fin issuedAt)); ("exp", JNumber (Fin (issuedAt + ttl)))])
  /\ (forall req,
        status (respond (authLogin rt sessionSecretKey https db issuedAt iv req)) = 200 ->
        exists name row,
          bodyText rt req "username" = Ret name
          /\ selectUser db name = Some row
          /\ cookie (respond (authLogin rt sessionSecretKey https db issuedAt iv req))
             = SetCookie SESSION_COOKIE_NAME
                 (createSessionToken rt sessionSecretKey issuedAt iv (Users.UserName row)
                    (toBool (Val.get (body req) "rememberMe")))
                 {| cookiePath := "/"; httpOnly := true; sameSite := "lax"; secure := https;
                    maxAge := if toBool (Val.get (body req) "rememberMe")
                              then Some 2592000000 else None |})
  /\ (forall now req,
        getSessionTokenFromRequest rt req = Ret token ->
        (issuedAt + ttl <= now ->
         resolveSessionUser rt sessionSecretKey db now req = Ret None)
        /\ (now < issuedAt + ttl ->
            forall row,
              Js.isEmpty (Js.trim userName) = false ->
              selectUser db (Js.trim userName) = Some row ->
              Users.Enabled row <> 0 ->
              resolveSessionUser rt sessionSecretKey db now req
              = Ret (Some {| username := Users.UserName row;
                             role := if Users.IsAdmin row =? 0 then user else admin |}))).
Proof.
  intros ttl token Haead Hiv Hjson.
  assert (Hopen : decryptSessionPayload rt sessionSecretKey token
                  = Ret (sessionPayload issuedAt userName rememberMe)).
  { apply seal_open_any; assumption. }
  assert (Hpayload : sessionPayload issuedAt userName rememberMe
                     = JObject [("ver", JNumber (Fin 1)); ("sub", JString userName);
                                ("iat", JNumber (Fin issuedAt));
                                ("exp", JNumber (Fin (issuedAt + ttl)))]).
  { unfold sessionPayload, ttl. destruct rememberMe; reflexivity. }
  split; [rewrite Hopen, Hpayload; reflexivity|].
  split.
  { intros req Hok. apply authLogin_cookie in Hok as (name & row & Hname & Hrow & Hcookie).
    exists name, row. split; [exact Hname|]. split; [exact Hrow|].
    rewrite Hcookie. reflexivity. }
  intros now req Htoken.
  rewrite Hpayload in Hopen.
  rewrite (resolveSessionUser_opened rt sessionSecretKey db now req token _ userName
             (issuedAt + ttl) Htoken Hopen eq_refl eq_refl eq_refl).
  split.
  - intros Hexpired.
    destruct (Z.leb_spec (issuedAt + ttl) now) as [_|Hlt]; [|lia].
    rewrite orb_true_r. reflexivity.
  - intros Hfresh row Hname Hrow Henabled.
    rewrite Hname, Hrow. cbn [orb].
    destruct (Z.leb_spec (issuedAt + ttl) now) as [Hle|_]; [lia|].
    destruct (Z.eqb_spec (Users.Enabled row) 0) as [E|_]; [contradiction|].
    reflexivity.
Qed.

Lemma toy_sessionPayload_representable :
  jsonRepresentable Toy.rt (sessionPayload 1000 "tanaka" false).
Proof. vm_compute. reflexivity. Qed.

Lemma C10_session_expiry_witness :
  resolveSessionUser Toy.rt Toy.key Toy.db (1000 + 28800000)
    (Toy.request "GET" "/api/documents"
       [("cookie", "yokins_session="
                     ++ createSessionToken Toy.rt Toy.key 1000 Toy.iv "tanaka" false)])
  = Ret None
  /\ resolveSessionUser Toy.rt Toy.key Toy.db (1000 + 28799999)
       (Toy.request "GET" "/api/documents"
          [("cookie", "yokins_session="
                        ++ createSessionToken Toy.rt Toy.key 1000 Toy.iv "tanaka" false)])
     = Ret (Some {| username := "tanaka"; role := user |}).
Proof.
  pose proof (C10_session_expiry Toy.rt Toy.key Toy.iv false Toy.db 1000 "tanaka" false
                (toy_aeadCorrect Toy.key) eq_refl toy_sessionPayload_representable)
    as (_ & _ & Hresolve).
  split.
  - apply (Hresolve (1000 + 28800000)
             (Toy.request "GET" "/api/documents"
                [("cookie", "yokins_session="
                              ++ createSessionToken Toy.rt Toy.key 1000 Toy.iv "tanaka" false)])).
    + vm_compute. reflexivity.
    + apply Z.leb_le. reflexivity.
  - apply (proj2 (Hresolve (1000 + 28799999)
             (Toy.request "GET" "/api/documents"
                [("cookie", "yokins_session="
                              ++ createSessionToken Toy.rt Toy.key 1000 Toy.iv "tanaka" false)])
             ltac:(vm_compute; reflexivity))
             ltac:(apply Z.ltb_lt; reflexivity)
           {| Users.UserName := "tanaka"; Users.PasswordSalt := "s2";
              Users.PasswordHash := Some "h2"; Users.Enabled := 1; Users.IsAdmin := 0 |}).
    + reflexivity.
    + reflexivity.
    + cbn. lia.
Defined.

(** ** Invalid credentials *)

Section Invalid.

Variable rt : Runtime.
Variable sessionSecretKey : Buffer.

Lemma decrypt_returns token : returns (decryptSessionPayload rt sessionSecretKey token).
Proof. apply decryptSessionPayload_returns. Qed.

(** Past the cookie parser the resolver throws only where a conversion of
    the opened payload does: [String(payload.sub)] or [Number(payload.exp)],
    on a subject or an expiry that is an object with a [toString] of its
    own. *)
Lemma authUserMiddleware_returns db now clock req :
  returns (parseCookies rt (headers req !! "cookie")) ->
  (forall token payload,
      getSessionTokenFromRequest rt req = Ret token ->
      decryptSessionPayload rt sessionSecretKey token = Ret payload ->
      returns (trimmedText rt (Val.get payload "sub"))
      /\ returns (ToNumber rt (Val.get payload "exp"))) ->
  returns (authUserMiddleware rt sessionSecretKey db now clock req).
Proof.
  intros [cookies Hcookies] Hconvert.
  unfold authUserMiddleware, resolveSessionUser.
  unfold getSessionTokenFromRequest in *.
  rewrite Hcookies in *. cbn [mbind exn_bind mret exn_ret] in *.
  destruct (Js.isEmpty _); cbn [mbind exn_bind mret exn_ret].
  { eexists; reflexivity. }
  destruct (decrypt_returns (Js.trim (default "" (cookies !! SESSION_COOKIE_NAME))))
    as [payload Hopen].
  destruct (Hconvert _ payload eq_refl Hopen) as [[subject Hsub] [expiry Hexp]].
  rewrite Hopen. cbn [mbind exn_bind mret exn_ret].
  rewrite Hsub, Hexp. cbn [mbind exn_bind mret exn_ret].
  destruct (_ || _); cbn [mbind exn_bind mret exn_ret]; [eexists; reflexivity|].
  destruct (selectUser db _) as [r|]; cbn [mbind exn_bind mret exn_ret];
    [|eexists; reflexivity].
  destruct (negb _); cbn [mbind exn_bind mret exn_ret]; eexists; reflexivity.
Qed.

End Invalid.

(** C7 fails on the code.  A [Cookie] header with a malformed percent
    escape, for which [decodeURIComponent] throws [URIError], makes
    [parseCookies] throw: the credential middleware throws instead of
    resolving to no Principal, and the caller is answered by the error
    handler (500, "internal server error"), not as an unauthenticated caller
    (401, "authentication required") as the same request without the cookie
    is. *)
Theorem C7_malformed_cookie_throws
    (rt : Runtime) (sessionSecretKey : Buffer) (db : Database) (now : Z) (clock : DateTime)
    (req : Request) :
  decodeURIComponent rt "%" = Throw URIError ->
  headers req !! "cookie" = Some "yokins_session=%" ->
  authUserMiddleware rt sessionSecretKey db now clock req = Throw URIError
  /\ serve rt sessionSecretKey db now clock req
     = ([], Rejected (reply 500 (errorBody "internal server error"))).
Proof.
  intros Hdecode Hcookie.
  assert (Hthrow : authUserMiddleware rt sessionSecretKey db now clock req = Throw URIError).
  { unfold authUserMiddleware, resolveSessionUser, getSessionTokenFromRequest, parseCookies.
    rewrite Hcookie.
    change (Js.trim (default "" (Some "yokins_session=%"))) with "yokins_session=%".
    change (Js.isEmpty "yokins_session=%") with false. cbv iota.
    change (Js.split ";"%char "yokins_session=%") with ["yokins_session=%"].
    cbn [parseCookiePairs].
    change (Js.split "="%char "yokins_session=%") with ["yokins_session"; "%"].
    cbv iota.
    change (Js.trim "yokins_session") with "yokins_session".
    change (Js.isEmpty "yokins_session") with false. cbv iota.
    change (Js.trim (Js.join "=" ["%"])) with "%".
    rewrite Hdecode. reflexivity. }
  split; [exact Hthrow|].
  unfold serve. rewrite Hthrow. reflexivity.
Qed.

Lemma C7_malformed_cookie_throws_witness :
  serve Toy.rt Toy.key Toy.db 2000
    {| year := 2026; month := 11; day := 1; hours := 9; minutes := 5;
       seconds := 3; milliseconds := 0 |}
    (Toy.request "GET" "/api/documents" [("cookie", "yokins_session=%")])
  = ([], Rejected (reply 500 (errorBody "internal server error")))
  /\ serve Toy.rt Toy.key Toy.db 2000
       {| year := 2026; month := 11; day := 1; hours := 9; minutes := 5;
          seconds := 3; milliseconds := 0 |}
       (Toy.request "GET" "/api/documents" [])
     = ([Gate "api"], Rejected (reply 401 (errorBody "authentication required"))).
Proof.
  split.
  - apply (C7_malformed_cookie_throws Toy.rt Toy.key Toy.db 2000 _
             (Toy.request "GET" "/api/documents" [("cookie", "yokins_session=%")])).
    + reflexivity.
    + vm_compute. reflexivity.
  - vm_compute. reflexivity.
Defined.

(** ** ISO timestamps and their order as strings *)

Module IsoFacts.

Import JsFacts.

Lemma app_cons c s u : String c s ++ u = String c (s ++ u).
Proof. reflexivity. Qed.

Lemma app_nil_l u : EmptyString ++ u = u.
Proof. reflexivity. Qed.

Lemma app_nil_r s : s ++ EmptyString = s.
Proof. induction s as [|c s IH]; [reflexivity|]. rewrite app_cons, IH. reflexivity. Qed.

Lemma app_assoc a b c : (a ++ b) ++ c = a ++ (b ++ c).
Proof. induction a as [|x a IH]; [reflexivity|]. rewrite !app_cons, IH. reflexivity. Qed.

Lemma ltb_compare a b :
  Js.ltb a b = match Js.compare a b with Lt => true | _ => false end.
Proof.
  revert b. induction a as [|x a IH]; intros [|y b]; cbn [Js.ltb Js.compare]; try reflexivity.
  rewrite IH.
  destruct (N.compare_spec (Js.code x) (Js.code y)) as [E|L|G].
  - rewrite E, N.ltb_irrefl, N.eqb_refl. reflexivity.
  - apply N.ltb_lt in L. rewrite L. reflexivity.
  - assert ((Js.code x <? Js.code y)%N = false) as -> by (apply N.ltb_ge; lia).
    assert ((Js.code x =? Js.code y)%N = false) as -> by (apply N.eqb_neq; lia).
    reflexivity.
Qed.

Lemma compare_antisym a b : Js.compare b a = CompOpp (Js.compare a b).
Proof.
  revert b. induction a as [|x a IH]; intros [|y b]; cbn [Js.compare]; try reflexivity.
  rewrite (N.compare_antisym (Js.code x) (Js.code y)).
  destruct (N.compare (Js.code x) (Js.code y)); cbn [CompOpp]; [apply IH | reflexivity ..].
Qed.

Lemma leb_compare a b :
  Js.leb a b = match Js.compare a b with Gt => false | _ => true end.
Proof.
  unfold Js.leb. rewrite ltb_compare, compare_antisym.
  destruct (Js.compare a b); reflexivity.
Qed.

Lemma compare_same_head c u v :
  Js.compare (String c u) (String c v) = Js.compare u v.
Proof. cbn [Js.compare]. rewrite N.compare_refl. reflexivity. Qed.

Lemma add_compare_mono_l (p n m : N) : N.compare (p + n) (p + m) = N.compare n m.
Proof.
  destruct (N.compare_spec n m) as [E|L|G].
  - subst m. apply N.compare_refl.
  - apply N.compare_lt_iff. lia.
  - apply N.compare_gt_iff. lia.
Qed.

(** Two numbers written as a high part and a low part below [base] compare
    as the pairs do. *)
Lemma lex_compare (base h1 l1 h2 l2 : N) :
  (l1 < base)%N -> (l2 < base)%N ->
  N.compare (h1 * base + l1) (h2 * base + l2)
  = match N.compare h1 h2 with
    | Eq => N.compare l1 l2
    | c => c
    end.
Proof.
  intros H1 H2.
  destruct (N.compare_spec h1 h2) as [E|L|G].
  - subst h2. apply add_compare_mono_l.
  - apply N.compare_lt_iff. nia.
  - apply N.compare_gt_iff. nia.
Qed.

Lemma code_digit n : Js.code (Iso.digit n) = (48 + n mod 10)%N.
Proof.
  unfold Js.code, Iso.digit. apply N_ascii_embedding.
  assert (n mod 10 < 10)%N by (apply N.mod_lt; lia). lia.
Qed.

Lemma compare_digit a b u v :
  Js.compare (String (Iso.digit a) u) (String (Iso.digit b) v)
  = match N.compare (a mod 10) (b mod 10) with
    | Eq => Js.compare u v
    | c => c
    end.
Proof.
  cbn [Js.compare]. rewrite !code_digit, add_compare_mono_l. reflexivity.
Qed.

Ltac euclid := zify; Z.to_euclidean_division_equations; lia.

Lemma compare_pad2 a b u v :
  Js.compare (Iso.pad2 a ++ u) (Iso.pad2 b ++ v)
  = match N.compare (a mod 100) (b mod 100) with
    | Eq => Js.compare u v
    | c => c
    end.
Proof.
  unfold Iso.pad2. rewrite !app_cons, !app_nil_l, !compare_digit.
  assert (Ha : (a mod 100 = (a / 10) mod 10 * 10 + a mod 10)%N) by euclid.
  assert (Hb : (b mod 100 = (b / 10) mod 10 * 10 + b mod 10)%N) by euclid.
  rewrite Ha, Hb, lex_compare by (apply N.mod_lt; lia).
  destruct (N.compare ((a / 10) mod 10) ((b / 10) mod 10)); reflexivity.
Qed.

Lemma compare_pad3 a b u v :
  Js.compare (Iso.pad3 a ++ u) (Iso.pad3 b ++ v)
  = match N.compare (a mod 1000) (b mod 1000) with
    | Eq => Js.compare u v
    | c => c
    end.
Proof.
  unfold Iso.pad3. rewrite !app_cons, compare_digit, compare_pad2.
  assert (Ha : (a mod 1000 = (a / 100) mod 10 * 100 + a mod 100)%N) by euclid.
  assert (Hb : (b mod 1000 = (b / 100) mod 10 * 100 + b mod 100)%N) by euclid.
  rewrite Ha, Hb, lex_compare by (apply N.mod_lt; lia).
  destruct (N.compare ((a / 100) mod 10) ((b / 100) mod 10)); reflexivity.
Qed.

Lemma compare_pad4 a b u v :
  Js.compare (Iso.pad4 a ++ u) (Iso.pad4 b ++ v)
  = match N.compare (a mod 10000) (b mod 10000) with
    | Eq => Js.compare u v
    | c => c
    end.
Proof.
  unfold Iso.pad4. rewrite !app_cons, compare_digit, compare_pad3.
  assert (Ha : (a mod 10000 = (a / 1000) mod 10 * 1000 + a mod 1000)%N) by euclid.
  assert (Hb : (b mod 10000 = (b / 1000) mod 10 * 1000 + b mod 1000)%N) by euclid.
  rewrite Ha, Hb, lex_compare by (apply N.mod_lt; lia).
  destruct (N.compare ((a / 1000) mod 10) ((b / 1000) mod 10)); reflexivity.
Qed.

Lemma toSeconds_app d u :
  Iso.toSeconds d ++ u
  = Iso.pad4 (year d) ++ String "-"%char
      (Iso.pad2 (month d) ++ String "-"%char
         (Iso.pad2 (day d) ++ String "T"%char
            (Iso.pad2 (hours d) ++ String ":"%char
               (Iso.pad2 (minutes d) ++ String ":"%char
                  (Iso.pad2 (seconds d) ++ u))))).
Proof.
  unfold Iso.toSeconds. rewrite !app_assoc, !app_cons, !app_nil_l. reflexivity.
Qed.

(** Two well-formed instants compare, as text to the second followed by
    anything, the way their keys compare. *)
Lemma compare_toSeconds a b u v :
  Iso.wellFormed a -> Iso.wellFormed b ->
  Js.compare (Iso.toSeconds a ++ u) (Iso.toSeconds b ++ v)
  = match N.compare (Iso.secondsKey a) (Iso.secondsKey b) with
    | Eq => Js.compare u v
    | c => c
    end.
Proof.
  intros (Ya & Ma & Da & Ha & Ia & Sa & _) (Yb & Mb & Db & Hb & Ib & Sb & _).
  rewrite !toSeconds_app.
  rewrite compare_pad4, compare_same_head, compare_pad2, compare_same_head,
    compare_pad2, compare_same_head, compare_pad2, compare_same_head,
    compare_pad2, compare_same_head, compare_pad2.
  rewrite !N.mod_small by assumption.
  unfold Iso.secondsKey.
  rewrite !lex_compare by assumption.
  destruct (N.compare (year a) (year b)); [|reflexivity ..].
  destruct (N.compare (month a) (month b)); [|reflexivity ..].
  destruct (N.compare (day a) (day b)); [|reflexivity ..].
  destruct (N.compare (hours a) (hours b)); [|reflexivity ..].
  destruct (N.compare (minutes a) (minutes b)); reflexivity.
Qed.

Lemma digit_plain n : Ascii.eqb "."%char (Iso.digit n) = false.
Proof.
  apply Ascii.eqb_neq. intros E.
  apply (f_equal Js.code) in E. rewrite code_digit in E.
  change (Js.code "."%char) with 46%N in E.
  generalize dependent (n mod 10)%N. intros k E. lia.
Qed.

Lemma digit_zero n : Ascii.eqb "0"%char (Iso.digit n) = (n mod 10 =? 0)%N.
Proof.
  destruct (N.eqb_spec (n mod 10) 0) as [E|E].
  - unfold Iso.digit. rewrite E. reflexivity.
  - apply Ascii.eqb_neq. intros E'.
    apply (f_equal Js.code) in E'. rewrite code_digit in E'.
    change (Js.code "0"%char) with 48%N in E'.
    generalize dependent (n mod 10)%N. intros k E E'. lia.
Qed.

(** Scanning for [".000Z"] passes over a character that is not a dot. *)
Lemma replaceFirst_pass c s :
  Ascii.eqb "."%char c = false ->
  Js.replaceFirst ".000Z" "" (String c s) = String c (Js.replaceFirst ".000Z" "" s).
Proof.
  intros H. cbn [Js.replaceFirst Js.startsWith]. rewrite H. reflexivity.
Qed.

Lemma replaceFirst_pad2 n s :
  Js.replaceFirst ".000Z" "" (Iso.pad2 n ++ s)
  = Iso.pad2 n ++ Js.replaceFirst ".000Z" "" s.
Proof.
  unfold Iso.pad2. rewrite !app_cons, !app_nil_l.
  rewrite !replaceFirst_pass by apply digit_plain. reflexivity.
Qed.

Lemma replaceFirst_toSeconds d s :
  Js.replaceFirst ".000Z" "" (Iso.toSeconds d ++ s)
  = Iso.toSeconds d ++ Js.replaceFirst ".000Z" "" s.
Proof.
  rewrite !toSeconds_app.
  unfold Iso.pad4, Iso.pad3. rewrite !app_cons.
  rewrite !replaceFirst_pass by apply digit_plain.
  repeat (rewrite replaceFirst_pad2; rewrite replaceFirst_pass by reflexivity).
  rewrite replaceFirst_pad2. reflexivity.
Qed.

(** [asIsoNow] drops the fraction and the zone letter exactly on a whole
    second. *)
Lemma asIsoNow_cases d :
  asIsoNow d
  = Iso.toSeconds d
      ++ (if (milliseconds d mod 1000 =? 0)%N then EmptyString
          else "." ++ Iso.pad3 (milliseconds d) ++ "Z").
Proof.
  unfold asIsoNow, Iso.toISOString.
  rewrite replaceFirst_toSeconds. f_equal.
  unfold Iso.pad3, Iso.pad2. rewrite !app_cons, !app_nil_l.
  cbn [Js.replaceFirst Js.startsWith].
  rewrite !digit_zero, !digit_plain.
  change (Ascii.eqb "."%char "."%char) with true.
  change (Ascii.eqb "Z"%char "Z"%char) with true.
  change (Ascii.eqb "."%char "Z"%char) with false.
  cbn [andb].
  set (ms := milliseconds d).
  destruct (N.eqb_spec (ms mod 1000) 0) as [E|E].
  - assert (((ms / 100) mod 10 =? 0)%N = true) as -> by (apply N.eqb_eq; euclid).
    assert (((ms / 10) mod 10 =? 0)%N = true) as -> by (apply N.eqb_eq; euclid).
    assert ((ms mod 10 =? 0)%N = true) as -> by (apply N.eqb_eq; euclid).
    reflexivity.
  - destruct (N.eqb_spec ((ms / 100) mod 10) 0) as [E2|E2]; [|reflexivity].
    destruct (N.eqb_spec ((ms / 10) mod 10) 0) as [E1|E1]; [|reflexivity].
    destruct (N.eqb_spec (ms mod 10) 0) as [E0|E0]; [|reflexivity].
    exfalso. apply E. euclid.
Qed.

Lemma suffix_compare (a b : N) :
  (a < 1000)%N -> (b < 1000)%N ->
  Js.compare
    (if (a mod 1000 =? 0)%N then EmptyString else "." ++ Iso.pad3 a ++ "Z")
    (if (b mod 1000 =? 0)%N then EmptyString else "." ++ Iso.pad3 b ++ "Z")
  = N.compare a b.
Proof.
  intros Ha Hb. rewrite !N.mod_small by assumption.
  destruct (N.eqb_spec a 0) as [->|Hna], (N.eqb_spec b 0) as [->|Hnb].
  - reflexivity.
  - rewrite JsFacts.app_one.
    symmetry. apply N.compare_lt_iff. lia.
  - rewrite JsFacts.app_one.
    symmetry. apply N.compare_gt_iff. lia.
  - rewrite !JsFacts.app_one, compare_same_head, compare_pad3.
    rewrite !N.mod_small by assumption.
    destruct (N.compare a b); reflexivity.
Qed.

(** Two timestamps in the format of [asIsoNow] are ordered as strings the way
    their instants are ordered in time. *)
Lemma asIsoNow_order (expiry clock : DateTime) :
  Iso.wellFormed expiry -> Iso.wellFormed clock ->
  Js.leb (asIsoNow expiry) (asIsoNow clock)
  = (Iso.instantKey expiry <=? Iso.instantKey clock)%N.
Proof.
  intros He Hc.
  rewrite leb_compare, !asIsoNow_cases, (compare_toSeconds _ _ _ _ He Hc).
  destruct He as (_ & _ & _ & _ & _ & _ & Hme), Hc as (_ & _ & _ & _ & _ & _ & Hmc).
  rewrite (suffix_compare _ _ Hme Hmc).
  unfold Iso.instantKey, N.leb.
  rewrite (lex_compare 1000 _ _ _ _ Hme Hmc).
  destruct (N.compare (Iso.secondsKey expiry) (Iso.secondsKey clock)); reflexivity.
Qed.

Lemma digit_nowhite n : negb (Js.isWhiteSpace (Iso.digit n)) = true.
Proof.
  unfold Js.isWhiteSpace. rewrite code_digit.
  assert (Hk : (n mod 10 < 10)%N) by (apply N.mod_lt; lia).
  generalize dependent (n mod 10)%N. intros k Hk.
  repeat (rewrite (proj2 (N.eqb_neq _ _)) by lia). reflexivity.
Qed.

(** A timestamp of [asIsoNow] is not empty and has no white space to trim. *)
Lemma asIsoNow_trimmed d :
  Js.trim (asIsoNow d) = asIsoNow d /\ Js.isEmpty (asIsoNow d) = false.
Proof.
  rewrite asIsoNow_cases. split.
  - apply trim_nowhite.
    unfold Iso.toSeconds, Iso.pad4, Iso.pad3, Iso.pad2.
    destruct (milliseconds d mod 1000 =? 0)%N;
      repeat (rewrite allChars_app; cbn [Js.allChars]);
      rewrite !digit_nowhite; reflexivity.
  - rewrite toSeconds_app. reflexivity.
Qed.

End IsoFacts.

(** ** Bearer API keys *)

(** C2 as stated fails on the code: the expiry is not compared as an
    instant but as text, against the text of [asIsoNow()].  The key whose
    expiry is [2026-12-31T23:59:59Z], which is ISO 8601 for the last second of
    the year, still resolves half a second after that instant: the clock
    reads [2026-12-31T23:59:59.500Z], and [Z] comes after [.] in the order of
    the code units. *)
Lemma C2_expiry_counterexample :
  ApiKeys.ExpiresAt toyZuluKey = Some "2026-12-31T23:59:59Z"
  /\ selectApiKey toyDbZulu (hashApiKey Toy.rt "scanner-key") = Some toyZuluKey
  /\ (Iso.instantKey toyExpiry < Iso.instantKey toyJustAfter)%N
  /\ resolveApiKeyUser Toy.rt toyDbZulu toyJustAfter
       (Toy.request "GET" "/api/documents" [("authorization", "Bearer scanner-key")])
     = Some {| username := "apikey:scanner"; role := user |}.
Proof.
  split; [vm_compute; reflexivity|]. split; [vm_compute; reflexivity|].
  split; [vm_compute; reflexivity|]. vm_compute. reflexivity.
Qed.

(** C2, amended.  For a request presenting a bearer API key: when the
    matching [ApiKeys] row is disabled, or its expiry is at or before the
    current time as the code compares them, resolution yields no Principal;
    and a Principal it does yield is [{username = "apikey:" + KeyName, role =
    user}] for the matching row, whatever the [Users] table holds.  The
    expiry is compared as text: the trimmed text of the row, when it is not
    empty, against the text of [asIsoNow()], in the order of their code
    units.  For an expiry written in the format of [asIsoNow] itself
    ([YYYY-MM-DDTHH:mm:ss], the form the key editor asks for, or
    [YYYY-MM-DDTHH:mm:ss.sssZ] off the whole second) that is the order of the
    two instants. *)
Theorem C2_api_key_resolution
    (rt : Runtime) (db : Database) (clock : DateTime) (req : Request) :
  (forall row,
      selectApiKey db (hashApiKey rt (bearerKey req)) = Some row ->
      ApiKeys.Enabled row = 0
      \/ (Js.isEmpty (Js.trim (default "" (ApiKeys.ExpiresAt row))) = false
          /\ Js.leb (Js.trim (default "" (ApiKeys.ExpiresAt row))) (asIsoNow clock) = true)
      \/ (exists expiry,
             Iso.wellFormed expiry /\ Iso.wellFormed clock
             /\ ApiKeys.ExpiresAt row = Some (asIsoNow expiry)
             /\ (Iso.instantKey expiry <= Iso.instantKey clock)%N) ->
      resolveApiKeyUser rt db clock req = None)
  /\ (forall p,
        resolveApiKeyUser rt db clock req = Some p ->
        role p = user
        /\ exists row,
             selectApiKey db (hashApiKey rt (bearerKey req)) = Some row
             /\ username p = "apikey:" ++ ApiKeys.KeyName row).
Proof.
  rewrite resolveApiKeyUser_unfold.
  split.
  - intros row Hrow Hcase.
    destruct (Js.isEmpty (bearerKey req)); [reflexivity|].
    rewrite Hrow.
    destruct Hcase as [Hoff | [[Hset Hpast] | (expiry & He & Hc & Hat & Hle)]].
    + rewrite Hoff. reflexivity.
    + unfold nonEmpty. rewrite Hset, Hpast.
      destruct (ApiKeys.Enabled row =? 0); reflexivity.
    + rewrite Hat. unfold default. cbn [from_option id].
      destruct (IsoFacts.asIsoNow_trimmed expiry) as [Htrim Hne].
      rewrite Htrim, (IsoFacts.asIsoNow_order _ _ He Hc).
      apply N.leb_le in Hle. rewrite Hle.
      unfold nonEmpty. rewrite Hne.
      destruct (ApiKeys.Enabled row =? 0); reflexivity.
  - intros p Hp.
    destruct (Js.isEmpty (bearerKey req)); [discriminate|].
    destruct (selectApiKey db (hashApiKey rt (bearerKey req))) as [row|]; [|discriminate].
    destruct (ApiKeys.Enabled row =? 0); [discriminate|].
    destruct (_ && _); [discriminate|].
    injection Hp as <-. split; [reflexivity|].
    exists row. split; reflexivity.
Qed.

Lemma C2_api_key_resolution_witness :
  resolveApiKeyUser Toy.rt toyDbKeys
    {| year := 2027; month := 1; day := 1; hours := 0; minutes := 0; seconds := 0;
       milliseconds := 0 |}
    (Toy.request "GET" "/api/documents" [("authorization", "Bearer scanner-key")])
  = None.
Proof.
  apply (proj1 (C2_api_key_resolution Toy.rt toyDbKeys _ _) toyScannerKey).
  - vm_compute. reflexivity.
  - right. right.
    exists {| year := 2026; month := 12; day := 31; hours := 23; minutes := 59;
              seconds := 59; milliseconds := 0 |}.
    repeat split; try reflexivity.
    vm_compute. discriminate.
Defined.

(** ** The change-event bus *)

Section BusFacts.

Variable rt : Runtime.

Lemma inSet_In c l : inSet c l = true <-> In c l.
Proof.
  unfold inSet. rewrite existsb_exists. split.
  - intros (x & Hx & E). apply Nat.eqb_eq in E. subst x. exact Hx.
  - intros H. exists c. split; [exact H | apply Nat.eqb_refl].
Qed.

Lemma inSet_false c l : inSet c l = false <-> ~ In c l.
Proof.
  rewrite <- inSet_In. destruct (inSet c l); split; intros H; congruence.
Qed.

Lemma setDelete_In c x l : In x (setDelete c l) <-> In x l /\ x <> c.
Proof.
  unfold setDelete. rewrite filter_In. split; intros [H1 H2]; split; try exact H1.
  - apply negb_true_iff, Nat.eqb_neq in H2. congruence.
  - apply negb_true_iff, Nat.eqb_neq. congruence.
Qed.

Lemma setDelete_NoDup c l : List.NoDup l -> List.NoDup (setDelete c l).
Proof. apply List.NoDup_filter. Qed.

Lemma setAdd_NoDup c l : List.NoDup l -> List.NoDup (setAdd c l).
Proof.
  intros H. unfold setAdd. destruct (inSet c l) eqn:E; [exact H|].
  apply inSet_false in E.
  apply List.NoDup_app; [exact H | repeat constructor; intros [] |].
  intros x Hx [<-|[]]. contradiction.
Qed.

Lemma filter_twice {A : Type} (f g : A -> bool) l :
  List.filter f (List.filter g l) = List.filter (fun x => f x && g x) l.
Proof.
  induction l as [|x l IH]; [reflexivity|]. cbn [List.filter].
  destruct (g x); cbn [List.filter]; rewrite IH, ?andb_true_r, ?andb_false_r; reflexivity.
Qed.

Lemma setAdd_In c x l : In x l -> In x (setAdd c l).
Proof.
  intros H. unfold setAdd. destruct (inSet c l); [exact H|].
  apply in_or_app. left. exact H.
Qed.

(** One write: it either lands on a writable connection or throws. *)
Lemma write_spec c data st :
  write c data st
  = if canWrite st c then
      Ret {| documentEventClients := documentEventClients st;
             documentEventSequence := documentEventSequence st;
             sockets := alter (delivered data) c (sockets st) |}
    else Throw (OtherError "write failed").
Proof.
  unfold write, canWrite.
  destruct (sockets st !! c) as [conn|] eqn:Hc; [|reflexivity].
  destruct (writable conn); [|reflexivity].
  do 2 f_equal. apply map_eq. intros k.
  rewrite lookup_alter, lookup_insert.
  destruct (decide (c = k)) as [<-|_]; [|reflexivity].
  rewrite Hc. reflexivity.
Qed.

Lemma writeOrDrop_spec data st a :
  writeOrDrop data st a
  = if canWrite st a then
      {| documentEventClients := documentEventClients st;
         documentEventSequence := documentEventSequence st;
         sockets := alter (delivered data) a (sockets st) |}
    else withClients st (setDelete a (documentEventClients st)).
Proof.
  unfold writeOrDrop. rewrite write_spec. destruct (canWrite st a); reflexivity.
Qed.

Lemma canWrite_alter data a st c :
  canWrite st a = true ->
  canWrite {| documentEventClients := documentEventClients st;
              documentEventSequence := documentEventSequence st;
              sockets := alter (delivered data) a (sockets st) |} c
  = canWrite st c.
Proof.
  unfold canWrite. cbn [sockets]. intros Ha.
  rewrite lookup_alter. destruct (decide (a = c)) as [<-|_]; [|reflexivity].
  destruct (sockets st !! a) as [conn|]; [|discriminate Ha].
  cbn. symmetry. exact Ha.
Qed.

(** The loop of a broadcast over the members [l] of the registry: the
    sequence is left alone, the members whose write throws leave the registry
    and only they, and every member whose write succeeds has the text appended
    to its connection. *)
Lemma fold_writeOrDrop data l : forall st,
  List.NoDup l ->
  let st' := fold_left (writeOrDrop data) l st in
  documentEventSequence st' = documentEventSequence st
  /\ documentEventClients st'
     = List.filter (fun x => negb (inSet x l) || canWrite st x) (documentEventClients st)
  /\ forall c,
       sockets st' !! c
       = if inSet c l && canWrite st c then delivered data <$> sockets st !! c
         else sockets st !! c.
Proof.
  induction l as [|a l IH]; intros st Hnd; cbn [fold_left].
  - split; [reflexivity|]. split; [|reflexivity].
    symmetry. apply forallb_filter_id. apply forallb_forall. reflexivity.
  - inversion Hnd as [|? ? Hna Hl]; subst.
    destruct (IH (writeOrDrop data st a) Hl) as (Hseq & Hcl & Hso).
    rewrite writeOrDrop_spec in Hseq, Hcl, Hso.
    rewrite writeOrDrop_spec.
    apply inSet_false in Hna.
    destruct (canWrite st a) eqn:Ha.
    + split; [exact Hseq|]. split.
      * rewrite Hcl. cbn [documentEventClients]. apply filter_ext. intros x.
        rewrite canWrite_alter by exact Ha.
        unfold inSet. cbn [existsb]. fold (inSet x l).
        destruct (Nat.eqb_spec x a) as [->|_]; [|reflexivity].
        rewrite Ha, Hna. reflexivity.
      * intros c. rewrite Hso, canWrite_alter by exact Ha. cbn [sockets].
        rewrite lookup_alter.
        unfold inSet at 2. cbn [existsb]. fold (inSet c l).
        destruct (decide (a = c)) as [<-|Hne].
        -- rewrite Nat.eqb_refl, Hna, Ha. reflexivity.
        -- destruct (Nat.eqb_spec c a) as [->|_]; [contradiction|]. reflexivity.
    + split; [exact Hseq|]. split.
      * rewrite Hcl. cbn [withClients documentEventClients].
        unfold setDelete. rewrite filter_twice. apply filter_ext. intros x.
        unfold canWrite at 1. cbn [withClients sockets]. fold (canWrite st x).
        unfold inSet at 2. cbn [existsb]. fold (inSet x l).
        rewrite (Nat.eqb_sym a x).
        destruct (Nat.eqb_spec x a) as [->|_]; cbn [negb andb orb].
        -- rewrite Ha. apply andb_false_r.
        -- apply andb_true_r.
      * intros c. rewrite Hso. cbn [withClients sockets].
        unfold canWrite at 1. cbn [withClients sockets]. fold (canWrite st c).
        unfold inSet at 2. cbn [existsb]. fold (inSet c l).
        destruct (Nat.eqb_spec c a) as [->|_]; [|reflexivity].
        rewrite Ha, Hna. reflexivity.
Qed.

Lemma registered_In st c : registered st c = true <-> In c (documentEventClients st).
Proof. apply inSet_In. Qed.

(** One broadcast on a registry with at least one member. *)
Lemma broadcast_spec clock payload st :
  List.NoDup (documentEventClients st) ->
  documentEventClients st <> [] ->
  let st' := broadcastDocumentsChanged rt clock payload st in
  let frame := sseFrame rt (documentEventSequence st + 1) "documents_changed"
                 (changedPayload clock payload) in
  documentEventSequence st' = documentEventSequence st + 1
  /\ documentEventClients st' = List.filter (canWrite st) (documentEventClients st)
  /\ forall c,
       sockets st' !! c
       = if registered st c && canWrite st c then delivered frame <$> sockets st !! c
         else sockets st !! c.
Proof.
  intros Hnd Hne st' frame. subst st'. unfold broadcastDocumentsChanged.
  destruct (documentEventClients st) as [|a l] eqn:Hcl; [contradiction|].
  cbn [length Nat.eqb]. rewrite <- Hcl in *.
  unfold toSseData. cbn [fst snd].
  set (st1 := {| documentEventClients := documentEventClients st;
                 documentEventSequence := documentEventSequence st + 1;
                 sockets := sockets st |}).
  destruct (fold_writeOrDrop frame (documentEventClients st) st1 Hnd) as (Hseq & Hclients & Hso).
  fold frame. split; [exact Hseq|]. split.
  - rewrite Hclients. cbn [st1 documentEventClients].
    apply filter_ext_in. intros x Hx.
    apply inSet_In in Hx. rewrite Hx. reflexivity.
  - intros c. rewrite Hso. reflexivity.
Qed.

(** A tick of the keep-alive timer. *)
Lemma keepAlive_spec st :
  List.NoDup (documentEventClients st) ->
  let st' := keepAliveTick st in
  documentEventSequence st' = documentEventSequence st
  /\ documentEventClients st' = List.filter (canWrite st) (documentEventClients st)
  /\ forall c,
       sockets st' !! c
       = if registered st c && canWrite st c then delivered keepAliveText <$> sockets st !! c
         else sockets st !! c.
Proof.
  intros Hnd st'. subst st'. unfold keepAliveTick.
  destruct (documentEventClients st) as [|a l] eqn:Hcl.
  - cbn [length Nat.eqb]. rewrite Hcl. split; [reflexivity|]. split; [reflexivity|].
    intros c. unfold registered. rewrite Hcl. reflexivity.
  - cbn [length Nat.eqb]. rewrite <- Hcl in *. fold keepAliveText.
    destruct (fold_writeOrDrop keepAliveText (documentEventClients st) st Hnd)
      as (Hseq & Hclients & Hso).
    split; [exact Hseq|]. split.
    + rewrite Hclients. apply filter_ext_in. intros x Hx.
      apply inSet_In in Hx. rewrite Hx. reflexivity.
    + intros c. rewrite Hso. reflexivity.
Qed.

(** A new event stream leaves every other connection alone. *)
Lemma subscribe_spec clock res st :
  let st' := fst (subscribe rt clock res st) in
  documentEventClients st' = setAdd res (documentEventClients st)
  /\ documentEventSequence st <= documentEventSequence st'
  /\ forall c, c <> res -> sockets st' !! c = sockets st !! c.
Proof.
  intros st'. subst st'. unfold subscribe.
  rewrite write_spec.
  destruct (canWrite _ res); cbn [fst].
  2:{ cbn [withClients documentEventClients documentEventSequence sockets].
      split; [reflexivity|]. split; [lia|]. reflexivity. }
  unfold toSseData. cbn [fst snd]. rewrite write_spec.
  destruct (canWrite _ res); cbn [fst withClients documentEventClients
                                    documentEventSequence sockets].
  - split; [reflexivity|]. split; [lia|].
    intros c Hc. rewrite !lookup_alter_ne by congruence. reflexivity.
  - split; [reflexivity|]. split; [lia|].
    intros c Hc. rewrite lookup_alter_ne by congruence. reflexivity.
Qed.

Lemma openSocket_spec res st :
  documentEventClients (openSocket res st) = documentEventClients st
  /\ documentEventSequence (openSocket res st) = documentEventSequence st
  /\ forall c, c <> res -> sockets (openSocket res st) !! c = sockets st !! c.
Proof.
  unfold openSocket.
  destruct (sockets st !! res) as [conn|];
    cbn [documentEventClients documentEventSequence sockets];
    (split; [reflexivity|]; split; [reflexivity|]); intros c Hc;
    rewrite ?lookup_insert_ne by congruence; reflexivity.
Qed.

Lemma failSocket_spec res st :
  documentEventClients (failSocket res st) = documentEventClients st
  /\ documentEventSequence (failSocket res st) = documentEventSequence st
  /\ forall c, c <> res -> sockets (failSocket res st) !! c = sockets st !! c.
Proof.
  unfold failSocket.
  destruct (sockets st !! res) as [conn|];
    cbn [documentEventClients documentEventSequence sockets];
    (split; [reflexivity|]; split; [reflexivity|]); intros c Hc;
    rewrite ?lookup_insert_ne by congruence; reflexivity.
Qed.

Lemma busStep_live op st c :
  List.NoDup (documentEventClients st) ->
  registered st c = true ->
  canWrite st c = true ->
  concerns c op = false ->
  let st' := busStep rt st op in
  List.NoDup (documentEventClients st')
  /\ registered st' c = true
  /\ canWrite st' c = true
  /\ receivedBy st' c = (receivedBy st c ++ stepText rt st op)%list
  /\ (if isPublish op then documentEventSequence st' = documentEventSequence st + 1
      else True)
  /\ documentEventSequence st <= documentEventSequence st'.
Proof.
  intros Hnd Hreg Hcan Hop st'. subst st'.
  assert (Hin : In c (documentEventClients st)) by (apply registered_In; exact Hreg).
  assert (Hsock : exists conn, sockets st !! c = Some conn /\ writable conn = true).
  { unfold canWrite in Hcan. destruct (sockets st !! c) as [conn|]; [eauto | discriminate]. }
  destruct Hsock as (conn & Hconn & Hw).
  destruct op as [clock payload | clock res | res | res | ]; cbn [busStep stepText isPublish].
  - assert (Hne : documentEventClients st <> []) by (intros E; rewrite E in Hin; destruct Hin).
    destruct (broadcast_spec clock payload st Hnd Hne) as (Hseq & Hcl & Hso).
    split; [rewrite Hcl; apply List.NoDup_filter, Hnd|].
    split; [apply registered_In; rewrite Hcl; apply filter_In; split; assumption|].
    unfold canWrite, receivedBy. rewrite (Hso c), Hreg, Hcan, Hconn. cbn.
    repeat split; try reflexivity; lia.
  - cbn [concerns] in Hop. apply Nat.eqb_neq in Hop.
    destruct (openSocket_spec res st) as (Ocl & Oseq & Oso).
    destruct (subscribe_spec clock res (openSocket res st)) as (Scl & Sseq & Sso).
    split; [rewrite Scl, Ocl; apply setAdd_NoDup, Hnd|].
    split; [apply registered_In; rewrite Scl, Ocl; apply setAdd_In, Hin|].
    unfold canWrite, receivedBy.
    rewrite (Sso c) by congruence. rewrite (Oso c) by congruence. rewrite Hconn.
    rewrite app_nil_r. repeat split; try reflexivity; try assumption; lia.
  - cbn [concerns] in Hop. apply Nat.eqb_neq in Hop.
    unfold onClose. cbn [withClients documentEventClients documentEventSequence].
    split; [apply setDelete_NoDup, Hnd|].
    split; [apply registered_In; cbn; apply setDelete_In; split; [exact Hin | congruence]|].
    unfold canWrite, receivedBy. cbn [withClients sockets]. rewrite Hconn.
    rewrite app_nil_r. repeat split; try reflexivity; try assumption; lia.
  - cbn [concerns] in Hop. apply Nat.eqb_neq in Hop.
    destruct (failSocket_spec res st) as (Fcl & Fseq & Fso).
    split; [rewrite Fcl; exact Hnd|].
    split; [unfold registered; rewrite Fcl; exact Hreg|].
    unfold canWrite, receivedBy. rewrite (Fso c) by congruence. rewrite Hconn.
    rewrite app_nil_r. repeat split; try reflexivity; try assumption; lia.
  - destruct (keepAlive_spec st Hnd) as (Hseq & Hcl & Hso).
    split; [rewrite Hcl; apply List.NoDup_filter, Hnd|].
    split; [apply registered_In; rewrite Hcl; apply filter_In; split; assumption|].
    unfold canWrite, receivedBy. rewrite (Hso c), Hreg, Hcan, Hconn. cbn.
    repeat split; try reflexivity; lia.
Qed.

Lemma frame_isEventText id name payload :
  isEventText (sseFrame rt id name payload) = true.
Proof.
  unfold isEventText, sseFrame, keepAliveText.
  rewrite !IsoFacts.app_cons. reflexivity.
Qed.

(** A subscriber that stays registered with a working connection through a
    trace receives the event of every publish of the trace, in order, and the
    ids of these events grow strictly. *)
Lemma runBus_live ops : forall st c,
  List.NoDup (documentEventClients st) ->
  registered st c = true ->
  canWrite st c = true ->
  forallb (fun op => negb (concerns c op)) ops = true ->
  let st' := runBus rt ops st in
  registered st' c = true
  /\ canWrite st' c = true
  /\ (exists extra,
         receivedBy st' c = (receivedBy st c ++ extra)%list
         /\ List.filter isEventText extra = List.map snd (published rt ops st))
  /\ length (published rt ops st) = length (List.filter isPublish ops)
  /\ Forall (fun id => documentEventSequence st < id <= documentEventSequence st')
       (List.map fst (published rt ops st))
  /\ StronglySorted Z.lt (List.map fst (published rt ops st))
  /\ documentEventSequence st <= documentEventSequence st'.
Proof.
  induction ops as [|op ops IH]; intros st c Hnd Hreg Hcan Hops; cbn [runBus fold_left].
  - repeat split; try assumption; try constructor; try lia.
    exists []. rewrite app_nil_r. split; reflexivity.
  - cbn [forallb] in Hops. apply andb_true_iff in Hops as [Hop Hrest].
    apply negb_true_iff in Hop.
    destruct (busStep_live op st c Hnd Hreg Hcan Hop)
      as (Hnd1 & Hreg1 & Hcan1 & Hrecv1 & Hpub1 & Hseq1).
    destruct (IH (busStep rt st op) c Hnd1 Hreg1 Hcan1 Hrest)
      as (Hreg' & Hcan' & (extra & Hrecv' & Hfilter') & Hlen' & Hbound' & Hsorted' & Hseq').
    fold (runBus rt ops (busStep rt st op)) in *.
    split; [exact Hreg'|]. split; [exact Hcan'|].
    assert (Hbound1 : Forall (fun id => documentEventSequence st < id
                                        <= documentEventSequence (runBus rt ops (busStep rt st op)))
                        (List.map fst (published rt ops (busStep rt st op)))).
    { eapply Forall_impl; [exact Hbound'|]. cbn beta. intros id Hid. lia. }
    assert (Hrecv : receivedBy (runBus rt ops (busStep rt st op)) c
                    = (receivedBy st c ++ (stepText rt st op ++ extra))%list).
    { rewrite Hrecv', Hrecv1, <- app_assoc. reflexivity. }
    destruct op as [clock payload | clock res | res | res | ];
      cbn [published isPublish List.filter List.map fst snd length stepText] in *.
    + split.
      { eexists. split; [exact Hrecv|].
        rewrite List.filter_app, Hfilter'. cbn [List.filter].
        rewrite frame_isEventText. reflexivity. }
      split; [rewrite Hlen'; reflexivity|].
      split; [constructor; [lia | exact Hbound1]|].
      split; [|lia].
      constructor; [exact Hsorted'|].
      eapply Forall_impl; [exact Hbound'|]. cbn beta. intros id Hid. lia.
    + split; [eexists; split; [exact Hrecv | rewrite List.filter_app, Hfilter'; reflexivity]|].
      repeat split; try assumption; lia.
    + split; [eexists; split; [exact Hrecv | rewrite List.filter_app, Hfilter'; reflexivity]|].
      repeat split; try assumption; lia.
    + split; [eexists; split; [exact Hrecv | rewrite List.filter_app, Hfilter'; reflexivity]|].
      repeat split; try assumption; lia.
    + split; [eexists; split; [exact Hrecv | rewrite List.filter_app, Hfilter'; reflexivity]|].
      repeat split; try assumption; lia.
Qed.

End BusFacts.

(** C4 as stated fails on the code: a publish while no subscriber is
    registered returns before the sequence is incremented. *)
Lemma C4_publish_counterexample :
  ~ (forall (rt : Runtime) (clock : DateTime) (payload : list (string * jsval)) (st : State),
        documentEventSequence (broadcastDocumentsChanged rt clock payload st)
        = documentEventSequence st + 1).
Proof.
  intros H. specialize (H Toy.rt toyClock [] toyIdle). vm_compute in H. discriminate H.
Qed.

(** C4, amended.  A publish while at least one subscriber is registered
    increments the sequence by exactly one and writes exactly one event, whose
    id is the new value of the sequence, to every registered subscriber whose
    write succeeds; a subscriber whose write throws leaves the registry, and
    only such subscribers leave it, while the others are served all the same;
    nothing is written to anybody else.  A publish with an empty registry
    changes nothing.  Over any trace of publishes, new streams, closes,
    transport failures and keep-alive ticks, a subscriber that stays
    registered with a working connection receives the event of every publish,
    in order, and their ids increase strictly. *)
Theorem C4_publish_fanout (rt : Runtime) :
  (forall clock payload st,
      List.NoDup (documentEventClients st) ->
      documentEventClients st <> [] ->
      let st' := broadcastDocumentsChanged rt clock payload st in
      let frame := sseFrame rt (documentEventSequence st') "documents_changed"
                     (changedPayload clock payload) in
      documentEventSequence st' = documentEventSequence st + 1
      /\ documentEventClients st' = List.filter (canWrite st) (documentEventClients st)
      /\ forall c,
           receivedBy st' c
           = if registered st c && canWrite st c then (receivedBy st c ++ [frame])%list
             else receivedBy st c)
  /\ (forall clock payload st,
        documentEventClients st = [] ->
        broadcastDocumentsChanged rt clock payload st = st)
  /\ (forall ops st c,
        List.NoDup (documentEventClients st) ->
        registered st c = true ->
        canWrite st c = true ->
        forallb (fun op => negb (concerns c op)) ops = true ->
        let st' := runBus rt ops st in
        registered st' c = true
        /\ (exists extra,
               receivedBy st' c = (receivedBy st c ++ extra)%list
               /\ List.filter isEventText extra = List.map snd (published rt ops st))
        /\ length (published rt ops st) = length (List.filter isPublish ops)
        /\ StronglySorted Z.lt (List.map fst (published rt ops st))).
Proof.
  split; [|split].
  - intros clock payload st Hnd Hne st' frame.
    destruct (broadcast_spec rt clock payload st Hnd Hne) as (Hseq & Hcl & Hso).
    fold st' in Hseq, Hcl, Hso.
    split; [exact Hseq|]. split; [exact Hcl|].
    intros c. unfold receivedBy. rewrite (Hso c).
    unfold frame. rewrite Hseq.
    destruct (registered st c); cbn [andb]; [|reflexivity].
    unfold canWrite.
    destruct (sockets st !! c) as [conn|]; [|reflexivity].
    destruct (writable conn); reflexivity.
  - intros clock payload st Hempty. unfold broadcastDocumentsChanged.
    rewrite Hempty. reflexivity.
  - intros ops st c Hnd Hreg Hcan Hops st'.
    destruct (runBus_live rt ops st c Hnd Hreg Hcan Hops)
      as (Hreg' & _ & Hextra & Hlen & _ & Hsorted & _).
    repeat split; assumption.
Qed.

Lemma C4_publish_fanout_witness :
  documentEventSequence (broadcastDocumentsChanged Toy.rt toyClock [] toyBus)
  = documentEventSequence toyBus + 1
  /\ StronglySorted Z.lt
       (List.map fst
          (published Toy.rt
             [Publish toyClock []; Subscribe toyClock 8%nat; Publish toyClock [];
              Fail 8%nat; KeepAlive; Publish toyClock []] toyBus)).
Proof.
  assert (Hnd : List.NoDup (documentEventClients toyBus)).
  { change (documentEventClients toyBus) with [7%nat]. repeat constructor. intros []. }
  pose proof (C4_publish_fanout Toy.rt) as (Hone & _ & Htrace).
  split.
  - apply (Hone toyClock [] toyBus Hnd). discriminate.
  - apply (Htrace _ toyBus 7%nat Hnd); reflexivity.
Defined.

(** ** The ingestion trigger *)

(** C3 as stated fails on the code.  With a token configured, a request
    from the loopback address that carries no token is rejected, although one
    of the two conditions holds.  And the loopback condition is not about
    where the request originates: with no token configured, a request from
    another machine that names [127.0.0.1] in [X-Forwarded-For] is accepted. *)
Lemma C3_trigger_counterexample :
  ~ (forall (monitorEventToken : string) (req : Request),
        accepted monitorEventToken req
        = presentsToken monitorEventToken req || isLoopbackRequest req)
  /\ (accepted "" toyForwarded = true
      /\ presentsToken "" toyForwarded = false
      /\ isLoopbackAddress (remoteAddress toyForwarded) = false).
Proof.
  split.
  - intros H. specialize (H "s3cret" toyLoopback). vm_compute in H. discriminate H.
  - vm_compute. repeat split.
Qed.

Lemma isLoopbackAddress_names (rawAddress : option string) :
  isLoopbackAddress rawAddress = true
  <-> In (Js.toLowerCase (Js.trim (default "" rawAddress))) loopbackNames.
Proof.
  unfold isLoopbackAddress, loopbackNames.
  set (address := Js.toLowerCase (Js.trim (default "" rawAddress))).
  split.
  - destruct (Js.isEmpty address); [discriminate|].
    intros H. cbn [In].
    repeat (apply orb_true_iff in H as [H|H]); apply String.eqb_eq in H; auto.
  - intros H. cbn [In] in H.
    destruct H as [<- | [<- | [<- | [<- | []]]]]; reflexivity.
Qed.

(** What the handler does once the guard has let the request through. *)
Lemma documentsInserted_accepted
    (rt : Runtime) (monitorEventToken : string) (clock : DateTime) (req : Request)
    (st : State) (documentId reason : string) :
  accepted monitorEventToken req = true ->
  bodyText rt req "documentId" = Ret documentId ->
  bodyText rt req "reason" = Ret reason ->
  documentsInserted rt monitorEventToken clock req st
  = let st' :=
      broadcastDocumentsChanged rt clock
        [("source", JString "monitor");
         ("reason", JString (if Js.isEmpty reason then "monitor" else reason));
         ("documentId", if Js.isEmpty documentId then JNull else JString documentId)] st in
    Ret (reply 200 (JObject [("success", JBool true);
                             ("clients",
                              JNumber (Fin (Z.of_nat (length (documentEventClients st')))))]),
         st').
Proof.
  unfold accepted, documentsInserted. intros Hguard Hid Hreason.
  destruct (triggerGuard monitorEventToken req); [discriminate Hguard|].
  rewrite Hid, Hreason. cbn [mbind exn_bind]. unfold nonEmpty.
  destruct (Js.isEmpty reason), (Js.isEmpty documentId); reflexivity.
Qed.

(** C3, amended.  Which condition the trigger asks for depends on the
    configuration: with a shared secret configured the request passes the
    check exactly when its header matches the secret, and without one exactly
    when it counts as a loopback request: the first entry of its
    [X-Forwarded-For] header, or else the remote address of its socket, is
    [::1], [127.0.0.1], [::ffff:127.0.0.1] or [localhost] (trimmed, in any
    case).  So a matching header alone always suffices, a loopback request
    alone suffices only when no secret is configured, and a request with
    neither is rejected.  A request that passes the check, and whose
    [documentId] and [reason] convert to text, is answered 200 and the
    broadcast runs; a rejected one is answered 401 (bad token) or 403 (not
    loopback) and leaves the bus as it was: no event is written to any
    subscriber and the sequence does not advance. *)
Theorem C3_trigger_authorization
    (rt : Runtime) (monitorEventToken : string) (clock : DateTime) (req : Request)
    (st : State) :
  accepted monitorEventToken req
  = (if nonEmpty monitorEventToken then presentsToken monitorEventToken req
     else isLoopbackRequest req)
  /\ (isLoopbackRequest req = true <->
      exists address,
        (address = forwardedFor req \/ remoteAddress req = Some address)
        /\ In (Js.toLowerCase (Js.trim address)) loopbackNames)
  /\ (presentsToken monitorEventToken req = true -> accepted monitorEventToken req = true)
  /\ (presentsToken monitorEventToken req = false ->
      isLoopbackRequest req = false ->
      accepted monitorEventToken req = false)
  /\ (accepted monitorEventToken req = true ->
      forall documentId reason,
        bodyText rt req "documentId" = Ret documentId ->
        bodyText rt req "reason" = Ret reason ->
        exists response payload,
          documentsInserted rt monitorEventToken clock req st
          = Ret (response, broadcastDocumentsChanged rt clock payload st)
          /\ status response = 200)
  /\ (accepted monitorEventToken req = false ->
      exists response,
        documentsInserted rt monitorEventToken clock req st = Ret (response, st)
        /\ status response = (if nonEmpty monitorEventToken then 401 else 403)).
Proof.
  assert (Hiff : accepted monitorEventToken req
                 = (if nonEmpty monitorEventToken then presentsToken monitorEventToken req
                    else isLoopbackRequest req)).
  { unfold accepted, presentsToken, triggerGuard.
    destruct (nonEmpty monitorEventToken) eqn:Hconf; cbn [andb].
    - set (token := Js.trim (default "" (headers req !! "x-monitor-event-token"))).
      destruct (String.eqb token monitorEventToken) eqn:Hmatch; cbn [negb orb].
      + apply String.eqb_eq in Hmatch. rewrite Hmatch.
        unfold nonEmpty in Hconf. apply negb_true_iff in Hconf. rewrite Hconf.
        reflexivity.
      + rewrite orb_true_r. reflexivity.
    - destruct (isLoopbackRequest req); reflexivity. }
  split; [exact Hiff|].
  split.
  { unfold isLoopbackRequest. fold (forwardedFor req). split.
    - destruct (isLoopbackAddress (Some (forwardedFor req))) eqn:Hforwarded.
      + intros _. exists (forwardedFor req). split; [left; reflexivity|].
        apply (isLoopbackAddress_names (Some (forwardedFor req))), Hforwarded.
      + intros Hremote. apply isLoopbackAddress_names in Hremote.
        destruct (remoteAddress req) as [address|]; [|destruct Hremote as [[=]|[[=]|[[=]|[[=]|[]]]]]].
        exists address. split; [right; reflexivity | exact Hremote].
    - intros (address & [-> | Hremote] & Hin).
      + apply (isLoopbackAddress_names (Some (forwardedFor req))) in Hin.
        rewrite Hin. reflexivity.
      + destruct (isLoopbackAddress (Some (forwardedFor req))); [reflexivity|].
        rewrite Hremote. apply (isLoopbackAddress_names (Some address)), Hin. }
  split.
  { intros Hp. rewrite Hiff. unfold presentsToken in *.
    destruct (nonEmpty monitorEventToken); [exact Hp | discriminate Hp]. }
  split.
  { intros Hp Hl. rewrite Hiff, Hp, Hl. destruct (nonEmpty monitorEventToken); reflexivity. }
  clear Hiff. split.
  - intros Haccepted documentId reason Hid Hreason.
    rewrite (documentsInserted_accepted rt _ clock req st _ _ Haccepted Hid Hreason).
    eexists _, _. split; reflexivity.
  - unfold accepted, documentsInserted.
    destruct (triggerGuard monitorEventToken req) as [rejection|] eqn:Hguard; [|discriminate].
    intros _. exists rejection. split; [reflexivity|].
    unfold triggerGuard in Hguard.
    destruct (nonEmpty monitorEventToken).
    + destruct (_ || _); [|discriminate Hguard]. injection Hguard as <-. reflexivity.
    + destruct (negb _); [|discriminate Hguard]. injection Hguard as <-. reflexivity.
Qed.

Lemma C3_trigger_authorization_witness :
  exists response,
    documentsInserted Toy.rt "s3cret" toyClock toyLoopback toyBus = Ret (response, toyBus)
    /\ status response = 401.
Proof.
  apply (C3_trigger_authorization Toy.rt "s3cret" toyClock toyLoopback toyBus).
  reflexivity.
Defined.

(** ** Authorization gates *)

Lemma apiGate_resolved p reqPath : apiGate (Some p) reqPath = Next.
Proof. unfold apiGate. destruct (existsb _ _); reflexivity. Qed.

Lemma belowMount_app mount more segs rest :
  belowMount (mount ++ more) segs = Some rest ->
  exists middle, belowMount mount segs = Some middle.
Proof.
  revert segs. induction mount as [|m mount IH]; intros segs H.
  - cbn [belowMount]. eauto.
  - change ((m :: mount) ++ more)%list with (m :: (mount ++ more))%list in H.
    cbn [belowMount] in *.
    destruct segs as [|x segs]; [discriminate|].
    destruct (sameSegment m x); [|discriminate]. apply (IH _ H).
Qed.

(** A path below [/api/admin] is below [/api]. *)
Lemma mounted_admin_api url reqPath :
  mountedPath ["api"; "admin"] url = Some reqPath ->
  exists apiPath, mountedPath ["api"] url = Some apiPath.
Proof.
  unfold mountedPath.
  destruct (Js.split "/"%char url) as [|[|] segs]; try discriminate.
  destruct (belowMount ["api"; "admin"] segs) as [rest|] eqn:H; [|discriminate].
  intros _.
  destruct (belowMount_app ["api"] ["admin"] segs rest H) as [middle ->].
  eauto.
Qed.

Lemma sameSegment_lower s x :
  sameSegment s x = true -> Js.toLowerCase x = Js.toLowerCase s.
Proof. unfold sameSegment. intros H. apply String.eqb_eq in H. congruence. Qed.

Ltac eval_eqb :=
  repeat match goal with
         | |- context [String.eqb ?x ?y] =>
             let v := eval vm_compute in (String.eqb x y) in
             match v with
             | true => change (String.eqb x y) with true
             | false => change (String.eqb x y) with false
             end
         end.

(** A route registered for a verb handles the requests of that verb, and
    the [GET] routes those of [HEAD] as well. *)
Lemma handlesMethod_verb verb req :
  method req <> "HEAD" -> handlesMethod verb req = String.eqb verb (method req).
Proof.
  intros H. unfold handlesMethod.
  destruct (String.eqb_spec (method req) "HEAD") as [E|_]; [contradiction | reflexivity].
Qed.

(** C9 fails on the code.  The gate on [/api] compares the path of the
    request with the allowlist and not its method: [/documents/events] is on
    the list for the event stream, a [GET] route, but [DELETE
    /api/documents/events] is a request for the route [DELETE
    /api/documents/:id], which is not on the list.  A request for it that
    resolved to no Principal passes the gate and the body of the delete
    handler runs, where every other document id is answered 401.  What
    holds: on every path below [/api] that is not a path of the allowlist, a
    request that resolved to no Principal is answered 401 by the first gate,
    and nothing else runs: no role check, no handler.  On every path below
    [/api/admin], and on [PATCH /api/documents/:id/doc-class], a request that
    resolved to a Principal that is not an admin is answered 403; the
    authentication gate has run before the role check, and no handler body
    runs. *)
Theorem C9_gates (req : Request) :
  (method req = "DELETE" ->
   path req = "/api/documents/events" ->
   matchRoute [Lit "api"; Lit "documents"; Param] (path req) = true
   /\ runLayers app None req
      = ([Gate "api"; Entered (Storage "deleteDocument")], Body (Storage "deleteDocument")))
  /\ (forall reqPath,
        mountedPath ["api"] (path req) = Some reqPath ->
        existsb (String.eqb reqPath) publicApiPaths = false ->
        runLayers app None req
        = ([Gate "api"], Rejected (reply 401 (errorBody "authentication required"))))
  /\ (forall p reqPath,
        mountedPath ["api"; "admin"] (path req) = Some reqPath ->
        role p = user ->
        runLayers app (Some p) req
        = ([Gate "api"; Gate "admin"], Rejected (reply 403 (errorBody "admin role required"))))
  /\ (forall p,
        method req = "PATCH" ->
        matchRoute [Lit "api"; Lit "documents"; Param; Lit "doc-class"] (path req) = true ->
        role p = user ->
        runLayers app (Some p) req
        = ([Gate "api"; Entered DocClassPatch],
           Rejected (reply 403 (errorBody "admin role required")))).
Proof.
  split; [|split; [|split]].
  - intros Hverb Hpath.
    destruct req as [verb url hdrs remote payload]. cbn [method path] in *. subst verb url.
    split; vm_compute; reflexivity.
  - intros reqPath Hmount Hprivate.
    unfold app. cbn [runLayers]. rewrite Hmount.
    unfold apiGate. rewrite Hprivate. reflexivity.
  - intros p reqPath Hadmin Hrole.
    destruct (mounted_admin_api _ _ Hadmin) as [apiPath Hapi].
    unfold app. cbn [runLayers]. rewrite Hapi, apiGate_resolved, Hadmin.
    unfold requireAdmin. rewrite Hrole. reflexivity.
  - intros p Hverb Hroute Hrole.
    unfold matchRoute in Hroute.
    destruct (Js.split "/"%char (path req)) as [|[|] segs] eqn:Hsplit;
      try discriminate Hroute.
    destruct segs as [|a [|b [|c [|d tail]]]]; cbn [matchSegs] in Hroute;
      rewrite ?andb_false_r in Hroute; try discriminate Hroute.
    apply andb_true_iff in Hroute as [Ha Hroute].
    apply andb_true_iff in Hroute as [Hb Hroute].
    apply andb_true_iff in Hroute as [Hc Hroute].
    apply andb_true_iff in Hroute as [Hd Htail].
    apply sameSegment_lower in Ha, Hb, Hd.
    change (Js.toLowerCase "api") with "api" in Ha.
    change (Js.toLowerCase "documents") with "documents" in Hb.
    change (Js.toLowerCase "doc-class") with "doc-class" in Hd.
    assert (Hhandles : forall verb, handlesMethod verb req = String.eqb verb "PATCH").
    { intros verb. rewrite handlesMethod_verb by (rewrite Hverb; discriminate).
      rewrite Hverb. reflexivity. }
    unfold app. cbn [runLayers]. unfold mountedPath, matchRoute.
    rewrite Hsplit, !Hhandles. cbn [belowMount matchSegs].
    unfold sameSegment. rewrite Ha, Hb, Hd, Hc, Htail.
    eval_eqb. cbn [andb].
    rewrite apiGate_resolved.
    unfold inlineGuard, requireAdmin. rewrite Hrole. reflexivity.
Qed.

Lemma C9_gates_witness :
  runLayers app None (Toy.request "DELETE" "/api/documents/events" [])
  = ([Gate "api"; Entered (Storage "deleteDocument")], Body (Storage "deleteDocument"))
  /\ runLayers app None (Toy.request "DELETE" "/api/documents/42" [])
     = ([Gate "api"], Rejected (reply 401 (errorBody "authentication required")))
  /\ runLayers app (Some {| username := "tanaka"; role := user |})
       (Toy.request "DELETE" "/api/admin/users/suzuki" [])
     = ([Gate "api"; Gate "admin"], Rejected (reply 403 (errorBody "admin role required")))
  /\ runLayers app (Some {| username := "tanaka"; role := user |})
       (Toy.request "PATCH" "/api/documents/42/doc-class" [])
     = ([Gate "api"; Entered DocClassPatch],
        Rejected (reply 403 (errorBody "admin role required"))).
Proof.
  split; [|split; [|split]].
  - apply (proj1 (C9_gates (Toy.request "DELETE" "/api/documents/events" []))); reflexivity.
  - apply (proj1 (proj2 (C9_gates (Toy.request "DELETE" "/api/documents/42" [])))
             "/documents/42"); reflexivity.
  - apply (proj1 (proj2 (proj2 (C9_gates (Toy.request "DELETE" "/api/admin/users/suzuki" []))))
             {| username := "tanaka"; role := user |} "/users/suzuki"); reflexivity.
  - apply (proj2 (proj2 (proj2 (C9_gates (Toy.request "PATCH" "/api/documents/42/doc-class" []))))
             {| username := "tanaka"; role := user |}); reflexivity.
Defined.

(** ** Key derivation *)

Module SortFacts.

Lemma leb_total a b : Js.leb a b = false -> Js.leb b a = true.
Proof.
  rewrite !IsoFacts.leb_compare, (IsoFacts.compare_antisym a b).
  destruct (Js.compare a b); cbn [CompOpp]; congruence.
Qed.

Lemma insert_perm x l : Permutation (x :: l) (Sort.insert x l).
Proof.
  induction l as [|y l IH]; cbn [Sort.insert]; [reflexivity|].
  destruct (Js.leb x y); [reflexivity|].
  rewrite perm_swap. constructor. exact IH.
Qed.

Lemma sort_perm l : Permutation l (Sort.sort l).
Proof.
  induction l as [|x l IH]; cbn [Sort.sort]; [constructor|].
  rewrite <- insert_perm. constructor. exact IH.
Qed.

Lemma insert_sorted x l : Sorted Sort.le l -> Sorted Sort.le (Sort.insert x l).
Proof.
  induction 1 as [|y l Hl IH Hhd]; cbn [Sort.insert].
  - repeat constructor.
  - destruct (Js.leb x y) eqn:Hxy.
    + constructor; [constructor; assumption | constructor; exact Hxy].
    + constructor; [exact IH|].
      apply leb_total in Hxy.
      destruct Hhd as [|z l Hyz]; cbn [Sort.insert].
      * constructor. exact Hxy.
      * destruct (Js.leb x z); constructor; assumption.
Qed.

Lemma sort_sorted l : Sorted Sort.le (Sort.sort l).
Proof.
  induction l as [|x l IH]; cbn [Sort.sort]; [constructor|].
  apply insert_sorted, IH.
Qed.

End SortFacts.

Lemma fingerprint_parts (h : Host) :
  resolveServerFingerprint h
  = Js.join "|"
      (List.filter nonEmpty
         (List.map Js.trim
            ([hostname h; platform h; release h; arch h; pretty (default 0 (cpus h))]
               ++ hostMacAddresses h))).
Proof.
  unfold resolveServerFingerprint, hostMacAddresses.
  assert (Hmacs : match try_catch (interfaces ← networkInterfaces h;
                                   mret (macAddressesOf interfaces))
                          (fun _ => mret []) with
                  | Ret l => l
                  | Throw _ => []
                  end
                  = match networkInterfaces h with
                    | Ret interfaces => macAddressesOf interfaces
                    | Throw _ => []
                    end).
  { destruct (networkInterfaces h); reflexivity. }
  rewrite Hmacs.
  destruct (List.filter nonEmpty _) as [|part parts]; reflexivity.
Qed.

(** C8 as stated fails on the code: the MAC addresses are sorted but not
    de-duplicated, so a card reported once per address family appears twice in
    the fingerprint. *)
Lemma C8_fingerprint_counterexample :
  resolveServerFingerprint toyHost = "fax01|linux|6.8.0|x64|4|aa:bb:cc:00:11:22|aa:bb:cc:00:11:22"
  /\ specFingerprint toyHost = "fax01|linux|6.8.0|x64|4|aa:bb:cc:00:11:22"
  /\ resolveServerFingerprint toyHost <> specFingerprint toyHost.
Proof.
  split; [vm_compute; reflexivity|]. split; [vm_compute; reflexivity|].
  vm_compute. discriminate.
Qed.

(** C8, amended.  The sealing key is derived by a priority chain.  With a
    configured secret (the trimmed [API_SESSION_SECRET], else [APP_SECRET])
    the key is the SHA-256 of that string, so any two hosts configured with
    the same secret derive the same key whatever else differs; otherwise,
    with a non-empty fingerprint, it is the SHA-256 of the fingerprint after
    the tag [server-fingerprint:]; otherwise it is the SHA-256 of 32 fresh
    random bytes.  The fingerprint joins with [|] the non-empty trimmed
    hostname, platform, OS release, architecture, CPU count and MAC addresses;
    the MAC addresses are the lower-cased non-empty non-zero ones of all
    interface entries, in ascending order, each as many times as it is
    reported. *)
Theorem C8_key_derivation (rt : Runtime) (h : Host) (runtimeRandomSecret : Buffer) :
  let configuredSecret :=
    Js.trim (default "" (envOr (env h) "API_SESSION_SECRET" "APP_SECRET")) in
  let fingerprint := resolveServerFingerprint h in
  let key := fst (getSessionSecretKey rt h runtimeRandomSecret) in
  key = (if nonEmpty configuredSecret then sha256 rt (utf8_encode rt configuredSecret)
         else if nonEmpty fingerprint
              then sha256 rt (utf8_encode rt ("server-fingerprint:" ++ fingerprint))
              else sha256 rt runtimeRandomSecret)
  /\ (forall h' runtimeRandomSecret',
        nonEmpty configuredSecret = true ->
        Js.trim (default "" (envOr (env h') "API_SESSION_SECRET" "APP_SECRET"))
        = configuredSecret ->
        fst (getSessionSecretKey rt h' runtimeRandomSecret') = key)
  /\ fingerprint
     = Js.join "|"
         (List.filter nonEmpty
            (List.map Js.trim
               ([hostname h; platform h; release h; arch h; pretty (default 0 (cpus h))]
                  ++ hostMacAddresses h)))
  /\ (forall interfaces,
        networkInterfaces h = Ret interfaces ->
        Sorted Sort.le (hostMacAddresses h)
        /\ Permutation (nonZeroMacs interfaces) (hostMacAddresses h)).
Proof.
  intros configuredSecret fingerprint key.
  assert (Hkey : forall host random,
             fst (getSessionSecretKey rt host random)
             = if nonEmpty (Js.trim (default "" (envOr (env host) "API_SESSION_SECRET" "APP_SECRET")))
               then sha256 rt (utf8_encode rt
                      (Js.trim (default "" (envOr (env host) "API_SESSION_SECRET" "APP_SECRET"))))
               else if nonEmpty (resolveServerFingerprint host)
                    then sha256 rt (utf8_encode rt
                           ("server-fingerprint:" ++ resolveServerFingerprint host))
                    else sha256 rt random).
  { intros host random. unfold getSessionSecretKey.
    destruct (nonEmpty (Js.trim _)); [reflexivity|].
    destruct (nonEmpty (resolveServerFingerprint host)); reflexivity. }
  split; [apply Hkey|]. split; [|split].
  - intros h' random' Hset Hsame.
    unfold key. rewrite !Hkey, Hsame. fold configuredSecret. rewrite Hset. reflexivity.
  - apply fingerprint_parts.
  - intros interfaces Hnet. unfold hostMacAddresses. rewrite Hnet.
    split; [apply SortFacts.sort_sorted | apply SortFacts.sort_perm].
Qed.

Lemma C8_key_derivation_witness :
  fst (getSessionSecretKey Toy.rt toyHostOther [])
  = fst (getSessionSecretKey Toy.rt toyHostConfigured [Byte.x01])
  /\ Permutation ["aa:bb:cc:00:11:22"; "aa:bb:cc:00:11:22"] (hostMacAddresses toyHost).
Proof.
  split.
  - apply (proj1 (proj2 (C8_key_derivation Toy.rt toyHostConfigured [Byte.x01]))
             toyHostOther []); reflexivity.
  - apply (proj2 (proj2 (proj2 (C8_key_derivation Toy.rt toyHost [])))
             [("lo", Some [Some "00:00:00:00:00:00"; Some "00:00:00:00:00:00"]);
              ("eth0", Some [Some "AA:BB:CC:00:11:22"; Some "aa:bb:cc:00:11:22"])]
             eq_refl).
Defined.

(** * Further properties

    Properties of the parts of the server that the sections above leave
    out, and of the parts above composed with one another. *)

(** ** Trimming *)

Module TrimFacts.

Import JsFacts.

Lemma trimStart_head s :
  Js.trimStart s = EmptyString
  \/ exists c t, Js.trimStart s = String c t /\ Js.isWhiteSpace c = false.
Proof.
  induction s as [|c s IH]; cbn [Js.trimStart]; [left; reflexivity|].
  destruct (Js.isWhiteSpace c) eqn:Hc; [exact IH|].
  right. exists c, s. split; [reflexivity | exact Hc].
Qed.

Lemma trimEnd_idem s : Js.trimEnd (Js.trimEnd s) = Js.trimEnd s.
Proof.
  induction s as [|c s IH]; cbn [Js.trimEnd]; [reflexivity|].
  destruct (Js.isWhiteSpace c && Js.isEmpty (Js.trimEnd s)) eqn:E; [reflexivity|].
  cbn [Js.trimEnd]. rewrite IH, E. reflexivity.
Qed.

Lemma trimEnd_head c s :
  Js.isWhiteSpace c = false -> Js.trimEnd (String c s) = String c (Js.trimEnd s).
Proof. intros H. cbn [Js.trimEnd]. rewrite H. reflexivity. Qed.

(** Trimming twice is trimming once. *)
Lemma trim_idem s : Js.trim (Js.trim s) = Js.trim s.
Proof.
  unfold Js.trim.
  destruct (trimStart_head s) as [-> | (c & t & -> & Hc)]; [reflexivity|].
  rewrite (trimEnd_head _ _ Hc), (trimStart_nonwhite _ _ Hc), (trimEnd_head _ _ Hc).
  rewrite trimEnd_idem. reflexivity.
Qed.

(** A trimmed string has no white space at its start or at its end. *)
Lemma trimmed_trimEnd k : Js.trim k = k -> Js.trimEnd k = k.
Proof. intros H. rewrite <- H at 1. unfold Js.trim. rewrite trimEnd_idem. exact H. Qed.

Lemma trimmed_head k :
  Js.trim k = k ->
  k = EmptyString \/ exists c t, k = String c t /\ Js.isWhiteSpace c = false.
Proof.
  intros H. unfold Js.trim in H.
  destruct (trimStart_head k) as [E | (c & t & E & Hc)]; rewrite E in H.
  - left. symmetry. exact H.
  - right. rewrite (trimEnd_head _ _ Hc) in H. exists c, (Js.trimEnd t).
    split; [symmetry; exact H | exact Hc].
Qed.

Lemma trimEnd_app p k :
  Js.trimEnd k = k -> Js.isEmpty k = false -> Js.trimEnd (p ++ k) = p ++ k.
Proof.
  intros Hk Hne. induction p as [|c p IH]; [exact Hk|].
  change (String c p ++ k) with (String c (p ++ k)).
  cbn [Js.trimEnd]. rewrite IH.
  destruct p; [|rewrite andb_false_r; reflexivity].
  change (EmptyString ++ k) with k. rewrite Hne, andb_false_r. reflexivity.
Qed.

Lemma length_app a b : String.length (a ++ b) = (String.length a + String.length b)%nat.
Proof.
  induction a as [|c a IH]; [reflexivity|].
  change (String c a ++ b) with (String c (a ++ b)). cbn [String.length]. rewrite IH. reflexivity.
Qed.

Lemma repeat_app c n m : Js.repeat c n ++ Js.repeat c m = Js.repeat c (n + m).
Proof.
  induction n as [|n IH]; [reflexivity|].
  cbn [Js.repeat Nat.add]. rewrite <- IH. reflexivity.
Qed.

End TrimFacts.

(** ** The base64url codec *)

Lemma char_standard v :
  (v < 64)%N ->
  Js.isWhiteSpace (Base64.char v) = false
  /\ Base64.fromUrl (Base64.char v) = Base64.char v.
Proof. revert v. apply Base64Facts.below64. Base64Facts.each64. Qed.

Lemma chars_standard l :
  Base64.small l ->
  Js.allChars (fun c => negb (Js.isWhiteSpace c)) (Base64.chars l) = true
  /\ Js.map Base64.fromUrl (Base64.chars l) = Base64.chars l.
Proof.
  induction 1 as [|v l Hv _ [IH1 IH2]]; [split; reflexivity|].
  destruct (char_standard v Hv) as [Hw Hu].
  cbn [Base64.chars Js.allChars Js.map]. rewrite Hw, Hu, IH1, IH2. split; reflexivity.
Qed.

Lemma length_urlChars l : String.length (Base64.urlChars l) = length l.
Proof. induction l as [|v l IH]; [reflexivity|]. cbn. rewrite IH. reflexivity. Qed.

Lemma length_sextets b : length (Base64.sextets b) = ((4 * length b + 2) / 3)%nat.
Proof.
  induction b as [| x | x y | x y z rest IH] using Base64Facts.sextets_induction;
    try reflexivity.
  cbn [Base64.sextets length]. rewrite IH.
  replace (4 * S (S (S (length rest))) + 2)%nat with ((4 * length rest + 2) + 4 * 3)%nat by lia.
  rewrite Nat.div_add by lia. lia.
Qed.

(** X1.  [fromBase64Url] undoes [toBase64Url] on every buffer, and it reads
    the standard padded base64 text of a buffer as well: both texts decode to
    the buffer they were made from. *)
Theorem base64url_roundtrip (b : Buffer) :
  fromBase64Url (toBase64Url b) = b
  /\ fromBase64Url (Base64.encode b) = b.
Proof.
  split; [apply Base64Facts.fromBase64Url_toBase64Url|].
  pose proof (Base64Facts.sextets_small b) as Hs.
  destruct (chars_standard _ Hs) as [Hwhite Hsame].
  unfold fromBase64Url, Base64.encode.
  destruct (Base64Facts.padding_repeat (length b)) as [k ->].
  rewrite JsFacts.trim_nowhite.
  2:{ rewrite JsFacts.allChars_app, Hwhite. clear.
      induction k as [|k IH]; [reflexivity | exact IH]. }
  destruct (Js.isEmpty (Base64.chars (Base64.sextets b) ++ Js.repeat "="%char k)) eqn:He.
  - destruct (Base64.sextets b) eqn:Hb; [|discriminate He].
    symmetry. apply Base64Facts.sextets_nil, Hb.
  - unfold Js.replaceAll. rewrite JsFacts.map_map.
    change (fun c => if Ascii.eqb (if Ascii.eqb c "-"%char then "+"%char else c) "_"%char
                     then "/"%char
                     else if Ascii.eqb c "-"%char then "+"%char else c)
      with Base64.fromUrl.
    rewrite JsFacts.map_app, Hsame, Base64Facts.map_repeat_fixed by reflexivity.
    rewrite IsoFacts.app_assoc, TrimFacts.repeat_app.
    unfold Base64.decode. rewrite (Base64Facts.groups_chars _ _ Hs).
    apply Base64Facts.bytes_sextets.
Qed.

(** X2.  The text of [toBase64Url] is made of letters, digits, [-] and [_]
    only, so it has no padding, no dot and nothing a cookie or a URL would
    escape, and for [n] bytes it is [ceil(4n/3)] characters long. *)
Theorem base64url_text (b : Buffer) :
  Js.allChars Base64.urlChar (toBase64Url b) = true
  /\ String.length (toBase64Url b) = ((4 * length b + 2) / 3)%nat.
Proof.
  split; [apply Base64Facts.toBase64Url_alphabet|].
  rewrite Base64Facts.toBase64Url_urlChars, length_urlChars. apply length_sextets.
Qed.

(** ** Timestamps *)

Lemma ltb_irrefl s : Js.ltb s s = false.
Proof.
  rewrite IsoFacts.ltb_compare.
  assert (Hrefl : Js.compare s s = Eq).
  { induction s as [|c s IH]; [reflexivity|].
    cbn [Js.compare]. rewrite N.compare_refl. exact IH. }
  rewrite Hrefl. reflexivity.
Qed.

Lemma length_toSeconds d : String.length (Iso.toSeconds d) = 19%nat.
Proof. reflexivity. Qed.

(** X3.  A timestamp of [asIsoNow] is 19 characters long on a whole second
    and 24 otherwise, and two of them compare as strings the way their
    instants compare in time: the earlier instant gives the smaller string,
    and equal strings come from equal instants. *)
Theorem asIsoNow_chronological (a b : DateTime) :
  Iso.wellFormed a -> Iso.wellFormed b ->
  String.length (asIsoNow a)
  = (if (milliseconds a mod 1000 =? 0)%N then 19 else 24)%nat
  /\ Js.ltb (asIsoNow a) (asIsoNow b) = (Iso.instantKey a <? Iso.instantKey b)%N
  /\ (asIsoNow a = asIsoNow b -> Iso.instantKey a = Iso.instantKey b).
Proof.
  intros Ha Hb.
  pose proof (IsoFacts.asIsoNow_order a b Ha Hb) as Hab.
  pose proof (IsoFacts.asIsoNow_order b a Hb Ha) as Hba.
  unfold Js.leb in Hab, Hba.
  split; [|split].
  - rewrite IsoFacts.asIsoNow_cases, TrimFacts.length_app, length_toSeconds.
    destruct (milliseconds a mod 1000 =? 0)%N; reflexivity.
  - rewrite N.ltb_antisym, <- Hba, negb_involutive. reflexivity.
  - intros E. rewrite E, ltb_irrefl in Hab. rewrite E, ltb_irrefl in Hba.
    apply N.le_antisymm; apply N.leb_le; symmetry; assumption.
Qed.

Lemma asIsoNow_chronological_witness :
  Js.ltb (asIsoNow toyClock)
    (asIsoNow {| year := 2026; month := 11; day := 1; hours := 9; minutes := 5;
                 seconds := 3; milliseconds := 250 |})
  = true.
Proof.
  rewrite (proj1 (proj2 (asIsoNow_chronological toyClock
             {| year := 2026; month := 11; day := 1; hours := 9; minutes := 5;
                seconds := 3; milliseconds := 250 |}
             ltac:(vm_compute; repeat split; reflexivity)
             ltac:(vm_compute; repeat split; reflexivity)))).
  reflexivity.
Defined.

(** ** The environment file *)

Lemma fold_loadEnvLine lines : forall (env : gmap string string) k,
  fold_left loadEnvLine lines env !! k
  = match env !! k with
    | Some v => Some v
    | None => firstValue k (omap envLine lines)
    end.
Proof.
  induction lines as [|line lines IH]; intros env k; cbn [fold_left].
  - destruct (env !! k); reflexivity.
  - rewrite IH. unfold loadEnvLine. cbn [omap list_omap].
    destruct (envLine line) as [[key value]|]; [|reflexivity].
    cbn [firstValue].
    destruct (String.eqb_spec key k) as [->|Hne].
    + destruct (env !! k) as [v|] eqn:Hk; [rewrite Hk; reflexivity|].
      rewrite lookup_insert_eq. reflexivity.
    + destruct (env !! key) as [v|]; [reflexivity|].
      rewrite lookup_insert_ne by exact Hne. reflexivity.
Qed.

(** X4.  [loadEnvFile] never overwrites a variable the process already has,
    and among several assignments of a name in the file the first one wins:
    after loading, a name holds its value from the process environment if it
    had one, and otherwise the value of the first line of the file that
    assigns it; without a file the environment is unchanged. *)
Theorem loadEnvFile_lookup
    (envFile : option string) (env : gmap string string) (k : string) :
  loadEnvFile envFile env !! k
  = match env !! k with
    | Some v => Some v
    | None =>
        match envFile with
        | Some content => firstValue k (envBindings content)
        | None => None
        end
    end.
Proof.
  destruct envFile as [content|]; cbn [loadEnvFile].
  - apply fold_loadEnvLine.
  - destruct (env !! k); reflexivity.
Qed.

(** ** TLS material and the [Secure] attribute *)

Lemma resolveHttpsOptions_configured fs e :
  hasAnyTlsConfig e = true -> resolveHttpsOptions fs e <> Ret None.
Proof.
  intros Hany. unfold resolveHttpsOptions, readOptional. rewrite Hany. cbn [negb].
  repeat match goal with
         | |- context [if ?b then _ else _] => destruct b
         | |- context [readFileSync ?f ?p] => destruct (readFileSync f p)
         end; cbn; discriminate.
Qed.

(** X5.  The process listens over plain HTTP exactly when no TLS variable is
    set at all: as soon as [API_HTTPS] is on or one of the five paths and
    passphrase is given, start-up either gets TLS options or throws.  The
    options it gets hold a PFX bundle and neither certificate nor key when
    [API_HTTPS_PFX_PATH] is set, and both a certificate and a key otherwise. *)
Theorem resolveHttpsOptions_cases (fs : NodeFs) (e : gmap string string) :
  (startServer fs e = Ret ListenHttp <-> hasAnyTlsConfig e = false)
  /\ (forall o,
        resolveHttpsOptions fs e = Ret (Some o) ->
        if nonEmpty (envText e "API_HTTPS_PFX_PATH")
        then is_Some (Https.pfx o) /\ Https.cert o = None /\ Https.key o = None
        else Https.pfx o = None /\ is_Some (Https.cert o) /\ is_Some (Https.key o)).
Proof.
  split.
  - unfold startServer. split.
    + intros H. destruct (hasAnyTlsConfig e) eqn:Hany; [|reflexivity].
      pose proof (resolveHttpsOptions_configured fs e Hany) as Hno.
      destruct (resolveHttpsOptions fs e) as [[o|]|err]; cbn in H;
        try discriminate H. contradiction.
    + intros Hany. unfold resolveHttpsOptions. rewrite Hany. reflexivity.
  - intros o. unfold resolveHttpsOptions, readOptional.
    set (caPath := resolvePathFromProjectRoot fs (envText e "API_HTTPS_CA_PATH")).
    set (pfxPath := resolvePathFromProjectRoot fs (envText e "API_HTTPS_PFX_PATH")).
    set (certPath := resolvePathFromProjectRoot fs (envText e "API_HTTPS_CERT_PATH")).
    set (keyPath := resolvePathFromProjectRoot fs (envText e "API_HTTPS_KEY_PATH")).
    destruct (negb (hasAnyTlsConfig e)); [cbn; discriminate|].
    destruct (nonEmpty caPath && negb (existsSync fs caPath)); [discriminate|].
    assert (Hca : forall (k : option Buffer -> exn (option Https.Options)) (P : Prop),
               (forall ca, k ca = Ret (Some o) -> P) ->
               (if nonEmpty caPath then content ← readFileSync fs caPath; mret (Some content)
                else mret None) ≫= k = Ret (Some o) -> P).
    { intros k P HP. destruct (nonEmpty caPath); cbn; [|apply HP].
      destruct (readFileSync fs caPath); cbn; [apply HP | discriminate]. }
    destruct (nonEmpty (envText e "API_HTTPS_PFX_PATH")).
    + destruct (negb (existsSync fs pfxPath)); [discriminate|].
      destruct (readFileSync fs pfxPath) as [pfx|]; cbn; [|discriminate].
      apply Hca. intros ca [= <-]. cbn. eauto.
    + destruct (_ || _); [discriminate|].
      destruct (negb (existsSync fs certPath)); [discriminate|].
      destruct (negb (existsSync fs keyPath)); [discriminate|].
      destruct (readFileSync fs certPath) as [cert|]; cbn; [|discriminate].
      destruct (readFileSync fs keyPath) as [key|]; cbn; [|discriminate].
      apply Hca. intros ca [= <-]. cbn. eauto.
Qed.

Lemma resolveHttpsOptions_cases_witness :
  is_Some (Https.pfx
             {| Https.pfx := Some [Byte.x30; Byte.x82]; Https.cert := None; Https.key := None;
                Https.ca := None; Https.passphrase := None;
                Https.pfxPath := "/etc/fax/server.pfx"; Https.certPath := "";
                Https.keyPath := ""; Https.caPath := "" |}).
Proof.
  apply (proj2 (resolveHttpsOptions_cases toyFs toyTlsEnv)
           {| Https.pfx := Some [Byte.x30; Byte.x82]; Https.cert := None; Https.key := None;
              Https.ca := None; Https.passphrase := None;
              Https.pfxPath := "/etc/fax/server.pfx"; Https.certPath := "";
              Https.keyPath := ""; Https.caPath := "" |}).
  vm_compute. reflexivity.
Defined.

(** X6.  The [Secure] attribute of the session cookie follows [API_HTTPS]
    alone, while the listener follows all the TLS variables.  When the
    attribute is set the process never serves plain HTTP.  The converse does
    not hold: with [API_HTTPS] unset and a readable PFX bundle configured, the
    process serves HTTPS and sets the session cookie without [Secure]. *)
Theorem cookie_secure_follows_API_HTTPS (fs : NodeFs) (e : gmap string string) :
  (cookieSecure e = true -> startServer fs e <> Ret ListenHttp)
  /\ (forall bundle sessionToken rememberMe,
        cookieSecure e = false ->
        nonEmpty (envText e "API_HTTPS_PFX_PATH") = true ->
        envText e "API_HTTPS_CA_PATH" = EmptyString ->
        existsSync fs (resolvePathFromProjectRoot fs (envText e "API_HTTPS_PFX_PATH")) = true ->
        readFileSync fs (resolvePathFromProjectRoot fs (envText e "API_HTTPS_PFX_PATH"))
        = Ret bundle ->
        (exists options, startServer fs e = Ret (ListenHttps options))
        /\ setSessionCookie (cookieSecure e) sessionToken rememberMe
           = SetCookie SESSION_COOKIE_NAME sessionToken
               {| cookiePath := "/"; httpOnly := true; sameSite := "lax"; secure := false;
                  maxAge := if rememberMe then Some REMEMBER_ME_MAX_AGE_MS else None |}).
Proof.
  split.
  - intros Hsecure Hplain.
    assert (Hany : hasAnyTlsConfig e = true).
    { unfold hasAnyTlsConfig. unfold cookieSecure in Hsecure. rewrite Hsecure. reflexivity. }
    apply (resolveHttpsOptions_configured fs e Hany).
    unfold startServer in Hplain.
    destruct (resolveHttpsOptions fs e) as [[o|]|err]; cbn in Hplain;
      try discriminate Hplain. reflexivity.
  - intros bundle sessionToken rememberMe Hsecure Hpfx Hca Hexists Hread.
    split.
    + unfold startServer, resolveHttpsOptions, readOptional.
      assert (Hany : hasAnyTlsConfig e = true).
      { unfold hasAnyTlsConfig. rewrite Hpfx, orb_true_r. reflexivity. }
      rewrite Hany, Hca, Hpfx, Hexists, Hread. cbn. eauto.
    + rewrite Hsecure. reflexivity.
Qed.

Lemma cookie_secure_follows_API_HTTPS_witness :
  (exists options, startServer toyFs toyTlsEnv = Ret (ListenHttps options))
  /\ setSessionCookie (cookieSecure toyTlsEnv) toyToken false
     = SetCookie SESSION_COOKIE_NAME toyToken
         {| cookiePath := "/"; httpOnly := true; sameSite := "lax"; secure := false;
            maxAge := None |}.
Proof.
  apply (proj2 (cookie_secure_follows_API_HTTPS toyFs toyTlsEnv) [Byte.x30; Byte.x82]
           toyToken false); reflexivity.
Defined.

(** ** Credentials *)

Lemma selectUser_Some db userName row :
  selectUser db userName = Some row ->
  In row (tblUsers db) /\ Users.UserName row = userName.
Proof.
  unfold selectUser. intros H. apply find_some in H as [Hin Heq].
  split; [exact Hin | apply String.eqb_eq, Heq].
Qed.

Lemma toBool_sqlInt z : toBool (sqlInt z) = negb (z =? 0).
Proof. reflexivity. Qed.

Section CredentialFacts.

Variable rt : Runtime.
Variable sessionSecretKey : Buffer.

(** What a Principal resolved from the session cookie rests on. *)
Lemma resolveSessionUser_Some
    (db : Database) (now : Z) (req : Request) (p : Principal) :
  resolveSessionUser rt sessionSecretKey db now req = Ret (Some p) ->
  exists token payload expiry row,
    getSessionTokenFromRequest rt req = Ret token
    /\ decryptSessionPayload rt sessionSecretKey token = Ret payload
    /\ Val.get payload "ver" = JNumber (Fin SESSION_TOKEN_VERSION)
    /\ ToNumber rt (Val.get payload "exp") = Ret (Fin expiry)
    /\ now < expiry
    /\ In row (tblUsers db)
    /\ Users.UserName row = username p
    /\ Users.Enabled row <> 0
    /\ (role p = admin <-> Users.IsAdmin row <> 0).
Proof.
  unfold resolveSessionUser.
  destruct (getSessionTokenFromRequest rt req) as [token|] eqn:Htoken;
    cbn [mbind exn_bind]; [|discriminate].
  destruct (Js.isEmpty token); [cbn; discriminate|].
  destruct (decryptSessionPayload rt sessionSecretKey token) as [payload|] eqn:Hopen;
    cbn [mbind exn_bind]; [|discriminate].
  destruct (trimmedText rt (Val.get payload "sub")) as [userName|];
    cbn [mbind exn_bind]; [|discriminate].
  destruct (ToNumber rt (Val.get payload "exp")) as [[expiry| | |]|] eqn:Hexp;
    cbn [mbind exn_bind]; [| | | |discriminate].
  all: destruct (Val.strictNeZ (Val.get payload "ver") SESSION_TOKEN_VERSION) eqn:Hver;
    [cbn; discriminate|].
  all: destruct (Js.isEmpty userName) eqn:Hname; [cbn; discriminate|].
  all: cbn [Val.isFinite negb orb Val.leZ]; try (cbn; discriminate).
  destruct (Z.leb_spec expiry now) as [|Hfresh]; [cbn; discriminate|].
  destruct (selectUser db _) as [row|] eqn:Hrow; [|cbn; discriminate].
  apply selectUser_Some in Hrow as [Hin Hrowname].
  rewrite toBool_sqlInt, negb_involutive.
  destruct (Z.eqb_spec (Users.Enabled row) 0) as [|Henabled]; [cbn; discriminate|].
  unfold buildSessionUser. rewrite toBool_sqlInt. intros [= <-].
  exists token, payload, expiry, row. cbn [username role].
  repeat (split; [assumption || reflexivity|]).
  split.
  { unfold Val.strictNeZ in Hver.
    destruct (Val.get payload "ver") as [| | |[z| | |]| | |]; try discriminate Hver.
    apply negb_false_iff, Z.eqb_eq in Hver. subst z. reflexivity. }
  repeat (split; [assumption || reflexivity|]).
  destruct (Z.eqb_spec (Users.IsAdmin row) 0) as [E|E]; cbn [negb];
    split; intros H; congruence.
Qed.

(** X7.  A Principal resolved from the session cookie is always backed by a
    token that opens under the process key to a payload of version 1 whose
    expiry is a finite number in the future, and by a row of [Users] with
    that user name that is enabled at the time of the request; the role is
    [admin] exactly when that row has [IsAdmin] set.  So a forged, expired or
    old-format token, and a token of a deleted or disabled account, never
    resolve. *)
Theorem session_principal_sound
    (db : Database) (now : Z) (req : Request) (p : Principal) :
  resolveSessionUser rt sessionSecretKey db now req = Ret (Some p) ->
  exists token payload expiry row,
    getSessionTokenFromRequest rt req = Ret token
    /\ decryptSessionPayload rt sessionSecretKey token = Ret payload
    /\ Val.get payload "ver" = JNumber (Fin SESSION_TOKEN_VERSION)
    /\ ToNumber rt (Val.get payload "exp") = Ret (Fin expiry)
    /\ now < expiry
    /\ In row (tblUsers db)
    /\ Users.UserName row = username p
    /\ Users.Enabled row <> 0
    /\ (role p = admin <-> Users.IsAdmin row <> 0).
Proof. apply resolveSessionUser_Some. Qed.

(** X8.  The cookie takes precedence over the bearer key, and only the
    cookie can make an administrator: a Principal that the credential
    middleware resolves is the one of the session cookie when there is one,
    and otherwise the one of the API key, whose role is [user]. *)
Theorem credential_precedence
    (db : Database) (now : Z) (clock : DateTime) (req : Request) (p : Principal) :
  authUserMiddleware rt sessionSecretKey db now clock req = Ret (Some p) ->
  (resolveSessionUser rt sessionSecretKey db now req = Ret (Some p)
   \/ (resolveSessionUser rt sessionSecretKey db now req = Ret None
       /\ resolveApiKeyUser rt db clock req = Some p
       /\ role p = user))
  /\ (role p = admin -> resolveSessionUser rt sessionSecretKey db now req = Ret (Some p)).
Proof.
  unfold authUserMiddleware.
  destruct (resolveSessionUser rt sessionSecretKey db now req) as [[q|]|];
    cbn [mbind exn_bind mret exn_ret]; [| |discriminate].
  - intros [= <-]. split; [left; reflexivity | reflexivity].
  - intros [= Hkey].
    assert (Hrole : role p = user).
    { rewrite resolveApiKeyUser_unfold in Hkey.
      destruct (Js.isEmpty (bearerKey req)); [discriminate|].
      destruct (selectApiKey db _) as [row|]; [|discriminate].
      destruct (ApiKeys.Enabled row =? 0); [discriminate|].
      destruct (_ && _); [discriminate|].
      injection Hkey as <-. reflexivity. }
    split; [right; repeat split; assumption|].
    intros Hadmin. rewrite Hadmin in Hrole. discriminate Hrole.
Qed.

End CredentialFacts.

Lemma session_principal_sound_witness :
  exists token payload expiry row,
    getSessionTokenFromRequest Toy.rt
      (Toy.request "GET" "/api/admin/users" [("cookie", "yokins_session=" ++ toyToken)])
    = Ret token
    /\ decryptSessionPayload Toy.rt Toy.key token = Ret payload
    /\ Val.get payload "ver" = JNumber (Fin SESSION_TOKEN_VERSION)
    /\ ToNumber Toy.rt (Val.get payload "exp") = Ret (Fin expiry)
    /\ 2000 < expiry
    /\ In row (tblUsers Toy.db)
    /\ Users.UserName row = "admin"
    /\ Users.Enabled row <> 0
    /\ (admin = admin <-> Users.IsAdmin row <> 0).
Proof.
  apply (session_principal_sound Toy.rt Toy.key Toy.db 2000
           (Toy.request "GET" "/api/admin/users" [("cookie", "yokins_session=" ++ toyToken)])
           {| username := "admin"; role := admin |}).
  vm_compute. reflexivity.
Defined.

Lemma credential_precedence_witness :
  resolveSessionUser Toy.rt Toy.key toyDbKeys 2000
    (Toy.request "GET" "/api/documents" [("authorization", "Bearer scanner-key")])
  = Ret (Some {| username := "apikey:scanner"; role := user |})
  \/ (resolveSessionUser Toy.rt Toy.key toyDbKeys 2000
        (Toy.request "GET" "/api/documents" [("authorization", "Bearer scanner-key")])
      = Ret None
      /\ resolveApiKeyUser Toy.rt toyDbKeys toyClock
           (Toy.request "GET" "/api/documents" [("authorization", "Bearer scanner-key")])
         = Some {| username := "apikey:scanner"; role := user |}
      /\ user = user).
Proof.
  apply (credential_precedence Toy.rt Toy.key toyDbKeys 2000 toyClock
           (Toy.request "GET" "/api/documents" [("authorization", "Bearer scanner-key")])
           {| username := "apikey:scanner"; role := user |}).
  vm_compute. reflexivity.
Defined.

(** ** The session cookie, from login to the next request *)

Lemma toy_decodePlain : decodePlain Toy.rt.
Proof.
  intros s. cbn [decodeURIComponent Toy.rt].
  induction s as [|c s IH]; cbn [Js.allChars Toy.percentDecode]; [reflexivity|].
  intros H. apply andb_true_iff in H as [Hc Hs].
  apply negb_true_iff in Hc. rewrite Hc, (IH Hs). reflexivity.
Qed.

Lemma urlChar_cookieSafe c : Base64.urlChar c = true -> cookieSafe c = true.
Proof.
  intros H. pose proof (Base64Facts.urlChar_spec c H) as (Hw & _ & He).
  unfold cookieSafe. rewrite Hw, He. cbn [negb andb].
  assert (Hs : Ascii.eqb c ";"%char = false).
  { apply Ascii.eqb_neq. intros ->. discriminate H. }
  assert (Hp : Ascii.eqb c "%"%char = false).
  { apply Ascii.eqb_neq. intros ->. discriminate H. }
  rewrite Hs, Hp. reflexivity.
Qed.

Section CookieFacts.

Variable rt : Runtime.
Variable sessionSecretKey : Buffer.

(** A sealed token is made of cookie-safe characters. *)
Lemma sealed_cookieSafe iv payload :
  Js.allChars cookieSafe (encryptSessionPayload rt sessionSecretKey iv payload) = true.
Proof.
  unfold encryptSessionPayload. cbv zeta.
  assert (H64 : forall b, Js.allChars cookieSafe (toBase64Url b) = true).
  { intros b. eapply JsFacts.allChars_weaken; [|apply Base64Facts.toBase64Url_alphabet].
    apply urlChar_cookieSafe. }
  rewrite !JsFacts.allChars_app, !H64. reflexivity.
Qed.

(** A [Cookie] header that carries the session cookie alone, with a value
    of cookie-safe characters, gives that value back. *)
Lemma sessionCookie_parsed token req :
  decodePlain rt ->
  Js.allChars cookieSafe token = true ->
  headers req !! "cookie" = Some (SESSION_COOKIE_NAME ++ "=" ++ token) ->
  getSessionTokenFromRequest rt req = Ret token.
Proof.
  intros Hdecode Hsafe Hcookie.
  assert (Hwhite : Js.allChars (fun c => negb (Js.isWhiteSpace c)) token = true).
  { eapply JsFacts.allChars_weaken; [|exact Hsafe]. unfold cookieSafe. intros c H.
    apply andb_true_iff in H as [H _]. apply andb_true_iff in H as [H _].
    apply andb_true_iff in H as [H _]. exact H. }
  assert (Hsemi : Js.allChars (fun c => negb (Ascii.eqb c ";"%char)) token = true).
  { eapply JsFacts.allChars_weaken; [|exact Hsafe]. unfold cookieSafe. intros c H.
    apply andb_true_iff in H as [H _]. apply andb_true_iff in H as [H _].
    apply andb_true_iff in H as [_ H]. exact H. }
  assert (Hequal : Js.allChars (fun c => negb (Ascii.eqb c "="%char)) token = true).
  { eapply JsFacts.allChars_weaken; [|exact Hsafe]. unfold cookieSafe. intros c H.
    apply andb_true_iff in H as [H _]. apply andb_true_iff in H as [_ H]. exact H. }
  assert (Hpercent : Js.allChars (fun c => negb (Ascii.eqb c "%"%char)) token = true).
  { eapply JsFacts.allChars_weaken; [|exact Hsafe]. unfold cookieSafe. intros c H.
    apply andb_true_iff in H as [_ H]. exact H. }
  unfold getSessionTokenFromRequest, parseCookies. rewrite Hcookie.
  unfold default. cbn [from_option id].
  rewrite JsFacts.trim_nowhite
    by (rewrite JsFacts.allChars_app, JsFacts.allChars_app, Hwhite; reflexivity).
  change (Js.isEmpty (SESSION_COOKIE_NAME ++ "=" ++ token)) with false. cbv iota.
  rewrite JsFacts.split_nosep
    by (rewrite JsFacts.allChars_app, JsFacts.allChars_app, Hsemi; reflexivity).
  cbn [parseCookiePairs].
  change (SESSION_COOKIE_NAME ++ "=" ++ token)
    with (SESSION_COOKIE_NAME ++ String "="%char token).
  rewrite JsFacts.split_cons by reflexivity.
  rewrite (JsFacts.split_nosep _ _ Hequal).
  change (Js.trim SESSION_COOKIE_NAME) with SESSION_COOKIE_NAME.
  change (Js.isEmpty SESSION_COOKIE_NAME) with false. cbv iota.
  cbn [Js.join].
  rewrite (JsFacts.trim_nowhite _ Hwhite), (Hdecode _ Hpercent).
  cbn [mbind exn_bind mret exn_ret].
  rewrite lookup_insert_eq. cbn [from_option id].
  rewrite (JsFacts.trim_nowhite _ Hwhite). reflexivity.
Qed.

End CookieFacts.

(** X9.  The cookie round trip.  The sealed token of any payload is made of
    letters, digits, [-], [_] and [.] only, so a request whose [Cookie] header
    is [yokins_session=<token>] hands exactly that token to the resolver:
    nothing in it is split, trimmed or unescaped away by [parseCookies]. *)
Theorem session_cookie_roundtrip
    (rt : Runtime) (sessionSecretKey iv : Buffer) (payload : jsval) (req : Request) :
  decodePlain rt ->
  headers req !! "cookie"
  = Some ("yokins_session=" ++ encryptSessionPayload rt sessionSecretKey iv payload) ->
  getSessionTokenFromRequest rt req
  = Ret (encryptSessionPayload rt sessionSecretKey iv payload).
Proof.
  intros Hdecode Hcookie.
  apply sessionCookie_parsed; [exact Hdecode | apply sealed_cookieSafe | exact Hcookie].
Qed.

Lemma session_cookie_roundtrip_witness :
  getSessionTokenFromRequest Toy.rt
    (Toy.request "GET" "/api/documents"
       [("cookie", "yokins_session="
                     ++ encryptSessionPayload Toy.rt Toy.key Toy.iv
                          (sessionPayload 1000 "tanaka" false))])
  = Ret (encryptSessionPayload Toy.rt Toy.key Toy.iv (sessionPayload 1000 "tanaka" false)).
Proof.
  apply (session_cookie_roundtrip Toy.rt Toy.key Toy.iv (sessionPayload 1000 "tanaka" false)).
  - apply toy_decodePlain.
  - vm_compute. reflexivity.
Defined.

(** A text read from the body has no white space around it. *)
Lemma bodyText_trimmed rt req key text :
  bodyText rt req key = Ret text -> Js.trim text = text.
Proof.
  unfold bodyText, trimmedText.
  destruct (ToString rt _) as [raw|]; cbn [mbind exn_bind]; [|discriminate].
  intros [= <-]. apply TrimFacts.trim_idem.
Qed.

(** X10.  Login and the requests that follow.  A successful login sets the
    session cookie to a token with which, on the same process key and
    database, every later request resolves to the Principal that the login
    response reports ([GET /api/auth/me] answers with the same body), until
    the lifetime of the session is over (30 days with [rememberMe], 8 hours
    without), from when on it resolves to nobody. *)
Theorem login_then_resolve
    (rt : Runtime) (sessionSecretKey iv : Buffer) (https : bool) (db : Database) (now : Z)
    (req : Request) :
  let rememberMe := toBool (Val.get (body req) "rememberMe") in
  let response := respond (authLogin rt sessionSecretKey https db now iv req) in
  aeadCorrect rt sessionSecretKey ->
  length iv = 12%nat ->
  decodePlain rt ->
  (forall name,
      bodyText rt req "username" = Ret name ->
      jsonRepresentable rt (sessionPayload now name rememberMe)) ->
  status response = 200 ->
  exists token options p,
    cookie response = SetCookie SESSION_COOKIE_NAME token options
    /\ bodyText rt req "username" = Ret (username p)
    /\ json response = json (authMe (Some p))
    /\ forall later next,
         headers next !! "cookie" = Some ("yokins_session=" ++ token) ->
         resolveSessionUser rt sessionSecretKey db later next
         = Ret (if now + sessionTtl rememberMe <=? later then None else Some p).
Proof.
  intros rememberMe response Haead Hiv Hdecode Hjson. subst response.
  unfold authLogin. fold rememberMe.
  destruct (bodyText rt req "username") as [name|] eqn:Htext;
    cbn [mbind exn_bind respond]; [|discriminate].
  destruct (bodyText rt req "password") as [password|];
    cbn [mbind exn_bind respond]; [|discriminate].
  specialize (Hjson name eq_refl).
  destruct (Js.isEmpty name) eqn:Hname; [discriminate|].
  destruct (Js.isEmpty password); [discriminate|]. cbn [orb].
  destruct (selectUser db name) as [row|] eqn:Hrow; [|discriminate].
  rewrite toBool_sqlInt, negb_involutive.
  destruct (Users.Enabled row =? 0) eqn:Henabled; [discriminate|].
  destruct (Users.PasswordHash row) as [stored|]; [|discriminate].
  destruct (String.eqb _ stored); [|discriminate].
  intros _. cbn [cookie json].
  pose proof (selectUser_Some _ _ _ Hrow) as [_ Hrowname]. rewrite Hrowname.
  set (token := createSessionToken rt sessionSecretKey now iv name rememberMe).
  exists token, {| cookiePath := "/"; httpOnly := true; sameSite := "lax"; secure := https;
                   maxAge := if rememberMe then Some REMEMBER_ME_MAX_AGE_MS else None |},
    {| username := name;
       role := if Users.IsAdmin row =? 0 then user else admin |}.
  split; [reflexivity|]. split; [reflexivity|]. split.
  { cbn [authMe json reply username role]. rewrite toBool_sqlInt.
    destruct (Users.IsAdmin row =? 0); reflexivity. }
  intros later next Hcookie.
  assert (Htoken : getSessionTokenFromRequest rt next = Ret token).
  { apply sessionCookie_parsed; [exact Hdecode | apply sealed_cookieSafe | exact Hcookie]. }
  assert (Hopen : decryptSessionPayload rt sessionSecretKey token
                  = Ret (sessionPayload now name rememberMe)).
  { unfold token, createSessionToken. rewrite seal_open_any by assumption. reflexivity. }
  rewrite (resolveSessionUser_opened rt sessionSecretKey db later next token _
             name (now + sessionTtl rememberMe)
             Htoken Hopen eq_refl eq_refl eq_refl).
  rewrite (bodyText_trimmed _ _ _ _ Htext), Hname, Hrow, Henabled, Hrowname. reflexivity.
Qed.

Lemma login_then_resolve_witness :
  exists token options p,
    cookie (respond (authLogin Toy.rt Toy.key false toyDbLogin 1000 Toy.iv toyLoginRequest))
    = SetCookie SESSION_COOKIE_NAME token options
    /\ bodyText Toy.rt toyLoginRequest "username" = Ret (username p)
    /\ json (respond (authLogin Toy.rt Toy.key false toyDbLogin 1000 Toy.iv toyLoginRequest))
       = json (authMe (Some p))
    /\ forall later next,
         headers next !! "cookie" = Some ("yokins_session=" ++ token) ->
         resolveSessionUser Toy.rt Toy.key toyDbLogin later next
         = Ret (if 1000 + sessionTtl false <=? later then None else Some p).
Proof.
  apply (login_then_resolve Toy.rt Toy.key Toy.iv false toyDbLogin 1000 toyLoginRequest).
  - apply toy_aeadCorrect.
  - reflexivity.
  - apply toy_decodePlain.
  - intros name [= <-]. vm_compute. reflexivity.
  - vm_compute. reflexivity.
Defined.

(** A login that is not answered 200 has no account, name and password as
    a successful one needs them. *)
Ltac login_fails :=
  split; [discriminate|];
  intros (u & p & r & Eu & Ep & Hu' & Hp' & Hr & Hen & Hh);
  injection Eu as <-; injection Ep as <-;
  try congruence;
  match goal with
  | Hrow : selectUser _ _ = Some ?row |- _ => rewrite Hr in Hrow; injection Hrow as ->
  end;
  congruence.

(** X11.  The outcomes of a login.  It succeeds exactly when both fields
    convert to a text that is not empty, the account exists and is enabled,
    and the salted hash of the password is the stored one.  Every failure
    sets no cookie.  All failures with both fields given as text (unknown
    account, disabled account, account without a password, wrong password)
    get one and the same answer, 401 "invalid credentials"; a missing field
    gets 400; and the request is answered 500 by the error handler exactly
    when [String] throws on one of the two fields: an object with a
    [toString] of its own, or an array that holds one. *)
Theorem login_outcomes
    (rt : Runtime) (sessionSecretKey iv : Buffer) (https : bool) (db : Database) (now : Z)
    (req : Request) :
  let response := respond (authLogin rt sessionSecretKey https db now iv req) in
  (status response = 200 <->
     exists userName password row,
       bodyText rt req "username" = Ret userName
       /\ bodyText rt req "password" = Ret password
       /\ Js.isEmpty userName = false
       /\ Js.isEmpty password = false
       /\ selectUser db userName = Some row
       /\ Users.Enabled row <> 0
       /\ Users.PasswordHash row
          = Some (hashPassword rt password (Users.PasswordSalt row)))
  /\ (status response <> 200 ->
      cookie response = NoCookie
      /\ response
         = match bodyText rt req "username", bodyText rt req "password" with
           | Ret userName, Ret password =>
               if Js.isEmpty userName || Js.isEmpty password
               then reply 400 (errorBody "username and password are required")
               else reply 401 (errorBody "invalid credentials")
           | _, _ => reply 500 (errorBody "internal server error")
           end)
  /\ (status response = 500 <->
      throwsOnString (Val.get (body req) "username") = true
      \/ throwsOnString (Val.get (body req) "password") = true).
Proof.
  intros response. subst response. unfold authLogin.
  destruct (bodyText rt req "username") as [userName|e1] eqn:Hfirst;
    cbn [mbind exn_bind respond].
  2:{ apply bodyText_throws in Hfirst as [_ Hfirst]. split; [|split].
      - split; [discriminate | intros (u & p & r & [=] & _)].
      - intros _. split; reflexivity.
      - split; [intros _; left; exact Hfirst | reflexivity]. }
  destruct (bodyText rt req "password") as [password|e2] eqn:Hsecond;
    cbn [mbind exn_bind respond].
  2:{ apply bodyText_throws in Hsecond as [_ Hsecond]. split; [|split].
      - split; [discriminate | intros (u & p & r & _ & [=] & _)].
      - intros _. split; reflexivity.
      - split; [intros _; right; exact Hsecond | reflexivity]. }
  assert (Hnothrow : forall r : Response,
             status r <> 500 ->
             status r = 500 <->
             throwsOnString (Val.get (body req) "username") = true
             \/ throwsOnString (Val.get (body req) "password") = true).
  { intros r Hr.
    assert (H1 : throwsOnString (Val.get (body req) "username") = false)
      by (apply (bodyText_returns rt); rewrite Hfirst; eexists; reflexivity).
    assert (H2 : throwsOnString (Val.get (body req) "password") = false)
      by (apply (bodyText_returns rt); rewrite Hsecond; eexists; reflexivity).
    split; [contradiction | intros [H|H]; congruence]. }
  destruct (Js.isEmpty userName) eqn:Hu; cbn [orb];
    [split; [login_fails | split; [intros _; split; reflexivity
                                  | apply Hnothrow; discriminate]]|].
  destruct (Js.isEmpty password) eqn:Hp;
    [split; [login_fails | split; [intros _; split; reflexivity
                                  | apply Hnothrow; discriminate]]|].
  destruct (selectUser db userName) as [row|] eqn:Hrow;
    [|split; [login_fails | split; [intros _; split; reflexivity
                                   | apply Hnothrow; discriminate]]].
  rewrite toBool_sqlInt, negb_involutive.
  destruct (Z.eqb_spec (Users.Enabled row) 0) as [Hoff|Hon];
    [split; [login_fails | split; [intros _; split; reflexivity
                                  | apply Hnothrow; discriminate]]|].
  destruct (Users.PasswordHash row) as [stored|] eqn:Hhash;
    [|split; [login_fails | split; [intros _; split; reflexivity
                                   | apply Hnothrow; discriminate]]].
  destruct (String.eqb_spec (hashPassword rt password (Users.PasswordSalt row)) stored)
    as [<-|Hwrong];
    [|split; [login_fails | split; [intros _; split; reflexivity
                                   | apply Hnothrow; discriminate]]].
  split; [|split; [intros H; exfalso; apply H; reflexivity | apply Hnothrow; discriminate]].
  split; [intros _ | reflexivity].
  exists userName, password, row. repeat split; assumption.
Qed.

Lemma login_outcomes_witness :
  respond (authLogin Toy.rt Toy.key false toyDbLogin 1000 Toy.iv
             {| method := "POST"; path := "/api/auth/login"; headers := ∅;
                remoteAddress := None;
                body := JObject [("username", JObject [("toString", JNumber (Fin 1))]);
                                 ("password", JString "pass1234")] |})
  = reply 500 (errorBody "internal server error")
  /\ respond (authLogin Toy.rt Toy.key false toyDbLogin 1000 Toy.iv
                {| method := "POST"; path := "/api/auth/login"; headers := ∅;
                   remoteAddress := None;
                   body := JObject [("username", JString "suzuki");
                                    ("password", JString "pass1234")] |})
     = reply 401 (errorBody "invalid credentials").
Proof.
  split.
  - apply (proj1 (proj2 (login_outcomes Toy.rt Toy.key Toy.iv false toyDbLogin 1000
                    {| method := "POST"; path := "/api/auth/login"; headers := ∅;
                       remoteAddress := None;
                       body := JObject [("username", JObject [("toString", JNumber (Fin 1))]);
                                        ("password", JString "pass1234")] |}))).
    vm_compute. discriminate.
  - apply (proj1 (proj2 (login_outcomes Toy.rt Toy.key Toy.iv false toyDbLogin 1000
                    {| method := "POST"; path := "/api/auth/login"; headers := ∅;
                       remoteAddress := None;
                       body := JObject [("username", JString "suzuki");
                                        ("password", JString "pass1234")] |}))).
    vm_compute. discriminate.
Defined.

(** ** The [Authorization] header *)

Lemma spanWhite_app white rest :
  Js.allChars Js.isWhiteSpace white = true ->
  (rest = EmptyString \/ exists c t, rest = String c t /\ Js.isWhiteSpace c = false) ->
  spanWhite (white ++ rest) = (white, rest).
Proof.
  intros Hwhite Hrest. induction white as [|c white IH].
  - change (EmptyString ++ rest) with rest.
    destruct Hrest as [-> | (c & t & -> & Hc)]; [reflexivity|].
    cbn [spanWhite]. rewrite Hc. reflexivity.
  - cbn [Js.allChars] in Hwhite. apply andb_true_iff in Hwhite as [Hc Hwhite].
    change (String c white ++ rest) with (String c (white ++ rest)).
    cbn [spanWhite]. rewrite Hc, (IH Hwhite). reflexivity.
Qed.

Lemma lowerChar_white c : Js.isWhiteSpace c = true -> Js.lowerChar c = c.
Proof.
  unfold Js.isWhiteSpace, Js.lowerChar. intros H.
  repeat (apply orb_true_iff in H as [H|H]); apply N.eqb_eq in H; rewrite H; reflexivity.
Qed.

(** The key of a header made of the scheme in any case, white space and a
    trimmed key. *)
Lemma bearerKey_header (req : Request) (scheme white apiKey : string) :
  Js.toLowerCase scheme = "bearer" ->
  Js.isEmpty white = false ->
  Js.allChars Js.isWhiteSpace white = true ->
  Js.trim apiKey = apiKey ->
  Js.isEmpty apiKey = false ->
  hasLineTerminator apiKey = false ->
  headers req !! "authorization" = Some (scheme ++ white ++ apiKey) ->
  bearerKey req = apiKey.
Proof.
  intros Hscheme Hne Hwhite Htrim Hkey Hline Hheader.
  unfold bearerKey. rewrite Hheader. unfold default. cbn [from_option id].
  destruct scheme as [|c1 [|c2 [|c3 [|c4 [|c5 [|c6 [|c7 more]]]]]]];
    try discriminate Hscheme.
  injection Hscheme as H1 H2 H3 H4 H5 H6.
  assert (Hc1 : Js.isWhiteSpace c1 = false).
  { destruct (Js.isWhiteSpace c1) eqn:E; [|reflexivity].
    rewrite (lowerChar_white _ E) in H1. subst c1. discriminate E. }
  pose proof (TrimFacts.trimmed_head _ Htrim) as Hhead.
  pose proof (TrimFacts.trimmed_trimEnd _ Htrim) as Hend.
  assert (Htext : Js.trim (String c1 (String c2 (String c3 (String c4 (String c5
                     (String c6 EmptyString))))) ++ white ++ apiKey)
                  = String c1 (String c2 (String c3 (String c4 (String c5
                      (String c6 (white ++ apiKey))))))).
  { unfold Js.trim.
    change (String c1 (String c2 (String c3 (String c4 (String c5
              (String c6 EmptyString))))) ++ white ++ apiKey)
      with (String c1 (String c2 (String c3 (String c4 (String c5
              (String c6 (white ++ apiKey))))))).
    rewrite (JsFacts.trimStart_nonwhite _ _ Hc1).
    change (String c1 (String c2 (String c3 (String c4 (String c5
              (String c6 (white ++ apiKey)))))))
      with ((String c1 (String c2 (String c3 (String c4 (String c5
               (String c6 white)))))) ++ apiKey).
    apply TrimFacts.trimEnd_app; assumption. }
  rewrite Htext. unfold matchBearer.
  cbn [Js.toLowerCase Js.map]. rewrite H1, H2, H3, H4, H5, H6.
  cbn [Js.startsWith Js.drop].
  change (Ascii.eqb "b" "b") with true. change (Ascii.eqb "e" "e") with true.
  change (Ascii.eqb "a" "a") with true. change (Ascii.eqb "r" "r") with true.
  cbn [andb].
  rewrite (spanWhite_app _ _ Hwhite) by (destruct Hhead as [->|H]; [discriminate Hkey | right; exact H]).
  cbn [fst snd]. rewrite Hne. unfold nonEmpty. rewrite Hkey, Hline. cbn [negb from_option id].
  exact Htrim.
Qed.

(** X12.  The bearer key is read from the [Authorization] header whatever
    the case of the scheme and however much white space follows it: for a
    scheme that is [bearer] up to case, a non-empty run of white space and a
    non-empty trimmed key without line terminators, the key is what the
    resolver hashes.  A header that does not start with the scheme presents
    no key, and the request resolves to nobody by this channel. *)
Theorem bearer_header_forms
    (rt : Runtime) (db : Database) (clock : DateTime) (req : Request) :
  (forall scheme white apiKey,
      Js.toLowerCase scheme = "bearer" ->
      Js.isEmpty white = false ->
      Js.allChars Js.isWhiteSpace white = true ->
      Js.trim apiKey = apiKey ->
      Js.isEmpty apiKey = false ->
      hasLineTerminator apiKey = false ->
      headers req !! "authorization" = Some (scheme ++ white ++ apiKey) ->
      bearerKey req = apiKey)
  /\ (Js.startsWith "bearer"
        (Js.toLowerCase (Js.trim (default "" (headers req !! "authorization")))) = false ->
      bearerKey req = EmptyString /\ resolveApiKeyUser rt db clock req = None).
Proof.
  split.
  - intros scheme white apiKey. apply bearerKey_header.
  - intros Hscheme.
    assert (Hno : bearerKey req = EmptyString).
    { unfold bearerKey, matchBearer. rewrite Hscheme. reflexivity. }
    split; [exact Hno|].
    rewrite resolveApiKeyUser_unfold, Hno. reflexivity.
Qed.

Lemma bearer_header_forms_witness :
  bearerKey (Toy.request "GET" "/api/documents" [("authorization", "BEARER   scanner-key")])
  = "scanner-key".
Proof.
  apply (proj1 (bearer_header_forms Toy.rt toyDbKeys toyClock
                  (Toy.request "GET" "/api/documents"
                     [("authorization", "BEARER   scanner-key")]))
           "BEARER" "   " "scanner-key"); reflexivity.
Defined.

(** ** Account administration *)

Section TableFacts.

Context {A : Type}.

Lemma existsb_find (f : A -> bool) l :
  existsb f l = match List.find f l with Some _ => true | None => false end.
Proof.
  induction l as [|x l IH]; [reflexivity|]. cbn [existsb List.find].
  destruct (f x); [reflexivity | exact IH].
Qed.

Lemma find_app (f : A -> bool) l1 l2 :
  List.find f (l1 ++ l2)%list
  = match List.find f l1 with Some r => Some r | None => List.find f l2 end.
Proof.
  induction l1 as [|x l1 IH]; [reflexivity|].
  change ((x :: l1) ++ l2)%list with (x :: (l1 ++ l2))%list. cbn [List.find].
  destruct (f x); [reflexivity | exact IH].
Qed.

Lemma find_filter (f g : A -> bool) l :
  (forall r, f r = true -> g r = true) ->
  List.find f (List.filter g l) = List.find f l.
Proof.
  intros Hfg. induction l as [|x l IH]; [reflexivity|]. cbn [List.filter List.find].
  destruct (f x) eqn:Hf.
  - rewrite (Hfg _ Hf). cbn [List.find]. rewrite Hf. reflexivity.
  - destruct (g x); [cbn [List.find]; rewrite Hf|]; exact IH.
Qed.

Lemma length_filter_find (f : A -> bool) l :
  (length (List.filter f l) =? 0)%nat
  = match List.find f l with Some _ => false | None => true end.
Proof.
  induction l as [|x l IH]; [reflexivity|]. cbn [List.filter List.find].
  destruct (f x); [reflexivity | exact IH].
Qed.

End TableFacts.

Lemma bit_toBool b : toBool (sqlInt (bit b)) = b.
Proof. destruct b; reflexivity. Qed.

Lemma isEmpty_length s : (1 <= String.length s)%nat -> Js.isEmpty s = false.
Proof. destruct s; cbn; [lia | reflexivity]. Qed.

Lemma nonEmpty_isEmpty s : nonEmpty s = negb (Js.isEmpty s).
Proof. reflexivity. Qed.

(** The row that [UPDATE Users ... WHERE UserName = current] leaves under the
    new name, when the statement does not violate the primary key. *)
Lemma find_updated current userName (set : Users.row -> Users.row) l old :
  (forall r, Users.UserName (set r) = userName) ->
  List.find (userNamed current) l = Some old ->
  userName = current \/ existsb (userNamed userName) l = false ->
  List.find (userNamed userName)
    (List.map (fun r => if userNamed current r then set r else r) l)
  = Some (set old).
Proof.
  intros Hset. induction l as [|r l IH]; [discriminate|].
  cbn [List.find List.map existsb]. intros Hold Hfree.
  destruct (userNamed current r) eqn:Hr.
  - injection Hold as <-. unfold userNamed at 1. rewrite Hset, String.eqb_refl. reflexivity.
  - assert (Hother : userNamed userName r = false).
    { destruct Hfree as [->|Hfree]; [exact Hr|].
      apply orb_false_iff in Hfree as [H _]. exact H. }
    rewrite Hother. apply IH; [exact Hold|].
    destruct Hfree as [E|Hfree]; [left; exact E|].
    right. apply orb_false_iff in Hfree as [_ H]. exact H.
Qed.

(** X13.  Creating an account.  For a request with a user name and a
    password of at least four characters: when the name is taken the answer
    is 400 and the database is unchanged; otherwise the answer is 201, the
    other accounts and the API keys are as before, and a login with the new
    name and password succeeds exactly when the account was created
    enabled (it is answered 401 otherwise). *)
Theorem created_user_can_login
    (rt : Runtime) (sessionSecretKey iv : Buffer) (https : bool) (uuid : string)
    (req : Request) (db : Database) (userName password : string) :
  let enabled := toBool (Val.get (body req) "enabled") in
  let isAdmin := toBool (Val.get (body req) "isAdmin") in
  bodyText rt req "userName" = Ret userName ->
  bodyText rt req "password" = Ret password ->
  Js.isEmpty userName = false ->
  (4 <= String.length password)%nat ->
  match selectUser db userName with
  | Some _ =>
      answer db (createUser rt uuid req db)
      = (reply 400 (errorBody "duplicate key or unique constraint violation"), db)
  | None =>
      exists db',
        answer db (createUser rt uuid req db)
        = (reply 201 (JObject [("userName", JString userName); ("enabled", JBool enabled);
                               ("isAdmin", JBool isAdmin)]), db')
        /\ (forall name, name <> userName -> selectUser db' name = selectUser db name)
        /\ tblApiKeys db' = tblApiKeys db
        /\ forall now login,
             bodyText rt login "username" = Ret userName ->
             bodyText rt login "password" = Ret password ->
             status (respond (authLogin rt sessionSecretKey https db' now iv login))
             = if enabled then 200 else 401
  end.
Proof.
  intros enabled isAdmin HuserName Hpassword Hname Hlong.
  unfold createUser. rewrite HuserName, Hpassword. cbn [attempt mbind Attempt_bind].
  fold enabled isAdmin.
  rewrite Hname.
  destruct (Nat.ltb_spec (String.length password) 4) as [Hshort|_]; [lia|].
  unfold insertUser. cbn [Users.UserName].
  rewrite existsb_find. fold (selectUser db userName).
  change (List.find (userNamed userName) (tblUsers db)) with (selectUser db userName).
  destruct (selectUser db userName) as [taken|] eqn:Hfree; [reflexivity|].
  eexists. split; [reflexivity|].
  split; [|split; [reflexivity|]].
  - intros name Hother. unfold selectUser, withUsers. cbn [tblUsers].
    rewrite find_app. cbn [List.find Users.UserName].
    destruct (String.eqb_spec userName name) as [E|_]; [congruence|].
    destruct (List.find _ (tblUsers db)); reflexivity.
  - intros now login Hu Hp. unfold authLogin. rewrite Hu, Hp. cbn [mbind exn_bind respond].
    rewrite Hname, (isEmpty_length password) by lia. cbn [orb].
    unfold selectUser, withUsers. cbn [tblUsers]. rewrite find_app.
    unfold selectUser in Hfree. rewrite Hfree.
    cbn [List.find Users.UserName]. rewrite String.eqb_refl.
    cbn [Users.Enabled Users.PasswordHash Users.PasswordSalt].
    rewrite bit_toBool.
    destruct enabled; cbn [negb]; [|reflexivity].
    rewrite String.eqb_refl. reflexivity.
Qed.

Lemma created_user_can_login_witness :
  exists db',
    answer Toy.db (createUser Toy.rt "123e4567-e89b-12d3-a456-426614174000" toyNewUser Toy.db)
    = (reply 201 (JObject [("userName", JString "sato"); ("enabled", JBool true);
                           ("isAdmin", JBool false)]), db')
    /\ (forall name, name <> "sato" -> selectUser db' name = selectUser Toy.db name)
    /\ tblApiKeys db' = tblApiKeys Toy.db
    /\ forall now login,
         bodyText Toy.rt login "username" = Ret "sato" ->
         bodyText Toy.rt login "password" = Ret "pw12" ->
         status (respond (authLogin Toy.rt Toy.key false db' now Toy.iv login)) = 200.
Proof.
  apply (created_user_can_login Toy.rt Toy.key Toy.iv false
           "123e4567-e89b-12d3-a456-426614174000" toyNewUser Toy.db "sato" "pw12").
  - reflexivity.
  - reflexivity.
  - reflexivity.
  - vm_compute. lia.
Defined.

(** X14.  Deleting or renaming an account ends its sessions at once.  After
    [DELETE /api/admin/users/:userName], and after a [PUT] that gives the
    account another name, no request resolves from its session cookie to a
    Principal with the old name, whatever token it carries; the delete is
    answered 200 exactly when the account existed, and the other accounts are
    as before. *)
Theorem removed_user_has_no_session (rt : Runtime) (sessionSecretKey : Buffer) :
  (forall param userName db response db',
      decodeURIComponent rt param = Ret userName ->
      deleteUser rt param db = Done (response, db') ->
      (forall now req p,
          resolveSessionUser rt sessionSecretKey db' now req = Ret (Some p) ->
          username p <> userName)
      /\ (status response = 200 <-> selectUser db userName <> None)
      /\ (forall name, name <> userName -> selectUser db' name = selectUser db name))
  /\ (forall uuid param current req db response db',
        decodeURIComponent rt param = Ret current ->
        updateUser rt uuid param req db = Done (response, db') ->
        status response = 200 ->
        bodyText rt req "userName" <> Ret current ->
        forall now next p,
          resolveSessionUser rt sessionSecretKey db' now next = Ret (Some p) ->
          username p <> current).
Proof.
  split.
  - intros param userName db response db' Hparam. unfold deleteUser. rewrite Hparam.
    unfold deleteUsers. cbn [fst snd]. rewrite length_filter_find.
    change (List.find (userNamed userName) (tblUsers db)) with (selectUser db userName).
    intros Hdone.
    assert (Hdb : db' = withUsers db
                          (List.filter (fun r => negb (userNamed userName r)) (tblUsers db))).
    { destruct (selectUser db userName); injection Hdone as _ <-; reflexivity. }
    split; [|split].
    + intros now req p Hp.
      apply resolveSessionUser_Some in Hp
        as (_ & _ & _ & row & _ & _ & _ & _ & _ & Hin & Hrow & _).
      rewrite Hdb in Hin. cbn [withUsers tblUsers] in Hin.
      apply filter_In in Hin as [_ Hkept].
      apply negb_true_iff, String.eqb_neq in Hkept. congruence.
    + destruct (selectUser db userName); injection Hdone as <- _; cbn [status reply];
        split; congruence.
    + intros name Hother. rewrite Hdb. unfold selectUser, withUsers. cbn [tblUsers].
      apply find_filter. intros r Hr. apply String.eqb_eq in Hr.
      apply negb_true_iff, String.eqb_neq. congruence.
  - intros uuid param current req db response db' Hparam. unfold updateUser. rewrite Hparam.
    cbn [attempt mbind Attempt_bind].
    destruct (bodyText rt req "userName") as [userName|];
      cbn [attempt mbind Attempt_bind]; [|discriminate].
    destruct (bodyText rt req "password") as [password|];
      cbn [attempt mbind Attempt_bind]; [|discriminate].
    destruct (Js.isEmpty userName); [intros [= <- _]; discriminate|].
    destruct (Val.get (body req) "enabled") as [| |enabled| | | |];
      try (intros [= <- _]; discriminate).
    destruct (Val.get (body req) "isAdmin") as [| |isAdmin| | | |];
      try (intros [= <- _]; discriminate).
    destruct (selectUser db current) as [old|]; [|intros [= <- _]; discriminate].
    intros Hdone Hok Hrename now next p Hp.
    apply resolveSessionUser_Some in Hp
      as (_ & _ & _ & row & _ & _ & _ & _ & _ & Hin & Hrow & _).
    rewrite <- Hrow. clear Hrow p.
    assert (Hrows : exists set,
               (forall r, Users.UserName (set r) = userName)
               /\ tblUsers db'
                  = List.map (fun r => if userNamed current r then set r else r) (tblUsers db)).
    { unfold updateUsers in Hdone.
      destruct (nonEmpty password).
      - destruct (String.length password <? 4)%nat;
          [injection Hdone as <- _; discriminate Hok|].
        destruct (_ && _); [discriminate Hdone|].
        injection Hdone as _ <-. eexists. split; [|reflexivity]. reflexivity.
      - destruct (_ && _); [discriminate Hdone|].
        injection Hdone as _ <-. eexists. split; [|reflexivity]. reflexivity. }
    destruct Hrows as (set & Hset & Hrows). rewrite Hrows in Hin.
    apply in_map_iff in Hin as (r & <- & _).
    destruct (userNamed current r) eqn:Hr.
    + rewrite Hset. intros ->. apply Hrename. reflexivity.
    + apply String.eqb_neq. exact Hr.
Qed.

Lemma removed_user_has_no_session_witness :
  (forall now req p,
      resolveSessionUser Toy.rt Toy.key
        (snd (answer Toy.db (deleteUser Toy.rt "tan%61ka" Toy.db))) now req = Ret (Some p) ->
      username p <> "tanaka")
  /\ (status (fst (answer Toy.db (deleteUser Toy.rt "tan%61ka" Toy.db))) = 200
      <-> selectUser Toy.db "tanaka" <> None)
  /\ (forall name,
        name <> "tanaka" ->
        selectUser (snd (answer Toy.db (deleteUser Toy.rt "tan%61ka" Toy.db))) name
        = selectUser Toy.db name).
Proof.
  apply (proj1 (removed_user_has_no_session Toy.rt Toy.key) "tan%61ka" "tanaka" Toy.db);
    reflexivity.
Defined.

Lemma update_free db current userName old :
  selectUser db current = Some old ->
  existsb (userNamed current) (tblUsers db)
  && negb (String.eqb userName current)
  && existsb (userNamed userName) (tblUsers db) = false ->
  userName = current \/ existsb (userNamed userName) (tblUsers db) = false.
Proof.
  intros Hold H. rewrite existsb_find in H at 1.
  change (List.find (userNamed current) (tblUsers db)) with (selectUser db current) in H.
  rewrite Hold in H. cbn [andb] in H.
  destruct (String.eqb_spec userName current) as [E|_]; [left; exact E|].
  right. exact H.
Qed.

(** X15.  Changing an account.  After a [PUT /api/admin/users/:userName]
    answered 200, the account is found under the name of the request with the
    flags of the request; with a password in the request it has a fresh salt
    and the hash of that password, so a login with the new name and password
    succeeds exactly when the account is enabled; without one it keeps the
    salt and hash it had. *)
Theorem updated_user_row
    (rt : Runtime) (sessionSecretKey iv : Buffer) (https : bool)
    (uuid param current : string) (req : Request) (db : Database)
    (response : Response) (db' : Database) :
  decodeURIComponent rt param = Ret current ->
  updateUser rt uuid param req db = Done (response, db') ->
  status response = 200 ->
  exists userName password old enabled isAdmin,
    bodyText rt req "userName" = Ret userName
    /\ bodyText rt req "password" = Ret password
    /\ selectUser db current = Some old
    /\ Val.get (body req) "enabled" = JBool enabled
    /\ Val.get (body req) "isAdmin" = JBool isAdmin
    /\ selectUser db' userName
       = Some {| Users.UserName := userName;
                 Users.PasswordSalt :=
                   if nonEmpty password then uuidPrefix 16 uuid else Users.PasswordSalt old;
                 Users.PasswordHash :=
                   if nonEmpty password
                   then Some (hashPassword rt password (uuidPrefix 16 uuid))
                   else Users.PasswordHash old;
                 Users.Enabled := bit enabled;
                 Users.IsAdmin := bit isAdmin |}
    /\ (nonEmpty password = true ->
        forall now login,
          bodyText rt login "username" = Ret userName ->
          bodyText rt login "password" = Ret password ->
          status (respond (authLogin rt sessionSecretKey https db' now iv login))
          = if enabled then 200 else 401).
Proof.
  intros Hparam. unfold updateUser. rewrite Hparam. cbn [attempt mbind Attempt_bind].
  destruct (bodyText rt req "userName") as [userName|];
    cbn [attempt mbind Attempt_bind]; [|discriminate].
  destruct (bodyText rt req "password") as [password|];
    cbn [attempt mbind Attempt_bind]; [|discriminate].
  destruct (Js.isEmpty userName) eqn:Hname; [intros [= <- _]; discriminate|].
  destruct (Val.get (body req) "enabled") as [| |enabled| | | |];
    try (intros [= <- _]; discriminate).
  destruct (Val.get (body req) "isAdmin") as [| |isAdmin| | | |];
    try (intros [= <- _]; discriminate).
  destruct (selectUser db current) as [old|] eqn:Hold; [|intros [= <- _]; discriminate].
  intros Hdone Hok. exists userName, password, old, enabled, isAdmin.
  split; [reflexivity|]. split; [reflexivity|].
  split; [reflexivity|]. split; [reflexivity|]. split; [reflexivity|].
  unfold updateUsers in Hdone.
  destruct (nonEmpty password) eqn:Hpw.
  - destruct (Nat.ltb_spec (String.length password) 4) as [|Hlong];
      [injection Hdone as <- _; discriminate Hok|].
    destruct (_ && _) eqn:Hcheck; [discriminate Hdone|].
    injection Hdone as _ <-.
    assert (Hrow : selectUser (withUsers db
                     (List.map (fun r => if userNamed current r
                                         then {| Users.UserName := userName;
                                                 Users.PasswordSalt := uuidPrefix 16 uuid;
                                                 Users.PasswordHash :=
                                                   Some (hashPassword rt password
                                                           (uuidPrefix 16 uuid));
                                                 Users.Enabled := bit enabled;
                                                 Users.IsAdmin := bit isAdmin |}
                                         else r) (tblUsers db))) userName
                   = Some {| Users.UserName := userName;
                             Users.PasswordSalt := uuidPrefix 16 uuid;
                             Users.PasswordHash :=
                               Some (hashPassword rt password (uuidPrefix 16 uuid));
                             Users.Enabled := bit enabled;
                             Users.IsAdmin := bit isAdmin |}).
    { unfold selectUser, withUsers. cbn [tblUsers].
      apply (find_updated current userName
               (fun _ => {| Users.UserName := userName;
                            Users.PasswordSalt := uuidPrefix 16 uuid;
                            Users.PasswordHash :=
                              Some (hashPassword rt password (uuidPrefix 16 uuid));
                            Users.Enabled := bit enabled;
                            Users.IsAdmin := bit isAdmin |}) _ old);
        [reflexivity | exact Hold | apply (update_free _ _ _ _ Hold Hcheck)]. }
    split; [exact Hrow|].
    intros _ now login Hu Hp. unfold authLogin. rewrite Hu, Hp. cbn [mbind exn_bind respond].
    rewrite Hname, (isEmpty_length password) by lia. cbn [orb].
    rewrite Hrow. cbn [Users.Enabled Users.PasswordHash Users.PasswordSalt].
    rewrite bit_toBool.
    destruct enabled; cbn [negb]; [|reflexivity].
    rewrite String.eqb_refl. reflexivity.
  - destruct (_ && _) eqn:Hcheck; [discriminate Hdone|].
    injection Hdone as _ <-.
    split; [|discriminate].
    unfold selectUser, withUsers. cbn [tblUsers].
    apply (find_updated current userName
             (fun r => {| Users.UserName := userName;
                          Users.PasswordSalt := Users.PasswordSalt r;
                          Users.PasswordHash := Users.PasswordHash r;
                          Users.Enabled := bit enabled;
                          Users.IsAdmin := bit isAdmin |}) _ old);
      [reflexivity | exact Hold | apply (update_free _ _ _ _ Hold Hcheck)].
Qed.

Lemma updated_user_row_witness :
  status (respond (authLogin Toy.rt Toy.key false
                     (snd (answer Toy.db
                             (updateUser Toy.rt "123e4567-e89b-12d3-a456-426614174000" "tanaka"
                                toyRename Toy.db)))
                     1000 Toy.iv toyRenamedLogin))
  = 200.
Proof.
  destruct (updated_user_row Toy.rt Toy.key Toy.iv false
              "123e4567-e89b-12d3-a456-426614174000" "tanaka" "tanaka" toyRename Toy.db
              (fst (answer Toy.db
                      (updateUser Toy.rt "123e4567-e89b-12d3-a456-426614174000" "tanaka"
                         toyRename Toy.db)))
              (snd (answer Toy.db
                      (updateUser Toy.rt "123e4567-e89b-12d3-a456-426614174000" "tanaka"
                         toyRename Toy.db)))
              eq_refl eq_refl eq_refl)
    as (userName & password & old & enabled & isAdmin
        & HuserName & Hpassword & _ & Henabled & _ & _ & Hlogin).
  injection HuserName as <-. injection Hpassword as <-. injection Henabled as <-.
  apply (Hlogin eq_refl 1000 toyRenamedLogin); vm_compute; reflexivity.
Defined.

(** ** API key administration *)

Lemma textOrNull_trimmed rt raw text :
  textOrNull rt raw = Ret (Some text) -> Js.trim text = text /\ Js.isEmpty text = false.
Proof.
  assert (Hor : forall raw', orNull (Js.trim raw') = Some text ->
                             Js.trim text = text /\ Js.isEmpty text = false).
  { intros raw'. unfold orNull.
    destruct (Js.isEmpty (Js.trim raw')) eqn:E; [discriminate|]. intros [= <-].
    split; [apply TrimFacts.trim_idem | exact E]. }
  unfold textOrNull.
  destruct raw; try discriminate;
    (destruct (ToString rt _) as [converted|]; cbn [mbind exn_bind]; [|discriminate];
     intros [= H]; apply (Hor _ H)).
Qed.

(** Whether a key with the expiry [expiresAt] has expired at [clock], as
    [resolveApiKeyUser] decides it. *)
Lemma expiry_check rt raw expiresAt clock :
  textOrNull rt raw = Ret expiresAt ->
  nonEmpty (Js.trim (default "" expiresAt))
  && Js.leb (Js.trim (default "" expiresAt)) (asIsoNow clock)
  = match expiresAt with
    | Some text => Js.leb text (asIsoNow clock)
    | None => false
    end.
Proof.
  destruct expiresAt as [text|]; [|reflexivity]. intros E.
  apply textOrNull_trimmed in E as [Htrim Hne].
  unfold default. cbn [from_option id]. rewrite Htrim. unfold nonEmpty. rewrite Hne. reflexivity.
Qed.

Lemma bit_zero b : (bit b =? 0) = negb b.
Proof. destruct b; reflexivity. Qed.

(** X16.  Creating an API key.  After a [POST /api/admin/apikeys] answered
    201, a request that presents the key of the request as
    [Authorization: Bearer <key>] resolves to [apikey:<keyName>] with role
    [user] exactly when the key was created enabled and its expiry, if it has
    one, is not yet reached as text against [asIsoNow()].  That is when no
    older key has the same text: when one has, the new row never takes
    effect, and the request resolves as it did before. *)
Theorem created_key_resolves
    (rt : Runtime) (uuid : string) (clock : DateTime) (req : Request) (db : Database)
    (response : Response) (db' : Database) :
  createApiKey rt uuid clock req db = Done (response, db') ->
  status response = 201 ->
  exists keyName apiKey expiresAt,
    bodyText rt req "keyName" = Ret keyName
    /\ bodyText rt req "key" = Ret apiKey
    /\ textOrNull rt (Val.get (body req) "expiresAt") = Ret expiresAt
    /\ (hasLineTerminator apiKey = false ->
        forall later next,
          headers next !! "authorization" = Some ("Bearer " ++ apiKey) ->
          resolveApiKeyUser rt db' later next
          = match selectApiKey db (hashApiKey rt apiKey) with
            | Some _ => resolveApiKeyUser rt db later next
            | None =>
                if toBool (Val.get (body req) "enabled")
                   && negb match expiresAt with
                           | Some text => Js.leb text (asIsoNow later)
                           | None => false
                           end
                then Some {| username := "apikey:" ++ keyName; role := user |}
                else None
            end).
Proof.
  unfold createApiKey.
  destruct (bodyText rt req "keyName") as [keyName|];
    cbn [attempt mbind Attempt_bind]; [|discriminate].
  destruct (bodyText rt req "key") as [apiKey|] eqn:Htext;
    cbn [attempt mbind Attempt_bind]; [|discriminate].
  destruct (bodyText rt req "id") as [idText|];
    cbn [attempt mbind Attempt_bind]; [|discriminate].
  destruct (Js.isEmpty keyName); [intros [= <- _]; discriminate|].
  destruct (Js.isEmpty apiKey) eqn:Hkey; [intros [= <- _]; discriminate|].
  destruct (textOrNull rt (Val.get (body req) "expiresAt")) as [expiresAt|] eqn:Hexpiry;
    cbn [attempt mbind Attempt_bind]; [|discriminate].
  unfold insertApiKey. cbn [ApiKeys.ApiKeyID ApiKeys.KeyName].
  destruct (existsb _ (tblApiKeys db)); [discriminate|].
  destruct (existsb _ (tblApiKeys db)); [discriminate|].
  intros [= _ <-] _. exists keyName, apiKey, expiresAt.
  split; [reflexivity|]. split; [reflexivity|]. split; [reflexivity|].
  intros Hline later next Hheader.
  assert (Hbearer : bearerKey next = apiKey).
  { apply (bearerKey_header next "Bearer" " " apiKey); try reflexivity; try assumption.
    apply (bodyText_trimmed _ _ _ _ Htext). }
  rewrite !resolveApiKeyUser_unfold, Hbearer, Hkey.
  unfold selectApiKey, withApiKeys. cbn [tblApiKeys]. rewrite find_app.
  destruct (List.find _ (tblApiKeys db)) as [older|]; [reflexivity|].
  cbn [List.find ApiKeys.KeyHash]. rewrite String.eqb_refl.
  cbn [ApiKeys.Enabled ApiKeys.ExpiresAt ApiKeys.KeyName].
  rewrite bit_zero, (expiry_check _ _ _ _ Hexpiry).
  destruct (toBool (Val.get (body req) "enabled")); cbn [negb andb]; [|reflexivity].
  destruct expiresAt as [text|]; [|reflexivity].
  destruct (Js.leb text (asIsoNow later)); reflexivity.
Qed.

Lemma created_key_resolves_witness :
  resolveApiKeyUser Toy.rt toyDbNewKey toyClock
    (Toy.request "GET" "/api/documents" [("authorization", "Bearer fax-key")])
  = Some {| username := "apikey:fax"; role := user |}.
Proof.
  destruct (created_key_resolves Toy.rt "123e4567-e89b-12d3-a456-426614174000" toyClock
              toyNewKey toyDbKeys toyKeyCreated toyDbNewKey)
    as (keyName & apiKey & expiresAt & HkeyName & HapiKey & Hexpiry & Hresolve);
    [vm_compute; reflexivity | vm_compute; reflexivity |].
  vm_compute in HkeyName, HapiKey, Hexpiry.
  injection HkeyName as <-. injection HapiKey as <-. injection Hexpiry as <-.
  etransitivity.
  - apply Hresolve; vm_compute; reflexivity.
  - vm_compute; reflexivity.
Defined.

Lemma find_map_key (test : ApiKeys.row -> bool) (f : ApiKeys.row -> ApiKeys.row) l :
  (forall r, test (f r) = test r) ->
  List.find test (List.map f l) = f <$> List.find test l.
Proof.
  intros Hf. induction l as [|r l IH]; [reflexivity|].
  cbn [List.map List.find]. rewrite Hf. destruct (test r); [reflexivity | exact IH].
Qed.

(** X17.  Changing an API key.  A [PUT /api/admin/apikeys/:id] never touches
    the accounts, nor the id, the hash and the creation time of any key: the
    key text cannot be rotated through it.  The row found for a hash is the
    one found before, with name, expiry and flag of the request when it is
    the row of that id, so the change takes effect on the next request and
    the other keys resolve as before.  The only exception other than an
    error of the database that the handler can raise is the one of a
    conversion, [String] of a name or an expiry that is an object with a
    [toString] of its own; the read of [CreatedAt] for the answer never
    fails. *)
Theorem updateApiKey_keeps_secret
    (rt : Runtime) (id : string) (req : Request) (db : Database) :
  (forall e,
      updateApiKey rt id req db = Raise (Uncaught e) ->
      bodyText rt req "keyName" = Throw e
      \/ textOrNull rt (Val.get (body req) "expiresAt") = Throw e)
  /\ forall response db',
       updateApiKey rt id req db = Done (response, db') ->
       tblUsers db' = tblUsers db
       /\ List.map ApiKeys.ApiKeyID (tblApiKeys db') = List.map ApiKeys.ApiKeyID (tblApiKeys db)
       /\ List.map ApiKeys.KeyHash (tblApiKeys db') = List.map ApiKeys.KeyHash (tblApiKeys db)
       /\ List.map ApiKeys.CreatedAt (tblApiKeys db')
          = List.map ApiKeys.CreatedAt (tblApiKeys db)
       /\ (status response = 200 ->
           exists keyName expiresAt,
             bodyText rt req "keyName" = Ret keyName
             /\ textOrNull rt (Val.get (body req) "expiresAt") = Ret expiresAt
             /\ forall keyHash,
                  selectApiKey db' keyHash
                  = (fun r =>
                       if keyWithId id r then
                         {| ApiKeys.ApiKeyID := ApiKeys.ApiKeyID r;
                            ApiKeys.KeyName := keyName;
                            ApiKeys.KeyHash := ApiKeys.KeyHash r;
                            ApiKeys.CreatedAt := ApiKeys.CreatedAt r;
                            ApiKeys.ExpiresAt := expiresAt;
                            ApiKeys.Enabled :=
                              bit (toBool (Val.get (body req) "enabled")) |}
                       else r) <$> selectApiKey db keyHash).
Proof.
  unfold updateApiKey.
  destruct (bodyText rt req "keyName") as [keyName|e1]; cbn [attempt mbind Attempt_bind].
  2:{ split; [intros e [= <-]; left; reflexivity | discriminate]. }
  destruct (Js.isEmpty keyName).
  { split; [discriminate|]. intros response db' [= <- <-].
    repeat (split; [reflexivity|]). discriminate. }
  destruct (Val.get (body req) "enabled") as [| |enabled| | | |].
  1,2,4,5,6,7:
    (split; [discriminate|]; intros response db' [= <- <-];
     repeat (split; [reflexivity|]); discriminate).
  destruct (textOrNull rt (Val.get (body req) "expiresAt")) as [expiresAt|e2];
    cbn [attempt mbind Attempt_bind].
  2:{ split; [intros e [= <-]; right; reflexivity | discriminate]. }
  unfold updateApiKeys.
  destruct (_ && _); [split; [discriminate|]; discriminate|].
  set (f := fun r : ApiKeys.row =>
              if keyWithId id r then
                {| ApiKeys.ApiKeyID := ApiKeys.ApiKeyID r;
                   ApiKeys.KeyName := keyName;
                   ApiKeys.KeyHash := ApiKeys.KeyHash r;
                   ApiKeys.CreatedAt := ApiKeys.CreatedAt r;
                   ApiKeys.ExpiresAt := expiresAt;
                   ApiKeys.Enabled := bit enabled |}
              else r).
  assert (Hid : forall r, ApiKeys.ApiKeyID (f r) = ApiKeys.ApiKeyID r)
    by (intros r; unfold f; destruct (keyWithId id r); reflexivity).
  assert (Hhash : forall r, ApiKeys.KeyHash (f r) = ApiKeys.KeyHash r)
    by (intros r; unfold f; destruct (keyWithId id r); reflexivity).
  assert (Hcreated : forall r, ApiKeys.CreatedAt (f r) = ApiKeys.CreatedAt r)
    by (intros r; unfold f; destruct (keyWithId id r); reflexivity).
  assert (Hmap : forall (B : Type) (g : ApiKeys.row -> B),
             (forall r, g (f r) = g r) ->
             List.map g (List.map f (tblApiKeys db)) = List.map g (tblApiKeys db)).
  { intros B g Hg. rewrite List.map_map. apply List.map_ext. exact Hg. }
  assert (Hfound : List.find (keyWithId id) (tblApiKeys (withApiKeys db (List.map f (tblApiKeys db))))
                   = f <$> List.find (keyWithId id) (tblApiKeys db)).
  { cbn [withApiKeys tblApiKeys]. apply find_map_key.
    intros r. unfold keyWithId. rewrite Hid. reflexivity. }
  cbn [mbind Attempt_bind].
  rewrite length_filter_find, Hfound.
  destruct (List.find (keyWithId id) (tblApiKeys db)) as [row|]; cbn [fmap option_fmap option_map].
  - split; [discriminate|]. intros response db' [= <- <-].
    cbn [withApiKeys tblUsers tblApiKeys].
    split; [reflexivity|].
    split; [apply Hmap, Hid|]. split; [apply Hmap, Hhash|]. split; [apply Hmap, Hcreated|].
    intros _. exists keyName, expiresAt. split; [reflexivity|]. split; [reflexivity|].
    intros keyHash. unfold selectApiKey. cbn [tblApiKeys].
    apply find_map_key. intros r. destruct (keyWithId id r); reflexivity.
  - split; [discriminate|]. intros response db' [= <- <-].
    cbn [withApiKeys tblUsers tblApiKeys].
    split; [reflexivity|].
    split; [apply Hmap, Hid|]. split; [apply Hmap, Hhash|]. split; [apply Hmap, Hcreated|].
    discriminate.
Qed.

Lemma updateApiKey_keeps_secret_witness :
  List.map ApiKeys.KeyHash
    (tblApiKeys (snd (answer toyDbKeys (updateApiKey Toy.rt "k-1" toyDisableKey toyDbKeys))))
  = List.map ApiKeys.KeyHash (tblApiKeys toyDbKeys)
  /\ (bodyText Toy.rt toyBadKeyName "keyName" = Throw TypeError
      \/ textOrNull Toy.rt (Val.get (body toyBadKeyName) "expiresAt") = Throw TypeError).
Proof.
  split.
  - apply (proj2 (updateApiKey_keeps_secret Toy.rt "k-1" toyDisableKey toyDbKeys)
             (fst (answer toyDbKeys (updateApiKey Toy.rt "k-1" toyDisableKey toyDbKeys)))).
    vm_compute. reflexivity.
  - apply (proj1 (updateApiKey_keeps_secret Toy.rt "k-1" toyBadKeyName toyDbKeys)).
    vm_compute. reflexivity.
Defined.

(** ** Routing *)

Lemma runLayers_rejected layers authUser req r :
  snd (runLayers layers authUser req) = Rejected r ->
  Exists (layerRejects authUser req r) layers.
Proof.
  induction layers as [|l layers IH]; cbn [runLayers]; [discriminate|].
  destruct l as [name mount middleware | verb pattern h].
  - destruct (mountedPath mount (path req)) as [reqPath|] eqn:Hmount.
    + destruct (middleware authUser reqPath) as [|r'] eqn:Hm; cbn [snd].
      * intros H. right. apply IH, H.
      * intros [= <-]. left. exists reqPath. split; assumption.
    + intros H. right. apply IH, H.
  - destruct (handlesMethod verb req) eqn:Hverb; cbn [andb].
    + destruct (matchRoute pattern (path req)) eqn:Hroute.
      * destruct (inlineGuard h authUser) as [|r'] eqn:Hguard; cbn [snd]; [discriminate|].
        intros [= <-]. left. repeat split; assumption.
      * intros H. right. apply IH, H.
    + intros H. right. apply IH, H.
Qed.

(** A route for a verb other than [GET] handles the requests of that verb
    only. *)
Lemma handlesMethod_other verb req :
  verb <> "GET" -> handlesMethod verb req = true -> method req = verb.
Proof.
  unfold handlesMethod. intros Hverb H.
  destruct (String.eqb (method req) "HEAD"); apply String.eqb_eq in H; congruence.
Qed.

(** An administrator passes every gate and every guard. *)
Lemma runLayers_admin (req : Request) (p : Principal) (r : Response) :
  role p = admin ->
  snd (runLayers app (Some p) req) <> Rejected r.
Proof.
  intros Hrole H. apply runLayers_rejected in H. unfold app in H.
  repeat (apply Exists_cons in H; destruct H as [H|H]);
    try (apply Exists_nil in H; destruct H);
    try (destruct H as (reqPath & _ & H); unfold requireAdmin in H;
         rewrite ?apiGate_resolved, ?Hrole in H; discriminate H);
    destruct H as (_ & _ & H); cbn [inlineGuard requireAuth] in H;
    unfold requireAdmin in H; rewrite ?Hrole in H; discriminate H.
Qed.

(** X18.  No gate and no guard ever rejects an administrator: whatever the
    method and the path, a request that resolved to a Principal with role
    [admin] runs a handler body or matches no route. *)
Theorem admin_never_rejected (req : Request) (p : Principal) (r : Response) :
  role p = admin ->
  snd (runLayers app (Some p) req) <> Rejected r.
Proof. apply runLayers_admin. Qed.

Lemma admin_never_rejected_witness :
  snd (runLayers app (Some {| username := "admin"; role := admin |})
         (Toy.request "DELETE" "/api/admin/users/suzuki" []))
  <> Rejected (reply 403 (errorBody "admin role required")).
Proof.
  apply (admin_never_rejected (Toy.request "DELETE" "/api/admin/users/suzuki" [])
           {| username := "admin"; role := admin |}).
  reflexivity.
Defined.

(** X19.  A request that resolved to a Principal is never answered 401 by a
    gate or a guard, by whichever channel it resolved.  When the Principal
    is not an administrator, the only rejection is 403 "admin role
    required", and it happens only below [/api/admin] and on
    [PATCH /api/documents/:id/doc-class]: everywhere else the handler body
    runs. *)
Theorem user_rejected_only_by_role (req : Request) (p : Principal) (r : Response) :
  snd (runLayers app (Some p) req) = Rejected r ->
  role p = user
  /\ r = reply 403 (errorBody "admin role required")
  /\ ((exists reqPath, mountedPath ["api"; "admin"] (path req) = Some reqPath)
      \/ (method req = "PATCH"
          /\ matchRoute [Lit "api"; Lit "documents"; Param; Lit "doc-class"] (path req)
             = true)).
Proof.
  intros H.
  destruct (role p) eqn:Hrole.
  { exfalso. revert H. apply runLayers_admin. exact Hrole. }
  apply runLayers_rejected in H. unfold app in H.
  repeat (apply Exists_cons in H; destruct H as [H|H]);
    try (apply Exists_nil in H; destruct H).
  all: try (destruct H as (_ & _ & H); cbn [inlineGuard requireAuth] in H; discriminate H).
  - destruct H as (reqPath & _ & H). rewrite apiGate_resolved in H. discriminate H.
  - destruct H as (reqPath & Hmount & H). unfold requireAdmin in H. rewrite Hrole in H.
    injection H as <-. split; [reflexivity|]. split; [reflexivity|]. left. eauto.
  - destruct H as (Hverb & Hroute & H). cbn [inlineGuard] in H. unfold requireAdmin in H.
    rewrite Hrole in H. injection H as <-.
    apply handlesMethod_other in Hverb; [|discriminate].
    split; [reflexivity|]. split; [reflexivity|]. right. split; assumption.
Qed.

Lemma user_rejected_only_by_role_witness :
  role {| username := "tanaka"; role := user |} = user
  /\ reply 403 (errorBody "admin role required") = reply 403 (errorBody "admin role required")
  /\ ((exists reqPath,
          mountedPath ["api"; "admin"]
            (path (Toy.request "DELETE" "/api/admin/users/suzuki" [])) = Some reqPath)
      \/ (method (Toy.request "DELETE" "/api/admin/users/suzuki" []) = "PATCH"
          /\ matchRoute [Lit "api"; Lit "documents"; Param; Lit "doc-class"]
               (path (Toy.request "DELETE" "/api/admin/users/suzuki" [])) = true)).
Proof.
  apply (user_rejected_only_by_role (Toy.request "DELETE" "/api/admin/users/suzuki" [])
           {| username := "tanaka"; role := user |}
           (reply 403 (errorBody "admin role required"))).
  reflexivity.
Defined.

(** *** Paths and their segments *)

Lemma split_sepfree sep s :
  Forall (fun part => Js.allChars (fun c => negb (Ascii.eqb c sep)) part = true)
    (Js.split sep s).
Proof.
  induction s as [|c s IH]; cbn [Js.split]; [repeat constructor|].
  destruct (Ascii.eqb c sep) eqn:Hc.
  - constructor; [reflexivity | exact IH].
  - destruct (Js.split sep s) as [|h t].
    + repeat constructor. cbn [Js.allChars]. rewrite Hc. reflexivity.
    + inversion IH as [|? ? Hh Ht]; subst. constructor; [|exact Ht].
      cbn [Js.allChars]. rewrite Hc, Hh. reflexivity.
Qed.

Lemma split_join sep parts :
  parts <> [] ->
  Forall (fun part => Js.allChars (fun c => negb (Ascii.eqb c sep)) part = true) parts ->
  Js.split sep (Js.join (String sep EmptyString) parts) = parts.
Proof.
  intros Hne Hfree. induction Hfree as [|p rest Hp Hrest IH]; [contradiction|].
  destruct rest as [|q rest].
  - cbn [Js.join]. apply JsFacts.split_nosep, Hp.
  - change (Js.join (String sep EmptyString) (p :: q :: rest))
      with (p ++ String sep EmptyString ++ Js.join (String sep EmptyString) (q :: rest)).
    rewrite JsFacts.app_one, (JsFacts.split_cons _ _ _ Hp), IH by discriminate.
    reflexivity.
Qed.

(** What a path below [/api] is made of. *)
Lemma mounted_api url reqPath :
  mountedPath ["api"] url = Some reqPath ->
  exists first rest,
    Js.split "/"%char url = EmptyString :: first :: rest
    /\ Js.toLowerCase first = "api"
    /\ reqPath = "/" ++ Js.join "/" rest
    /\ (rest <> [] -> Js.split "/"%char (Js.join "/" rest) = rest).
Proof.
  unfold mountedPath.
  pose proof (split_sepfree "/"%char url) as Hfree.
  destruct (Js.split "/"%char url) as [|[|] [|first rest]]; try discriminate.
  cbn [belowMount]. destruct (sameSegment "api" first) eqn:Hfirst; [|discriminate].
  intros [= <-]. exists first, rest. split; [reflexivity|].
  split; [apply sameSegment_lower in Hfirst; exact Hfirst|]. split; [reflexivity|].
  intros Hne. apply split_join; [exact Hne|].
  inversion Hfree as [|? ? _ Htail]; subst. inversion Htail; subst. assumption.
Qed.

Lemma api_route_unmounted pattern url :
  mountedPath ["api"] url = None -> matchRoute (Lit "api" :: pattern) url = false.
Proof.
  unfold mountedPath, matchRoute.
  destruct (Js.split "/"%char url) as [|[|] [|first rest]]; try reflexivity.
  cbn [belowMount matchSegs]. destruct (sameSegment "api" first); [discriminate | reflexivity].
Qed.

(** The segments of a path below [/api] whose rest is a given text. *)
Lemma mounted_api_segments url text :
  text <> EmptyString ->
  mountedPath ["api"] url = Some ("/" ++ text) ->
  exists first,
    Js.split "/"%char url = EmptyString :: first :: Js.split "/"%char text
    /\ Js.toLowerCase first = "api".
Proof.
  intros Htext Hmount.
  apply mounted_api in Hmount as (first & rest & Hsplit & Hfirst & Hpath & Hrest).
  assert (Hjoin : text = Js.join "/" rest) by (injection Hpath; intros E; exact E).
  exists first. split; [|exact Hfirst].
  rewrite Hsplit, Hjoin, Hrest; [reflexivity|].
  intros ->. apply Htext. exact Hjoin.
Qed.

(** The layers on a request whose path has the segments [api], then those
    of [text]. *)
Ltac on_path Hsplit Hfirst :=
  unfold app; cbn [runLayers]; unfold mountedPath, matchRoute;
  rewrite Hsplit; cbn [belowMount matchSegs]; unfold sameSegment;
  rewrite Hfirst.

(** X20.  What a caller without credentials can reach.  For a request that
    resolved to no Principal, the only handler bodies that ever run are those
    of the five allowlisted routes and, because the allowlist is compared with
    the path alone and not with the method, the body of
    [DELETE /api/documents/:id] for the id [events], which such a request does
    reach. *)
Theorem unauthenticated_reach (req : Request) :
  (forall h,
      snd (runLayers app None req) = Body h ->
      publicHandler h = true
      \/ (h = Storage "deleteDocument"
          /\ method req = "DELETE"
          /\ mountedPath ["api"] (path req) = Some "/documents/events"))
  /\ (method req = "DELETE" ->
      path req = "/api/documents/events" ->
      runLayers app None req
      = ([Gate "api"; Entered (Storage "deleteDocument")], Body (Storage "deleteDocument"))).
Proof.
  split.
  2:{ destruct req as [verb url hdrs address content]. cbn [method path].
      intros -> ->. vm_compute. reflexivity. }
  intros h.
  destruct (mountedPath ["api"] (path req)) as [reqPath|] eqn:Hmount.
  - destruct (existsb (String.eqb reqPath) publicApiPaths) eqn:Hpublic.
    + cbn [existsb publicApiPaths] in Hpublic.
      repeat (apply orb_true_iff in Hpublic as [Hpublic|Hpublic]);
        try discriminate Hpublic;
        apply String.eqb_eq in Hpublic; subst reqPath;
        pose proof Hmount as Hsegs;
        apply mounted_api_segments in Hsegs as (first & Hsplit & Hfirst);
        try discriminate;
        on_path Hsplit Hfirst;
        destruct (handlesMethod "DELETE" req) eqn:Hdelete;
        generalize (handlesMethod "GET" req) (handlesMethod "POST" req)
                   (handlesMethod "PUT" req) (handlesMethod "PATCH" req);
        intros isGet isPost isPut isPatch H; vm_compute in H;
        destruct isGet, isPost, isPut, isPatch; cbv iota in H;
        try discriminate H; injection H as <-;
        try (left; reflexivity);
        (right; split; [reflexivity|];
         split; [apply handlesMethod_other; [discriminate | exact Hdelete] | reflexivity]).
    + unfold app. cbn [runLayers]. rewrite Hmount. unfold apiGate. rewrite Hpublic.
      discriminate.
  - unfold app. cbn [runLayers]. rewrite Hmount.
    destruct (mountedPath ["api"; "admin"] (path req)) as [adminPath|] eqn:Hadmin.
    { apply mounted_admin_api in Hadmin as [apiPath Hapi]. congruence. }
    rewrite !(api_route_unmounted _ _ Hmount), !andb_false_r.
    destruct (handlesMethod "GET" req && matchRoute _ (path req)); discriminate.
Qed.

Lemma unauthenticated_reach_witness :
  runLayers app None (Toy.request "DELETE" "/api/documents/events" [])
  = ([Gate "api"; Entered (Storage "deleteDocument")], Body (Storage "deleteDocument"))
  /\ (publicHandler (Storage "deleteDocument") = true
      \/ (Storage "deleteDocument" = Storage "deleteDocument"
          /\ method (Toy.request "DELETE" "/api/documents/events" []) = "DELETE"
          /\ mountedPath ["api"] (path (Toy.request "DELETE" "/api/documents/events" []))
             = Some "/documents/events")).
Proof.
  split.
  - apply (proj2 (unauthenticated_reach (Toy.request "DELETE" "/api/documents/events" [])));
      reflexivity.
  - apply (proj1 (unauthenticated_reach (Toy.request "DELETE" "/api/documents/events" []))
             (Storage "deleteDocument")).
    reflexivity.
Defined.

(** ** The bus, step by step *)

Section BusSteps.

Variable rt : Runtime.

Lemma writeOrDrop_sequence data st a :
  documentEventSequence (writeOrDrop data st a) = documentEventSequence st.
Proof. rewrite writeOrDrop_spec. destruct (canWrite st a); reflexivity. Qed.

Lemma fold_writeOrDrop_sequence data l : forall st,
  documentEventSequence (fold_left (writeOrDrop data) l st) = documentEventSequence st.
Proof.
  induction l as [|a l IH]; intros st; cbn [fold_left]; [reflexivity|].
  rewrite IH. apply writeOrDrop_sequence.
Qed.


Lemma subscribe_sequence clock res st :
  documentEventSequence (fst (subscribe rt clock res st))
  = documentEventSequence st + (if canWrite st res then 1 else 0).
Proof.
  unfold subscribe. rewrite write_spec.
  change (canWrite (withClients st (setAdd res (documentEventClients st))) res)
    with (canWrite st res).
  destruct (canWrite st res); cbn [fst withClients documentEventSequence]; [|lia].
  unfold toSseData. cbn [fst snd]. rewrite write_spec.
  destruct (canWrite _ res); reflexivity.
Qed.

Lemma busStep_sequence st op :
  documentEventSequence (busStep rt st op)
  = documentEventSequence st + (if advances st op then 1 else 0).
Proof.
  destruct op as [clock payload | clock res | res | res | ]; cbn [busStep advances].
  - unfold broadcastDocumentsChanged.
    destruct (length (documentEventClients st) =? 0)%nat; cbn [negb]; [lia|].
    rewrite fold_writeOrDrop_sequence. reflexivity.
  - rewrite subscribe_sequence.
    destruct (openSocket_spec res st) as (_ & -> & _). reflexivity.
  - cbn. lia.
  - destruct (failSocket_spec res st) as (_ & -> & _). lia.
  - unfold keepAliveTick.
    destruct (length (documentEventClients st) =? 0)%nat; [lia|].
    rewrite fold_writeOrDrop_sequence. lia.
Qed.

(** X21.  The event sequence over the life of the process.  A step takes
    exactly one number from the sequence when it is a publish with at least
    one subscriber registered or a new stream whose connection accepts the
    first write (the initial event has an id of its own), and none otherwise;
    so over any trace of publishes, new streams, closes, transport failures
    and keep-alive ticks the sequence never decreases and grows by at most
    the number of steps. *)
Theorem sequence_over_traces (ops : list BusOp) (st : State) :
  (forall op,
      documentEventSequence (busStep rt st op)
      = documentEventSequence st + (if advances st op then 1 else 0))
  /\ documentEventSequence st <= documentEventSequence (runBus rt ops st)
     <= documentEventSequence st + Z.of_nat (length ops).
Proof.
  split; [intros op; apply busStep_sequence|].
  revert st. induction ops as [|op ops IH]; intros st; cbn [runBus fold_left length].
  - lia.
  - specialize (IH (busStep rt st op)). unfold runBus in IH.
    rewrite busStep_sequence in IH.
    destruct (advances st op); lia.
Qed.

Lemma inSet_setAdd c res l : c <> res -> inSet c (setAdd res l) = inSet c l.
Proof.
  intros Hne. unfold setAdd. destruct (inSet res l); [reflexivity|].
  unfold inSet. rewrite existsb_app. cbn [existsb].
  destruct (Nat.eqb_spec c res) as [E|_]; [contradiction|].
  rewrite !orb_false_r. reflexivity.
Qed.

Lemma inSet_filter c (f : Client -> bool) l :
  inSet c (List.filter f l) = inSet c l && f c.
Proof.
  induction l as [|a l IH]; [reflexivity|]. cbn [List.filter].
  unfold inSet in *. destruct (f a) eqn:Hf; cbn [existsb]; rewrite IH.
  - destruct (Nat.eqb_spec c a) as [->|_]; [rewrite Hf; reflexivity | reflexivity].
  - destruct (Nat.eqb_spec c a) as [->|_]; [rewrite Hf, !andb_false_r; reflexivity|].
    reflexivity.
Qed.



(** X23.  A tick of the keep-alive timer.  It leaves the sequence alone,
    writes the comment [: keepalive] to every registered subscriber whose
    connection accepts it and to nobody else, and drops from the registry
    exactly the subscribers whose write throws: after a tick everybody
    registered has a working connection. *)
Theorem keepalive_tick (st : State) :
  List.NoDup (documentEventClients st) ->
  let st' := keepAliveTick st in
  documentEventSequence st' = documentEventSequence st
  /\ (forall c, registered st' c = registered st c && canWrite st c)
  /\ (forall c,
         receivedBy st' c
         = if registered st c && canWrite st c
           then (receivedBy st c ++ [keepAliveText])%list
           else receivedBy st c)
  /\ (forall c, registered st' c = true -> canWrite st' c = true).
Proof.
  intros Hnd st'. destruct (keepAlive_spec st Hnd) as (Hseq & Hcl & Hso).
  fold st' in Hseq, Hcl, Hso.
  assert (Hreg : forall c, registered st' c = registered st c && canWrite st c).
  { intros c. unfold registered. rewrite Hcl. apply inSet_filter. }
  split; [exact Hseq|]. split; [exact Hreg|]. split.
  - intros c. unfold receivedBy. rewrite (Hso c).
    destruct (registered st c && canWrite st c) eqn:E; [|reflexivity].
    apply andb_true_iff in E as [_ E]. unfold canWrite in E.
    destruct (sockets st !! c) as [conn|]; [reflexivity | discriminate E].
  - intros c H. rewrite Hreg in H. unfold canWrite. rewrite (Hso c), H.
    apply andb_true_iff in H as [_ H]. unfold canWrite in H.
    destruct (sockets st !! c) as [conn|]; [reflexivity | discriminate H].
Qed.

(** X24.  A new event stream.  On a connection that accepts writes the
    handler registers the subscriber, takes the next number of the sequence
    and writes exactly two things to it, the retry hint and the initial event
    carrying that number; nobody else is written anything.  On a connection
    that refuses the first write the handler throws, the sequence is left
    alone and nothing is written, but the subscriber stays in the registry
    (until a later publish or tick drops it). *)
Theorem subscribe_effect (clock : DateTime) (res : Client) (st : State) :
  let st' := fst (subscribe rt clock res st) in
  registered st' res = true
  /\ (forall c, c <> res ->
        registered st' c = registered st c /\ receivedBy st' c = receivedBy st c)
  /\ (canWrite st res = true ->
      snd (subscribe rt clock res st) = None
      /\ documentEventSequence st' = documentEventSequence st + 1
      /\ receivedBy st' res
         = (receivedBy st res
              ++ [("retry: 3000" ++ LF ++ LF)%string;
                  sseFrame rt (documentEventSequence st + 1) "documents_changed"
                    (initialPayload clock)])%list)
  /\ (canWrite st res = false ->
      snd (subscribe rt clock res st) = Some (OtherError "write failed")
      /\ documentEventSequence st' = documentEventSequence st
      /\ receivedBy st' res = receivedBy st res).
Proof.
  intros st'.
  destruct (subscribe_spec rt clock res st) as (Hcl & _ & Hso). fold st' in Hcl, Hso.
  split; [|split; [|split]].
  - unfold registered. rewrite Hcl. unfold setAdd.
    destruct (inSet res (documentEventClients st)) eqn:E; [exact E|].
    unfold inSet. rewrite existsb_app. cbn [existsb]. rewrite Nat.eqb_refl.
    apply orb_true_iff. right. reflexivity.
  - intros c Hne. split.
    + unfold registered. rewrite Hcl. apply inSet_setAdd. exact Hne.
    + unfold receivedBy. rewrite (Hso c Hne). reflexivity.
  - intros Hcan. subst st'. unfold subscribe. rewrite write_spec.
    change (canWrite (withClients st (setAdd res (documentEventClients st))) res)
      with (canWrite st res).
    rewrite Hcan. unfold toSseData. cbn [fst snd]. rewrite write_spec.
    unfold canWrite in Hcan |- *. cbn [sockets withClients].
    rewrite lookup_alter_eq.
    destruct (sockets st !! res) as [conn|] eqn:Hres; [|discriminate Hcan].
    cbn [fmap option_fmap option_map delivered writable fst snd].
    split; [reflexivity|]. split; [reflexivity|].
    unfold receivedBy. cbn [sockets]. rewrite !lookup_alter_eq, Hres.
    cbn [fmap option_fmap option_map delivered received].
    rewrite <- app_assoc. reflexivity.
  - intros Hcan. subst st'. unfold subscribe. rewrite write_spec.
    change (canWrite (withClients st (setAdd res (documentEventClients st))) res)
      with (canWrite st res).
    rewrite Hcan. cbn [fst snd]. repeat split; reflexivity.
Qed.

End BusSteps.

Lemma keepalive_tick_witness :
  documentEventSequence (keepAliveTick toyBus) = documentEventSequence toyBus.
Proof.
  apply (keepalive_tick toyBus).
  change (documentEventClients toyBus) with [7%nat]. repeat constructor. intros [].
Defined.


Lemma subscribe_effect_witness :
  snd (subscribe Toy.rt toyClock 7%nat (openSocket 7%nat toyIdle)) = None
  /\ documentEventSequence (fst (subscribe Toy.rt toyClock 7%nat (openSocket 7%nat toyIdle)))
     = documentEventSequence (openSocket 7%nat toyIdle) + 1
  /\ receivedBy (fst (subscribe Toy.rt toyClock 7%nat (openSocket 7%nat toyIdle))) 7%nat
     = (receivedBy (openSocket 7%nat toyIdle) 7%nat
          ++ [("retry: 3000" ++ LF ++ LF)%string;
              sseFrame Toy.rt (documentEventSequence (openSocket 7%nat toyIdle) + 1)
                "documents_changed" (initialPayload toyClock)])%list.
Proof.
  apply (proj1 (proj2 (proj2 (subscribe_effect Toy.rt toyClock 7%nat
                                (openSocket 7%nat toyIdle))))).
  vm_compute. reflexivity.
Defined.

(** ** The trigger and the forwarded address *)

Lemma isLoopbackAddress_trim address :
  isLoopbackAddress (Some (Js.trim address)) = isLoopbackAddress (Some address).
Proof.
  unfold isLoopbackAddress, default. cbn [from_option id].
  rewrite TrimFacts.trim_idem. reflexivity.
Qed.

(** X25.  The loopback check trusts [X-Forwarded-For].  When the first entry
    of the header is a loopback address, the request counts as a loopback
    request whatever address the connection really comes from; so with no
    shared secret configured, any caller that sends such a header passes the
    check of the trigger, and the broadcast runs when the [documentId] and
    the [reason] of its body convert to text. *)
Theorem forwarded_for_is_trusted
    (rt : Runtime) (clock : DateTime) (req : Request) (st : State)
    (address others : string) :
  isLoopbackAddress (Some address) = true ->
  Js.allChars (fun c => negb (Ascii.eqb c ","%char)) address = true ->
  headers req !! "x-forwarded-for" = Some address
  \/ headers req !! "x-forwarded-for" = Some (address ++ String ","%char others) ->
  isLoopbackRequest req = true
  /\ accepted "" req = true
  /\ forall documentId reason,
       bodyText rt req "documentId" = Ret documentId ->
       bodyText rt req "reason" = Ret reason ->
       exists response payload,
         documentsInserted rt "" clock req st
         = Ret (response, broadcastDocumentsChanged rt clock payload st)
         /\ status response = 200.
Proof.
  intros Hloop Hcomma Hheader.
  assert (Hreq : isLoopbackRequest req = true).
  { unfold isLoopbackRequest.
    assert (Hfirst : hd EmptyString
                       (Js.split ","%char (default "" (headers req !! "x-forwarded-for")))
                     = address).
    { destruct Hheader as [-> | ->]; unfold default; cbn [from_option id].
      - rewrite (JsFacts.split_nosep _ _ Hcomma). reflexivity.
      - rewrite (JsFacts.split_cons _ _ _ Hcomma). reflexivity. }
    rewrite Hfirst, isLoopbackAddress_trim, Hloop. reflexivity. }
  assert (Haccepted : accepted "" req = true).
  { unfold accepted, triggerGuard. cbn [nonEmpty Js.isEmpty negb]. rewrite Hreq. reflexivity. }
  split; [exact Hreq|].
  split; [exact Haccepted|].
  intros documentId reason Hid Hreason.
  rewrite (documentsInserted_accepted rt "" clock req st _ _ Haccepted Hid Hreason).
  eexists _, _. split; reflexivity.
Qed.

Lemma forwarded_for_is_trusted_witness :
  isLoopbackRequest
    (Toy.request "POST" "/api/internal/documents-inserted"
       [("x-forwarded-for", "127.0.0.1, 198.51.100.7")])
  = true
  /\ exists response payload,
       documentsInserted Toy.rt "" toyClock
         (Toy.request "POST" "/api/internal/documents-inserted"
            [("x-forwarded-for", "127.0.0.1, 198.51.100.7")]) toyBus
       = Ret (response, broadcastDocumentsChanged Toy.rt toyClock payload toyBus)
       /\ status response = 200.
Proof.
  destruct (forwarded_for_is_trusted Toy.rt toyClock
              (Toy.request "POST" "/api/internal/documents-inserted"
                 [("x-forwarded-for", "127.0.0.1, 198.51.100.7")])
              toyBus "127.0.0.1" " 198.51.100.7")
    as (Hloop & _ & Hrun).
  - vm_compute. reflexivity.
  - vm_compute. reflexivity.
  - right. vm_compute. reflexivity.
  - split; [exact Hloop|]. apply (Hrun "" ""); reflexivity.
Defined.

(** X26.  What the trigger reports.  For an accepted request whose
    [documentId] and [reason] convert to text, the [clients] count in the
    answer is the number of subscribers that are registered after the
    broadcast, which is the number of registered subscribers the event was
    written to; the event carries the two texts, [monitor] standing for a
    reason that is empty and [null] for a document id that is.  An accepted
    request on which one of the conversions throws, a [documentId] or a
    [reason] that is an object with a [toString] of its own, is answered 500
    by the error handler, and nothing is broadcast. *)
Theorem trigger_reports_deliveries
    (rt : Runtime) (monitorEventToken : string) (clock : DateTime) (req : Request)
    (st : State) :
  List.NoDup (documentEventClients st) ->
  accepted monitorEventToken req = true ->
  (forall documentId reason,
      bodyText rt req "documentId" = Ret documentId ->
      bodyText rt req "reason" = Ret reason ->
      documentsInserted rt monitorEventToken clock req st
      = Ret (reply 200
               (JObject [("success", JBool true);
                         ("clients",
                          JNumber (Fin (Z.of_nat
                                          (length (List.filter (canWrite st)
                                                     (documentEventClients st))))))]),
             broadcastDocumentsChanged rt clock
               [("source", JString "monitor");
                ("reason", JString (if Js.isEmpty reason then "monitor" else reason));
                ("documentId", if Js.isEmpty documentId then JNull else JString documentId)]
               st))
  /\ (forall e,
        bodyText rt req "documentId" = Throw e
        \/ (returns (bodyText rt req "documentId") /\ bodyText rt req "reason" = Throw e) ->
        documentsInserted rt monitorEventToken clock req st = Throw e
        /\ settle st (documentsInserted rt monitorEventToken clock req st)
           = (reply 500 (errorBody "internal server error"), st)).
Proof.
  intros Hnd Haccepted. split.
  - intros documentId reason Hid Hreason.
    rewrite (documentsInserted_accepted rt _ clock req st _ _ Haccepted Hid Hreason).
    cbv zeta.
    assert (Hcount : forall payload,
               length (documentEventClients (broadcastDocumentsChanged rt clock payload st))
               = length (List.filter (canWrite st) (documentEventClients st))).
    { intros payload.
      destruct (Nat.eqb_spec (length (documentEventClients st)) 0) as [Hzero|Hsome].
      - unfold broadcastDocumentsChanged. rewrite Hzero. cbn [Nat.eqb]. clear Hnd.
        destruct (documentEventClients st); [reflexivity | discriminate Hzero].
      - assert (Hne : documentEventClients st <> []).
        { intros E. rewrite E in Hsome. apply Hsome. reflexivity. }
        destruct (broadcast_spec rt clock payload st Hnd Hne) as (_ & -> & _). reflexivity. }
    rewrite Hcount. reflexivity.
  - intros e Hthrow.
    assert (Hraised : documentsInserted rt monitorEventToken clock req st = Throw e).
    { unfold accepted in Haccepted. unfold documentsInserted.
      destruct (triggerGuard monitorEventToken req); [discriminate Haccepted|].
      destruct Hthrow as [-> | [[documentId ->] ->]]; reflexivity. }
    split; [exact Hraised|]. rewrite Hraised. reflexivity.
Qed.

Lemma trigger_reports_deliveries_witness :
  settle toyBus (documentsInserted Toy.rt "" toyClock toyBadTrigger toyBus)
  = (reply 500 (errorBody "internal server error"), toyBus)
  /\ exists st',
       documentsInserted Toy.rt "" toyClock toyLoopback toyBus
       = Ret (reply 200
                (JObject [("success", JBool true);
                          ("clients",
                           JNumber (Fin (Z.of_nat
                                           (length (List.filter (canWrite toyBus)
                                                      (documentEventClients toyBus))))))]),
              st').
Proof.
  assert (Hnd : List.NoDup (documentEventClients toyBus)).
  { change (documentEventClients toyBus) with [7%nat]. repeat constructor. intros []. }
  split.
  - apply (proj2 (trigger_reports_deliveries Toy.rt "" toyClock toyBadTrigger toyBus Hnd
                    eq_refl) TypeError).
    left. reflexivity.
  - eexists.
    apply (proj1 (trigger_reports_deliveries Toy.rt "" toyClock toyLoopback toyBus Hnd
                    eq_refl) "" ""); reflexivity.
Defined.

(** ** The accounts of a fresh database *)



(** ** Paging *)

(** X28.  Whatever the query string holds and whatever [parseInt] makes of
    it, the page size handed to the [LIMIT] of [GET /api/documents] is an
    integer from 1 to 200, and the page is at least 1.  The handler gets
    that far unless [String] throws on the query value, which it does on an
    object with a [toString] of its own and on nothing that a query string
    is parsed to: a text, an array or an object of such, without names of
    [Object.prototype]. *)
Theorem page_size_bounds (rt : Runtime) (parseInt10 : string -> jsnum) (query : jsval) :
  match pageSizeOf rt parseInt10 query with
  | Ret size => exists n, size = Fin n /\ 1 <= n <= 200
  | Throw e => ToString rt (Val.nullish query (JString "50")) = Throw e
  end
  /\ match pageOf rt parseInt10 query with
     | Ret page => page = PosInf \/ exists p, page = Fin p /\ 1 <= p
     | Throw e => ToString rt (Val.nullish query (JString "1")) = Throw e
     end
  /\ (throwsOnString query = false ->
      returns (pageSizeOf rt parseInt10 query) /\ returns (pageOf rt parseInt10 query)).
Proof.
  unfold pageSizeOf, pageOf, orDefault. split; [|split].
  - destruct (ToString rt _) as [text|e]; cbn [mbind exn_bind]; [|reflexivity].
    destruct (parseInt10 text) as [z| | |]; cbn [Val.truthy mathMin mathMax].
    + destruct (z =? 0); cbn [negb mathMin mathMax]; eexists; (split; [reflexivity | lia]).
    + eexists; (split; [reflexivity | lia]).
    + eexists; (split; [reflexivity | lia]).
    + eexists; (split; [reflexivity | lia]).
  - destruct (ToString rt _) as [text|e]; cbn [mbind exn_bind]; [|reflexivity].
    destruct (parseInt10 text) as [z| | |]; cbn [Val.truthy mathMax].
    + right. destruct (z =? 0); cbn [negb mathMax]; eexists; (split; [reflexivity | lia]).
    + right. eexists; (split; [reflexivity | lia]).
    + left. reflexivity.
    + right. eexists; (split; [reflexivity | lia]).
  - intros Hquery.
    assert (Hconverts : forall fallback,
               returns (ToString rt (Val.nullish query (JString fallback)))).
    { intros fallback. apply ToString_returns.
      destruct query; try exact Hquery; reflexivity. }
    split.
    + destruct (Hconverts "50") as [text ->]. eexists. reflexivity.
    + destruct (Hconverts "1") as [text ->]. eexists. reflexivity.
Qed.

Lemma page_size_bounds_witness :
  returns (pageSizeOf Toy.rt Toy.toNumber (JArray [JString "500"; JString "7"]))
  /\ returns (pageOf Toy.rt Toy.toNumber (JArray [JString "500"; JString "7"])).
Proof.
  apply (proj2 (proj2 (page_size_bounds Toy.rt Toy.toNumber
                         (JArray [JString "500"; JString "7"])))).
  reflexivity.
Defined.

(** ** Documents and their classes *)

Lemma existsb_length_filter {A : Type} (f : A -> bool) l :
  existsb f l = (0 <? length (List.filter f l))%nat.
Proof.
  induction l as [|x l IH]; [reflexivity|]. cbn [existsb List.filter].
  destruct (f x); [reflexivity | exact IH].
Qed.

Lemma existsb_filter_other (id c : string) classes :
  c <> id ->
  existsb (classWithId c) (List.filter (fun r => negb (classWithId id r)) classes)
  = existsb (classWithId c) classes.
Proof.
  intros Hne. induction classes as [|r classes IH]; [reflexivity|].
  cbn [List.filter existsb].
  destruct (classWithId id r) eqn:Hid; cbn [negb existsb].
  - rewrite IH. unfold classWithId in *. apply String.eqb_eq in Hid.
    destruct (String.eqb_spec (DocumentClasses.DocumentClassID r) c) as [E|_];
      [congruence | reflexivity].
  - rewrite IH. reflexivity.
Qed.

(** X29.  The handlers keep the references of documents to their classes on
    their own.  [DELETE /api/document-classes/:id] and
    [PATCH /api/documents/:id/doc-class] never run into the foreign-key
    constraint of the database: a class still in use is refused with 400 and
    so is an unknown class.  The delete raises nothing at all; the only
    thing the patch can raise is the exception of [String] on a [docClass]
    that is an object with a [toString] of its own, before it has read or
    changed anything.  And if every document's class is a row of
    [DocumentClasses] or [NULL] before, it is so after. *)
Theorem class_references_hold (rt : Runtime) (lib : Library) :
  (forall id,
      exists response lib',
        deleteDocumentClass id lib = Done (response, lib')
        /\ (referencesHold lib -> referencesHold lib')
        /\ (existsb (ofClass id) (tblDocuments lib) = true ->
            response = reply 400 (errorBody "document class is referenced by documents")
            /\ lib' = lib))
  /\ (forall id req,
        match textOrNull rt (Val.get (body req) "docClass") with
        | Ret docClass =>
            exists response lib',
              patchDocClass rt id req lib = Done (response, lib')
              /\ (referencesHold lib -> referencesHold lib')
              /\ (forall c,
                    docClass = Some c ->
                    existsb (classWithId c) (tblDocumentClasses lib) = false ->
                    response = reply 400 (errorBody "document class not found")
                    /\ lib' = lib)
        | Throw e => patchDocClass rt id req lib = Raise (Uncaught e)
        end).
Proof.
  split.
  - intros id. unfold deleteDocumentClass, deleteClasses.
    rewrite (existsb_length_filter (ofClass id)).
    destruct (0 <? length (List.filter (ofClass id) (tblDocuments lib)))%nat eqn:Hrefs.
    { eexists _, _. split; [reflexivity|]. split; [tauto|]. intros _. split; reflexivity. }
    rewrite andb_false_r.
    assert (Hgoal : referencesHold lib ->
                    referencesHold
                      {| tblDocumentClasses :=
                           List.filter (fun r => negb (classWithId id r))
                             (tblDocumentClasses lib);
                         tblDocuments := tblDocuments lib |}).
    { intros Hold d c Hd Hc. cbn [tblDocuments tblDocumentClasses] in *.
      assert (Hne : c <> id).
      { intros ->. rewrite <- existsb_length_filter in Hrefs.
        assert (Hex : existsb (ofClass id) (tblDocuments lib) = true).
        { apply existsb_exists. exists d. split; [exact Hd|].
          unfold ofClass. rewrite Hc. apply String.eqb_refl. }
        congruence. }
      rewrite (existsb_filter_other _ _ _ Hne). apply (Hold d c Hd Hc). }
    destruct (length (List.filter (classWithId id) (tblDocumentClasses lib)) =? 0)%nat;
      eexists _, _; (split; [reflexivity|]; split; [exact Hgoal | discriminate]).
  - intros id req. unfold patchDocClass, updateDocumentClassId.
    assert (Hgoal : forall docClass,
               match docClass with
               | Some c => existsb (classWithId c) (tblDocumentClasses lib) = true
               | None => True
               end ->
               referencesHold lib ->
               referencesHold
                 {| tblDocumentClasses := tblDocumentClasses lib;
                    tblDocuments :=
                      List.map (fun r => if documentWithId id r
                                         then withClass docClass r else r)
                        (tblDocuments lib) |}).
    { intros docClass Hclass Hold d c Hd Hc. cbn [tblDocuments tblDocumentClasses] in *.
      apply in_map_iff in Hd as (r & <- & Hr).
      destruct (documentWithId id r); [|apply (Hold r c Hr Hc)].
      cbn [withClass Documents.DocumentClassID] in Hc. subst docClass. exact Hclass. }
    destruct (textOrNull rt (Val.get (body req) "docClass")) as [[c|]|e];
      cbn [attempt mbind Attempt_bind]; [| |reflexivity].
    + destruct (existsb (classWithId c) (tblDocumentClasses lib)) eqn:Hclass; cbn [negb].
      * rewrite andb_false_r.
        destruct (length (List.filter (documentWithId id) (tblDocuments lib)) =? 0)%nat;
          eexists _, _;
          (split; [reflexivity|];
           split; [apply (Hgoal (Some c)); exact Hclass | intros c' [= <-]; congruence]).
      * eexists _, _. split; [reflexivity|]. split; [tauto|].
        intros c' _ _. split; reflexivity.
    + rewrite andb_false_r.
      destruct (length (List.filter (documentWithId id) (tblDocuments lib)) =? 0)%nat;
        eexists _, _;
        (split; [reflexivity|]; split; [apply (Hgoal None); exact I | discriminate]).
Qed.

Lemma class_references_hold_witness :
  (exists response lib',
      deleteDocumentClass "Invoice" toyLibrary = Done (response, lib')
      /\ (referencesHold toyLibrary -> referencesHold lib')
      /\ (existsb (ofClass "Invoice") (tblDocuments toyLibrary) = true ->
          response = reply 400 (errorBody "document class is referenced by documents")
          /\ lib' = toyLibrary))
  /\ patchDocClass Toy.rt "d1" toyBadDocClass toyLibrary = Raise (Uncaught TypeError).
Proof.
  split.
  - apply (proj1 (class_references_hold Toy.rt toyLibrary) "Invoice").
  - apply (proj2 (class_references_hold Toy.rt toyLibrary) "d1" toyBadDocClass).
Defined.
